(** * Machina mission orchestration engine: a shallow embedding

    The development follows [app/core/orchestration/agent_orchestrator.py],
    [agent_state.py], [data_models.py], [app/core/tools/registry.py] and the
    state repositories.  Python objects that are mutated in place become
    explicit state passing; exceptions become a result type; the LLM bridge,
    the JSON codec and the prompt renderers are collaborators gathered in one
    interface, so that every statement holds for any behaviour of theirs. *)

From Stdlib Require Import String Ascii List ZArith QArith Bool Lia DecimalString.
Import ListNotations.
Local Open Scope string_scope.
Set Warnings "-register-all".

(** ** Python string operations used by the orchestrator *)

Module Py.

Definition is_space (c : ascii) : bool :=
  let n := nat_of_ascii c in
  ((9 <=? n) && (n <=? 13) || (28 <=? n) && (n <=? 32))%nat.

Definition lower_ascii (c : ascii) : ascii :=
  let n := nat_of_ascii c in
  if ((65 <=? n) && (n <=? 90))%nat then ascii_of_nat (n + 32) else c.

(** [s.lower()] on the ASCII range. *)
Fixpoint lower (s : string) : string :=
  match s with
  | EmptyString => EmptyString
  | String c s' => String (lower_ascii c) (lower s')
  end.

Fixpoint lstrip (s : string) : string :=
  match s with
  | EmptyString => EmptyString
  | String c s' => if is_space c then lstrip s' else s
  end.

Fixpoint rev_string (acc s : string) : string :=
  match s with
  | EmptyString => acc
  | String c s' => rev_string (String c acc) s'
  end.

(** [s.strip()] *)
Definition strip (s : string) : string :=
  rev_string "" (lstrip (rev_string "" (lstrip s))).

(** [s.startswith(p)] *)
Fixpoint startswith (p s : string) : bool :=
  match p, s with
  | EmptyString, _ => true
  | String a p', String b s' => Ascii.eqb a b && startswith p' s'
  | String _ _, EmptyString => false
  end.

(** [s.endswith(p)] *)
Definition endswith (p s : string) : bool :=
  startswith (rev_string "" p) (rev_string "" s).

(** [p in s] for strings. *)
Fixpoint contains (p s : string) : bool :=
  startswith p s ||
  match s with
  | EmptyString => false
  | String _ s' => contains p s'
  end.

Fixpoint drop (n : nat) (s : string) : string :=
  match n, s with
  | O, _ => s
  | S n', String _ s' => drop n' s'
  | S _, EmptyString => EmptyString
  end.

(** [s[:n]] *)
Fixpoint take (n : nat) (s : string) : string :=
  match n, s with
  | S n', String c s' => String c (take n' s')
  | _, _ => EmptyString
  end.

(** The text before and after the first occurrence of [sep]. *)
Fixpoint partition (sep s : string) : option (string * string) :=
  if startswith sep s then Some (EmptyString, drop (String.length sep) s)
  else match s with
       | EmptyString => None
       | String c s' =>
           match partition sep s' with
           | Some (a, b) => Some (String c a, b)
           | None => None
           end
       end.

Fixpoint split_aux (fuel : nat) (sep s : string) : list string :=
  match fuel with
  | O => [s]
  | S fuel' =>
      match partition sep s with
      | None => [s]
      | Some (a, b) => a :: split_aux fuel' sep b
      end
  end.

(** [s.split(sep)] for a non-empty separator. *)
Definition split (sep s : string) : list string :=
  split_aux (S (String.length s)) sep s.

(** [sep.join(l)] *)
Fixpoint join (sep : string) (l : list string) : string :=
  match l with
  | [] => ""
  | [x] => x
  | x :: r => x ++ sep ++ join sep r
  end.

(** [x in l] for a list of strings. *)
Definition mem (x : string) (l : list string) : bool :=
  existsb (String.eqb x) l.

End Py.

(** ** Indexing a list from its end *)

Module PyList.

(** [l[-1]], when there is one. *)
Definition last {A} (l : list A) : option A :=
  match rev l with
  | x :: _ => Some x
  | [] => None
  end.

(** [l[-2]], when there is one. *)
Definition last_but_one {A} (l : list A) : option A :=
  match rev l with
  | _ :: x :: _ => Some x
  | _ => None
  end.

End PyList.

(** ** Insertion-ordered dictionaries with string keys *)

Module Dict.

Definition t (V : Type) : Type := list (string * V).

Definition empty {V} : t V := [].

(** [d.get(k)] *)
Fixpoint get {V} (k : string) (d : t V) : option V :=
  match d with
  | [] => None
  | (k', v) :: r => if String.eqb k k' then Some v else get k r
  end.

(** [k in d] *)
Definition has {V} (k : string) (d : t V) : bool :=
  match get k d with Some _ => true | None => false end.

(** [d[k] = v]: an existing key keeps its position, a new one goes last. *)
Fixpoint set {V} (k : string) (v : V) (d : t V) : t V :=
  match d with
  | [] => [(k, v)]
  | (k', v') :: r =>
      if String.eqb k k' then (k', v) :: r else (k', v') :: set k v r
  end.

(** [d.update(other)] *)
Definition update {V} (d other : t V) : t V :=
  fold_left (fun acc kv => set (fst kv) (snd kv) acc) other d.

(** [d.pop(k, None)] and [del d[k]] for a key that is there. *)
Definition remove {V} (k : string) (d : t V) : t V :=
  filter (fun kv => negb (String.eqb k (fst kv))) d.

(** A dictionary display [{k1: v1, k2: v2, ...}]: a key written twice keeps
    its first place and its last value. *)
Definition of_literal {V} (items : list (string * V)) : t V :=
  fold_left (fun acc kv => set (fst kv) (snd kv) acc) items empty.

Definition keys {V} (d : t V) : list string := map fst d.

Definition items {V} (d : t V) : list (string * V) := d.

End Dict.

(** ** Values exchanged as JSON *)

Inductive JSON : Type :=
| JNull
| JBool (b : bool)
| JNum (q : Q)
| JStr (s : string)
| JArr (l : list JSON)
| JObj (d : list (string * JSON)).


(** Truth value of a JSON-like Python value ([if x:]). *)
Definition json_truthy (j : JSON) : bool :=
  match j with
  | JNull => false
  | JBool b => b
  | JNum q => negb (Qeq_bool q 0)
  | JStr s => negb (String.eqb s "")
  | JArr l => match l with [] => false | _ => true end
  | JObj d => match d with [] => false | _ => true end
  end.

(** ** data_models.py *)

(** [class Recommendation(str, Enum)] *)
Inductive Recommendation : Type := PUBLISH | REVISE | RESEARCH_MORE | FAIL.

Definition Recommendation_value (r : Recommendation) : string :=
  match r with
  | PUBLISH => "publish"
  | REVISE => "revise"
  | RESEARCH_MORE => "research_more"
  | FAIL => "fail"
  end.

Module TaskPlan.
Record t : Type := mk {
  task_id : string;
  description : string;
  assigned_agent : string;
  expected_output : string;
  priority : Z
}.
End TaskPlan.

Module QualityAssessment.
Record t : Type := mk {
  recommendation : Recommendation;
  reasoning : string;
  strengths : list string;
  issues_found : list string;
  confidence_score : Q
}.

(** Legacy property [overall_quality]. *)
Definition overall_quality (qa : t) : Q := confidence_score qa.

(** Legacy property [next_agent]. *)
Definition next_agent (qa : t) : string :=
  match recommendation qa with
  | PUBLISH => "END"
  | REVISE => "writer"
  | RESEARCH_MORE => "researcher"
  | FAIL => "END"
  end.
End QualityAssessment.

Module HumanRequest.
Record t : Type := mk {
  agent_name : string;
  question : string;
  context : string;
  options : option (list string);
  urgency : string;
  timeout_seconds : option Z
}.

Definition with_agent_name (a : string) (r : t) : t :=
  mk a (question r) (context r) (options r) (urgency r) (timeout_seconds r).
End HumanRequest.

(** What an agent result slot can hold ([Any] in the source). *)
Inductive ResultValue : Type :=
| VText (s : string)
| VQuality (qa : QualityAssessment.t)
| VModel (schema : string) (dump : JSON)
| VData (j : JSON).

(** [if result:] *)
Definition truthy (v : ResultValue) : bool :=
  match v with
  | VText s => negb (String.eqb s "")
  | VQuality _ => true
  | VModel _ _ => true
  | VData j => json_truthy j
  end.

(** [isinstance(v, QualityAssessment)] *)
Definition as_quality (v : option ResultValue) : option QualityAssessment.t :=
  match v with
  | Some (VQuality qa) => Some qa
  | _ => None
  end.

(** ** Exceptions (tools/registry.py and the interpreter's own) *)

Inductive Exn : Type :=
| HumanInterventionRequired (request_details : HumanRequest.t)
| JSONDecodeError (msg : string)
| PyException (cls : string) (msg : string).

(** [str(e)] *)
Definition str_exn (e : Exn) : string :=
  match e with
  | HumanInterventionRequired r =>
      "Menschliche Intervention erforderlich: " ++ HumanRequest.question r
  | JSONDecodeError m => m
  | PyException _ m => m
  end.

Definition is_signal (e : Exn) : bool :=
  match e with HumanInterventionRequired _ => true | _ => false end.

(** Outcome of running a piece of the program: a value, a raised exception,
    or a loop that has not finished within the allotted steps. *)
Inductive Res (A : Type) : Type :=
| Ret (a : A)
| Raise (e : Exn)
| Diverge.
Arguments Ret {A} a.
Arguments Raise {A} e.
Arguments Diverge {A}.

(** ** agent_state.py *)

Module AgentState.

Record t : Type := mk {
  mission_id : string;
  crew_name : string;
  high_level_goal : string;
  created_at : Z;
  task_plan : option (list TaskPlan.t);
  current_node : option string;
  completed_nodes : list string;
  results : Dict.t (Dict.t ResultValue);
  intermediate_data : Dict.t JSON;
  status : string;
  progress_percentage : Q;
  history : list string;
  error_messages : list string;
  active_human_request : option HumanRequest.t;
  started_at : option Z;
  completed_at : option Z;
  execution_time_seconds : option Z
}.

Definition set_task_plan (v : option (list TaskPlan.t)) (s : t) : t :=
  mk (mission_id s) (crew_name s) (high_level_goal s) (created_at s) v
     (current_node s) (completed_nodes s) (results s) (intermediate_data s)
     (status s) (progress_percentage s) (history s) (error_messages s)
     (active_human_request s) (started_at s) (completed_at s)
     (execution_time_seconds s).

Definition set_current (v : option string) (s : t) : t :=
  mk (mission_id s) (crew_name s) (high_level_goal s) (created_at s)
     (task_plan s) v (completed_nodes s) (results s) (intermediate_data s)
     (status s) (progress_percentage s) (history s) (error_messages s)
     (active_human_request s) (started_at s) (completed_at s)
     (execution_time_seconds s).

Definition set_completed_nodes (v : list string) (s : t) : t :=
  mk (mission_id s) (crew_name s) (high_level_goal s) (created_at s)
     (task_plan s) (current_node s) v (results s) (intermediate_data s)
     (status s) (progress_percentage s) (history s) (error_messages s)
     (active_human_request s) (started_at s) (completed_at s)
     (execution_time_seconds s).

Definition set_results (v : Dict.t (Dict.t ResultValue)) (s : t) : t :=
  mk (mission_id s) (crew_name s) (high_level_goal s) (created_at s)
     (task_plan s) (current_node s) (completed_nodes s) v (intermediate_data s)
     (status s) (progress_percentage s) (history s) (error_messages s)
     (active_human_request s) (started_at s) (completed_at s)
     (execution_time_seconds s).

Definition set_status (v : string) (s : t) : t :=
  mk (mission_id s) (crew_name s) (high_level_goal s) (created_at s)
     (task_plan s) (current_node s) (completed_nodes s) (results s)
     (intermediate_data s) v (progress_percentage s) (history s)
     (error_messages s) (active_human_request s) (started_at s)
     (completed_at s) (execution_time_seconds s).

Definition set_progress_percentage (v : Q) (s : t) : t :=
  mk (mission_id s) (crew_name s) (high_level_goal s) (created_at s)
     (task_plan s) (current_node s) (completed_nodes s) (results s)
     (intermediate_data s) (status s) v (history s) (error_messages s)
     (active_human_request s) (started_at s) (completed_at s)
     (execution_time_seconds s).

Definition set_history (v : list string) (s : t) : t :=
  mk (mission_id s) (crew_name s) (high_level_goal s) (created_at s)
     (task_plan s) (current_node s) (completed_nodes s) (results s)
     (intermediate_data s) (status s) (progress_percentage s) v
     (error_messages s) (active_human_request s) (started_at s)
     (completed_at s) (execution_time_seconds s).

Definition set_error_messages (v : list string) (s : t) : t :=
  mk (mission_id s) (crew_name s) (high_level_goal s) (created_at s)
     (task_plan s) (current_node s) (completed_nodes s) (results s)
     (intermediate_data s) (status s) (progress_percentage s) (history s) v
     (active_human_request s) (started_at s) (completed_at s)
     (execution_time_seconds s).

Definition set_active_human_request (v : option HumanRequest.t) (s : t) : t :=
  mk (mission_id s) (crew_name s) (high_level_goal s) (created_at s)
     (task_plan s) (current_node s) (completed_nodes s) (results s)
     (intermediate_data s) (status s) (progress_percentage s) (history s)
     (error_messages s) v (started_at s) (completed_at s)
     (execution_time_seconds s).

Definition set_started_at (v : option Z) (s : t) : t :=
  mk (mission_id s) (crew_name s) (high_level_goal s) (created_at s)
     (task_plan s) (current_node s) (completed_nodes s) (results s)
     (intermediate_data s) (status s) (progress_percentage s) (history s)
     (error_messages s) (active_human_request s) v (completed_at s)
     (execution_time_seconds s).

Definition set_completed_at (v : option Z) (s : t) : t :=
  mk (mission_id s) (crew_name s) (high_level_goal s) (created_at s)
     (task_plan s) (current_node s) (completed_nodes s) (results s)
     (intermediate_data s) (status s) (progress_percentage s) (history s)
     (error_messages s) (active_human_request s) (started_at s) v
     (execution_time_seconds s).

Definition set_execution_time_seconds (v : option Z) (s : t) : t :=
  mk (mission_id s) (crew_name s) (high_level_goal s) (created_at s)
     (task_plan s) (current_node s) (completed_nodes s) (results s)
     (intermediate_data s) (status s) (progress_percentage s) (history s)
     (error_messages s) (active_human_request s) (started_at s)
     (completed_at s) v.

(** The methods read the wall clock; the reading is passed in: [hms] is
    [datetime.now().strftime("%H:%M:%S")], [iso] is
    [datetime.now().isoformat()], [now] the instant itself in seconds. *)

(** The line [f"[{timestamp}] {message}"]. *)
Definition entry (hms message : string) : string :=
  "[" ++ hms ++ "] " ++ message.

Definition add_history_entry (hms message : string) (s : t) : t :=
  set_history (history s ++ [entry hms message]) s.

Definition start_execution (now : Z) (hms : string) (s : t) : t :=
  add_history_entry hms "Mission execution started"
    (set_status "RUNNING" (set_started_at (Some now) s)).

Definition complete_execution (now : Z) (hms : string) (s : t) : t :=
  let s1 := set_completed_at (Some now) s in
  let s2 := set_status "COMPLETED" s1 in
  let s3 := set_progress_percentage 100 s2 in
  let s4 := match started_at s3 with
            | Some t0 => set_execution_time_seconds (Some (now - t0)%Z) s3
            | None => s3
            end in
  add_history_entry hms "Mission execution completed successfully" s4.

(** The line [f"{datetime.now().isoformat()}: {error_message}"]. *)
Definition error_line (iso error_message : string) : string :=
  iso ++ ": " ++ error_message.

Definition mark_error (iso hms error_message : string) (s : t) : t :=
  let s1 := set_status "ERROR" s in
  let s2 := set_error_messages
              (error_messages s1 ++ [error_line iso error_message]) s1 in
  add_history_entry hms ("ERROR: " ++ error_message) s2.

Definition Qmin95 (q : Q) : Q := if Qle_bool 95 q then 95 else q.

Definition set_current_node (hms node_name : string) (s : t) : t :=
  let s1 := match current_node s with
            | Some c =>
                if negb (String.eqb c "") && negb (Py.mem c (completed_nodes s))
                then set_completed_nodes (completed_nodes s ++ [c]) s
                else s
            | None => s
            end in
  let s2 := set_current (Some node_name) s1 in
  let s3 := add_history_entry hms ("Switched to node: " ++ node_name) s2 in
  match task_plan s3 with
  | Some ((_ :: _) as plan) =>
      let completed_tasks := Z.of_nat (List.length (completed_nodes s3)) in
      let total_tasks := Z.of_nat (List.length plan) in
      set_progress_percentage
        (Qmin95 ((inject_Z completed_tasks / inject_Z total_tasks) * 100)) s3
  | _ => s3
  end.

Definition store_result (hms agent_name : string) (result : ResultValue)
    (result_type : string) (s : t) : t :=
  let slot := match Dict.get agent_name (results s) with
              | Some d => d
              | None => Dict.empty
              end in
  let s1 := set_results
              (Dict.set agent_name (Dict.set result_type result slot) (results s))
              s in
  add_history_entry hms
    ("Stored " ++ result_type ++ " result for " ++ agent_name) s1.

Definition get_result (agent_name result_type : string) (s : t)
  : option ResultValue :=
  match Dict.get agent_name (results s) with
  | Some d => Dict.get result_type d
  | None => None
  end.

Definition set_intermediate_data (v : Dict.t JSON) (s : t) : t :=
  mk (mission_id s) (crew_name s) (high_level_goal s) (created_at s)
     (task_plan s) (current_node s) (completed_nodes s) (results s) v
     (status s) (progress_percentage s) (history s) (error_messages s)
     (active_human_request s) (started_at s) (completed_at s)
     (execution_time_seconds s).

Definition get_latest_result (s : t) : option ResultValue :=
  match PyList.last (completed_nodes s) with
  | None => None
  | Some latest_agent => get_result latest_agent "output" s
  end.

End AgentState.

(** [StateManager.create_mission_state]; the fresh identifier (a random uuid
    in the source) and the creation instant are passed in. *)
Definition create_mission_state (fresh_id : string) (now : Z)
    (crew_name goal : string) : AgentState.t :=
  AgentState.mk fresh_id crew_name goal now None None [] Dict.empty Dict.empty
    "PENDING" 0 [] [] None None None None.

(** [class StateManager]: [merge_states]. *)
Module StateManager.

Definition merge_states (primary secondary : AgentState.t) : AgentState.t :=
  let primary :=
    AgentState.set_intermediate_data
      (Dict.update (AgentState.intermediate_data primary)
                   (AgentState.intermediate_data secondary)) primary in
  AgentState.set_history
    (AgentState.history primary ++ AgentState.history secondary) primary.

End StateManager.

(** ** Crew, graph and agent configuration (config/schema.py, as dictionaries) *)

Module AgentConfig.
Record t : Type := mk {
  model : string;
  role : string;
  goal : string;
  backstory : string;
  tools : list string;
  output_schema : option string;
  input_schema : option string
}.
End AgentConfig.

Module Transition.
Record t : Type := mk { condition : string; target : string }.
End Transition.

Module NodeConfig.
(** [conditional_transitions] is [None] when the key is absent from the node's
    dictionary, [Some None] when it is present with the value [None] (as in a
    dumped [NodeConfig]), [Some (Some l)] when it holds a list. *)
Record t : Type := mk {
  transitions_to : option string;
  conditional_transitions : option (option (list Transition.t))
}.
Definition empty : t := mk None None.
End NodeConfig.

Module Graph.
Record t : Type := mk {
  entry_point : option string;
  nodes : Dict.t NodeConfig.t
}.
End Graph.

Module CrewConfig.
Record t : Type := mk {
  agents : list string;
  supervisor_model : option string;
  graph : Graph.t;
  max_iterations : option Z;
  quality_threshold : option Q
}.
End CrewConfig.

(** ** The state repository (repositories/redis_agent_state_repository.py)

    A store by value: [get_by_id] returns what the last [save] wrote. *)

Module Repository.
Record t : Type := mk {
  states : Dict.t AgentState.t;
  active_missions : list string
}.

Definition empty : t := mk Dict.empty [].

Definition sadd (x : string) (l : list string) : list string :=
  if Py.mem x l then l else l ++ [x].

Definition srem (x : string) (l : list string) : list string :=
  filter (fun y => negb (String.eqb x y)) l.

Definition save (state : AgentState.t) (r : t) : t :=
  let id := AgentState.mission_id state in
  mk (Dict.set id state (states r))
     (if Py.mem (AgentState.status state)
           ["PENDING"; "PLANNING"; "RUNNING"; "AWAITING_HUMAN_INPUT"]
      then sadd id (active_missions r)
      else srem id (active_missions r)).

Definition get_by_id (mission_id : string) (r : t) : option AgentState.t :=
  Dict.get mission_id (states r).

Definition list_active_ids (r : t) : list string := active_missions r.
End Repository.

(** ** External collaborators

    The bridge answers with a text or fails with a message; it owns the
    [World] it runs in, from which the clock is read too.  The JSON codec,
    the renderers of Python values and prompts and the result structurer are
    pure functions of their arguments. *)

Class Collaborators : Type := {
  World : Type;
  now : World -> Z;
  strftime_hms : Z -> string;
  isoformat : Z -> string;
  (** [bridge.bridge_message(conversation_id, target_llm_name, message)] *)
  bridge_message : string -> string -> string -> World -> (string + string) * World;
  (** [json.loads]: the value, or the message of the [JSONDecodeError] *)
  json_loads : string -> JSON + string;
  (** rendering of a value inside an f-string *)
  py_format : JSON -> string;
  (** [f"{x:.2f}"] *)
  format_2f : Q -> string;
  _create_planning_prompt :
    Dict.t AgentConfig.t -> string -> list string -> option JSON -> string;
  _create_agent_prompt : AgentConfig.t -> string -> AgentState.t -> string;
  _create_tool_enhanced_prompt : string -> list string -> string;
  _create_tool_result_prompt : string -> string -> JSON -> list string -> string;
  _create_synthesis_prompt : string -> Dict.t ResultValue -> string;
  _create_routing_prompt :
    AgentState.t -> string -> option ResultValue -> list Transition.t -> string;
  _create_continuation_prompt : AgentConfig.t -> AgentState.t -> string -> string;
  (** what [_structure_agent_result] makes of a response under a declared
      output schema (extraction, validation and the fallbacks of each schema) *)
  structure_with_schema : string -> string -> ResultValue;
  (** what pydantic reads from a text given for an [int] field, or its
      refusal *)
  int_of_text : string -> option Z
}.

(** An entry of [TOOL_REGISTRY]: the callable takes its keyword arguments. *)
Module ToolInfo.
Record t `{Collaborators} : Type := mk {
  function : Dict.t JSON -> World -> Res JSON * World;
  description : string;
  async : bool
}.
End ToolInfo.

Definition str_nat (n : nat) : string := NilZero.string_of_uint (Nat.to_uint n).
Definition str_Z (z : Z) : string := NilZero.string_of_int (Z.to_int z).

(** ** tools/registry.py: [ask_human] *)

Definition json_str_list (j : JSON) : option (list string) :=
  match j with
  | JArr l =>
      fold_right (fun x acc =>
                    match x, acc with
                    | JStr s, Some r => Some (s :: r)
                    | _, _ => None
                    end) (Some []) l
  | _ => None
  end.

(** Binding of the keyword arguments to
    [ask_human(question, context="", options=None, urgency="medium")],
    construction of the [HumanRequest], and the raise that always follows. *)
Definition ask_human (kwargs : Dict.t JSON) : Res JSON :=
  match find (fun k => negb (Py.mem k ["question"; "context"; "options"; "urgency"]))
             (Dict.keys kwargs) with
  | Some k =>
      Raise (PyException "TypeError"
               ("ask_human() got an unexpected keyword argument '" ++ k ++ "'"))
  | None =>
      match Dict.get "question" kwargs with
      | None =>
          Raise (PyException "TypeError"
                   "ask_human() missing 1 required positional argument: 'question'")
      | Some q =>
          let ctx := match Dict.get "context" kwargs with
                     | Some c => c | None => JStr "" end in
          let urg := match Dict.get "urgency" kwargs with
                     | Some u => u | None => JStr "medium" end in
          let opts := match Dict.get "options" kwargs with
                      | Some o => o | None => JNull end in
          match q, ctx, urg with
          | JStr question, JStr context, JStr urgency =>
              match opts with
              | JNull =>
                  Raise (HumanInterventionRequired
                           (HumanRequest.mk "unknown" question context None
                              urgency (Some 300%Z)))
              | _ =>
                  match json_str_list opts with
                  | Some l =>
                      Raise (HumanInterventionRequired
                               (HumanRequest.mk "unknown" question context
                                  (Some l) urgency (Some 300%Z)))
                  | None =>
                      Raise (PyException "ValidationError"
                               "1 validation error for HumanRequest")
                  end
              end
          | _, _, _ =>
              Raise (PyException "ValidationError"
                       "1 validation error for HumanRequest")
          end
      end
  end.

(** ** The orchestrator (orchestration/agent_orchestrator.py) *)

Section Orchestrator.

Context `{Collab : Collaborators}.

(** [self.agents_config], [self.crews_config] and the module-level registry. *)
Variable agents_config : Dict.t AgentConfig.t.
Variable crews_config : Dict.t CrewConfig.t.
Variable TOOL_REGISTRY : Dict.t ToolInfo.t.

(** What a running mission reads and writes: its state object, the
    repository and the outside world. *)
Record Ctx : Type := mkCtx {
  st : AgentState.t;
  repo : Repository.t;
  world : World
}.

Definition M (A : Type) : Type := Ctx -> Res A * Ctx.

Definition ret {A} (a : A) : M A := fun c => (Ret a, c).

Definition raise {A} (e : Exn) : M A := fun c => (Raise e, c).

Definition bind {A B} (m : M A) (k : A -> M B) : M B :=
  fun c =>
    match m c with
    | (Ret a, c') => k a c'
    | (Raise e, c') => (Raise e, c')
    | (Diverge, c') => (Diverge, c')
    end.

Notation "x <- m ;; k" := (bind m (fun x => k))
  (at level 61, m at next level, right associativity).
Notation "m ;;; k" := (bind m (fun _ => k))
  (at level 61, right associativity).

(** [try: body / except HumanInterventionRequired as e: on_signal /
    except Exception as e: on_exception] *)
Definition try_except {A} (body : M A) (on_signal : HumanRequest.t -> M A)
    (on_exception : Exn -> M A) : M A :=
  fun c =>
    match body c with
    | (Raise (HumanInterventionRequired r), c') => on_signal r c'
    | (Raise e, c') => on_exception e c'
    | other => other
    end.

(** [try: body / except HumanInterventionRequired as e: on_signal] *)
Definition try_except_signal {A} (body : M A) (on_signal : HumanRequest.t -> M A)
  : M A :=
  fun c =>
    match body c with
    | (Raise (HumanInterventionRequired r), c') => on_signal r c'
    | other => other
    end.

(** [try: body / except Exception as e: on_exception]; the signal is an
    [Exception] too. *)
Definition try_except_Exception {A} (body : M A) (on_exception : Exn -> M A)
  : M A :=
  fun c =>
    match body c with
    | (Raise e, c') => on_exception e c'
    | other => other
    end.

(** A computation that touches neither state nor world. *)
Definition lift {A} (r : Res A) : M A := fun c => (r, c).

Definition get_state : M AgentState.t := fun c => (Ret (st c), c).

Definition modify (f : AgentState.t -> AgentState.t) : M unit :=
  fun c => (Ret tt, mkCtx (f (st c)) (repo c) (world c)).

Definition hms_of (c : Ctx) : string := strftime_hms (now (world c)).

(** [state.add_history_entry(message)] *)
Definition add_history (message : string) : M unit :=
  fun c => (Ret tt,
            mkCtx (AgentState.add_history_entry (hms_of c) message (st c))
                  (repo c) (world c)).

(** [state.store_result(agent_name, result, result_type)] *)
Definition store_result (agent_name : string) (result : ResultValue)
    (result_type : string) : M unit :=
  fun c => (Ret tt,
            mkCtx (AgentState.store_result (hms_of c) agent_name result
                     result_type (st c))
                  (repo c) (world c)).

(** [await state_repository.save(state)] *)
Definition save : M unit :=
  fun c => (Ret tt, mkCtx (st c) (Repository.save (st c) (repo c)) (world c)).

(** [await self.bridge.bridge_message(...)] *)
Definition bridge (conversation_id target_llm_name message : string) : M string :=
  fun c =>
    match bridge_message conversation_id target_llm_name message (world c) with
    | (inl text, w) => (Ret text, mkCtx (st c) (repo c) w)
    | (inr err, w) => (Raise (PyException "Exception" err), mkCtx (st c) (repo c) w)
    end.

Definition error_dict (msg : string) : JSON := JObj [("error", JStr msg)].

(** *** Tool-use loop *)

Definition _is_tool_call (response : string) : bool :=
  let response := Py.strip response in
  if Py.startswith "{" response && Py.contains "tool_name" response then
    match json_loads response with
    | inl (JObj parsed) => Dict.has "tool_name" parsed && Dict.has "args" parsed
    | inl _ => false
    | inr _ => false
    end
  else false.

(** The injection that precedes a call of [ask_human]: when ["agent_name"] is
    not in [tool_args], it is assigned the current agent's name. *)
Definition inject_agent_name (agent_name : string) (tool_args : JSON) : Res JSON :=
  match tool_args with
  | JObj d =>
      Ret (if Dict.has "agent_name" d then tool_args
           else JObj (Dict.set "agent_name" (JStr agent_name) d))
  | JArr l =>
      if existsb (fun x => match x with
                           | JStr s => String.eqb s "agent_name"
                           | _ => false
                           end) l
      then Ret tool_args
      else Raise (PyException "TypeError" "list indices must be integers or slices, not str")
  | JStr s =>
      if Py.contains "agent_name" s then Ret tool_args
      else Raise (PyException "TypeError" "'str' object does not support item assignment")
  | _ => Raise (PyException "TypeError" "argument is not iterable")
  end.

Definition prepare_tool_args (tool_name agent_name : string) (tool_args : JSON)
  : Res JSON :=
  if String.eqb tool_name "ask_human" then inject_agent_name agent_name tool_args
  else Ret tool_args.

(** The call of the tool's function with [tool_args] as keyword arguments,
    awaited or not according to the entry's [async] flag. *)
Definition call_tool (tool_info : ToolInfo.t) (tool_args : JSON) : M JSON :=
  fun c =>
    match tool_args with
    | JObj kwargs =>
        let '(r, w) := ToolInfo.function tool_info kwargs (world c) in
        (r, mkCtx (st c) (repo c) w)
    | _ => (Raise (PyException "TypeError" "argument after ** must be a mapping"), c)
    end.

(** The [try] block of [_execute_tool_call]. *)
Definition _execute_tool_call_try (tool_call_response agent_name : string) : M JSON :=
  match json_loads (Py.strip tool_call_response) with
  | inr msg => raise (JSONDecodeError msg)
  | inl (JObj tool_call) =>
      match Dict.get "tool_name" tool_call with
      | None => raise (PyException "KeyError" "'tool_name'")
      | Some tool_name =>
          let tool_args := match Dict.get "args" tool_call with
                           | Some a => a
                           | None => JObj []
                           end in
          let not_found :=
            ret (JObj [("error", JStr ("Tool '" ++ match tool_name with
                                                   | JStr n => n
                                                   | j => py_format j
                                                   end ++ "' not found in registry"));
                       ("available_tools",
                        JArr (map JStr (Dict.keys TOOL_REGISTRY)))]) in
          match tool_name with
          | JArr _ | JObj _ => raise (PyException "TypeError" "unhashable type")
          | JStr name =>
              match Dict.get name TOOL_REGISTRY with
              | None => not_found
              | Some tool_info =>
                  add_history ("Agent " ++ agent_name ++ " calling tool: " ++ name
                               ++ " with args: " ++ py_format tool_args) ;;;
                  tool_args <- lift (prepare_tool_args name agent_name tool_args) ;;
                  result <- call_tool tool_info tool_args ;;
                  add_history ("Tool " ++ name ++ " completed successfully") ;;;
                  ret result
              end
          | _ => not_found
          end
      end
  | inl _ => raise (PyException "TypeError" "indices must be integers")
  end.

Definition _execute_tool_call (tool_call_response agent_name : string) : M JSON :=
  fun c =>
    match _execute_tool_call_try tool_call_response agent_name c with
    | (Raise (HumanInterventionRequired request_details), c1) =>
        let request_details :=
          if String.eqb (HumanRequest.agent_name request_details) ""
             || String.eqb (HumanRequest.agent_name request_details) "unknown"
          then HumanRequest.with_agent_name agent_name request_details
          else request_details in
        (modify (AgentState.set_status "AWAITING_HUMAN_INPUT") ;;;
         modify (AgentState.set_active_human_request (Some request_details)) ;;;
         add_history ("🚦 Mission pausiert: " ++ agent_name
                      ++ " benötigt menschliche Eingabe") ;;;
         add_history ("📋 Frage: " ++ HumanRequest.question request_details) ;;;
         raise (HumanInterventionRequired request_details)) c1
    | (Raise (JSONDecodeError msg), c1) =>
        (Ret (error_dict ("Invalid JSON in tool call: " ++ msg)), c1)
    | (Raise e, c1) =>
        let error_msg := "Tool execution failed: " ++ str_exn e in
        (add_history ("Tool error: " ++ error_msg) ;;;
         ret (error_dict error_msg)) c1
    | other => other
    end.

Definition max_tool_calls : nat := 5.

(** The [while tool_call_count < max_tool_calls] loop of
    [_execute_agent_with_tools] and the final call after it; [remaining] is
    [max_tool_calls - tool_call_count]. *)
Fixpoint tool_use_loop (remaining tool_call_count : nat)
    (agent_name : string) (agent_config : AgentConfig.t)
    (initial_prompt current_prompt : string) : M string :=
  match remaining with
  | O =>
      add_history ("Agent " ++ agent_name ++ " reached max tool calls ("
                   ++ str_nat max_tool_calls ++ ")") ;;;
      state <- get_state ;;
      bridge (AgentState.mission_id state ++ "_" ++ agent_name ++ "_final")
             (AgentConfig.model agent_config)
             (initial_prompt ++ String "010" (String "010"
                "Bitte gib deine finale Antwort basierend auf den bisher gesammelten Informationen. Verwende KEINE Tools mehr."))
  | S remaining' =>
      state <- get_state ;;
      llm_response <-
        bridge (AgentState.mission_id state ++ "_" ++ agent_name ++ "_tool_"
                ++ str_nat tool_call_count)
               (AgentConfig.model agent_config) current_prompt ;;
      if _is_tool_call llm_response then
        let tool_call_count := S tool_call_count in
        tool_result <- _execute_tool_call llm_response agent_name ;;
        let current_prompt :=
          _create_tool_result_prompt initial_prompt llm_response tool_result
            (AgentConfig.tools agent_config) in
        add_history ("Agent " ++ agent_name ++ " used tool, iteration "
                     ++ str_nat tool_call_count) ;;;
        tool_use_loop remaining' tool_call_count agent_name agent_config
          initial_prompt current_prompt
      else
        add_history ("Agent " ++ agent_name ++ " completed after "
                     ++ str_nat tool_call_count ++ " tool calls") ;;;
        ret llm_response
  end.

Definition _execute_agent_with_tools (agent_name : string)
    (agent_config : AgentConfig.t) (initial_prompt : string) : M string :=
  match AgentConfig.tools agent_config with
  | [] =>
      state <- get_state ;;
      bridge (AgentState.mission_id state ++ "_" ++ agent_name)
             (AgentConfig.model agent_config) initial_prompt
  | agent_tools =>
      let enhanced_prompt := _create_tool_enhanced_prompt initial_prompt agent_tools in
      tool_use_loop max_tool_calls 0 agent_name agent_config initial_prompt
        enhanced_prompt
  end.

(** *** Planning *)

Definition fallback_plan : JSON :=
  JArr [JObj [("task_id", JStr "fallback_task_1");
              ("description", JStr "Perform research and analysis");
              ("assigned_agent", JStr "researcher");
              ("expected_output", JStr "ResearchReport");
              ("priority", JNum 1)]].

Definition strip_code_fences (response : string) : string :=
  if Py.contains "```json" response then
    nth 0 (Py.split "```" (nth 1 (Py.split "```json" response) "")) ""
  else if Py.contains "```" response then
    nth 0 (Py.split "```" (nth 1 (Py.split "```" response) "")) ""
  else response.

Definition _parse_planning_response (response : string) : JSON :=
  match json_loads (Py.strip (strip_code_fences response)) with
  | inl plan_data => plan_data
  | inr _ => fallback_plan
  end.

(** [TaskPlan( **task)]: the four text fields are required, [priority]
    defaults to 1 and accepts an integral number, a boolean or a text that
    reads as an integer; other keys are ignored. *)
Definition TaskPlan_of (task : JSON) : Res TaskPlan.t :=
  match task with
  | JObj d =>
      match Dict.get "task_id" d, Dict.get "description" d,
            Dict.get "assigned_agent" d, Dict.get "expected_output" d with
      | Some (JStr i), Some (JStr de), Some (JStr a), Some (JStr e) =>
          match Dict.get "priority" d with
          | None => Ret (TaskPlan.mk i de a e 1)
          | Some (JNum q) =>
              if (Qden q =? 1)%positive then Ret (TaskPlan.mk i de a e (Qnum q))
              else Raise (PyException "ValidationError" "1 validation error for TaskPlan")
          | Some (JBool b) => Ret (TaskPlan.mk i de a e (if b then 1 else 0))
          | Some (JStr text) =>
              match int_of_text text with
              | Some z => Ret (TaskPlan.mk i de a e z)
              | None =>
                  Raise (PyException "ValidationError" "1 validation error for TaskPlan")
              end
          | Some _ => Raise (PyException "ValidationError" "1 validation error for TaskPlan")
          end
      | _, _, _, _ => Raise (PyException "ValidationError" "validation errors for TaskPlan")
      end
  | _ => Raise (PyException "TypeError" "argument after ** must be a mapping")
  end.

Fixpoint TaskPlans_of_list (l : list JSON) : Res (list TaskPlan.t) :=
  match l with
  | [] => Ret []
  | task :: r =>
      match TaskPlan_of task with
      | Ret t =>
          match TaskPlans_of_list r with
          | Ret ts => Ret (t :: ts)
          | other => other
          end
      | Raise e => Raise e
      | Diverge => Diverge
      end
  end.

(** [[TaskPlan( **task) for task in plan_data]] *)
Definition TaskPlans_of (plan_data : JSON) : Res (list TaskPlan.t) :=
  match plan_data with
  | JArr l => TaskPlans_of_list l
  | JObj [] => Ret []
  | JObj (_ :: _) => Raise (PyException "TypeError" "argument after ** must be a mapping, not str")
  | JStr "" => Ret []
  | JStr _ => Raise (PyException "TypeError" "argument after ** must be a mapping, not str")
  | _ => Raise (PyException "TypeError" "object is not iterable")
  end.

Definition supervisor_of (crew_config : CrewConfig.t) : string :=
  match CrewConfig.supervisor_model crew_config with
  | Some m => m
  | None => "gpt4o_via_or"
  end.

Definition _planning_phase (crew_config : CrewConfig.t) (parameters : option JSON)
  : M unit :=
  modify (AgentState.set_status "PLANNING") ;;;
  add_history "Starting planning phase with supervisor" ;;;
  state <- get_state ;;
  let supervisor_model := supervisor_of crew_config in
  let crew_agents := CrewConfig.agents crew_config in
  let planning_prompt :=
    _create_planning_prompt agents_config (AgentState.high_level_goal state)
      crew_agents parameters in
  try_except_Exception
    (plan_response <-
       bridge (AgentState.mission_id state ++ "_planning")
              supervisor_model planning_prompt ;;
     let plan_data := _parse_planning_response plan_response in
     plan <- lift (TaskPlans_of plan_data) ;;
     modify (AgentState.set_task_plan (Some plan)) ;;;
     add_history ("Created plan with " ++ str_nat (List.length plan) ++ " tasks"))
    (fun e =>
       raise (PyException "Exception" ("Planning phase failed: " ++ str_exn e))).

(** *** Execution of one agent *)

Definition _find_task_for_agent (state : AgentState.t) (agent_name : string)
  : option TaskPlan.t :=
  match AgentState.task_plan state with
  | None => None
  | Some plan =>
      find (fun task =>
              String.eqb (TaskPlan.assigned_agent task) agent_name
              || Py.contains agent_name (Py.lower (TaskPlan.task_id task)))
           plan
  end.

Definition _structure_agent_result (response : string)
    (agent_config : AgentConfig.t) : ResultValue :=
  match AgentConfig.output_schema agent_config with
  | None => VText response
  | Some output_schema =>
      if String.eqb output_schema "" then VText response
      else structure_with_schema output_schema response
  end.

(** The [try] block shared by [_execute_agent] and
    [_continue_agent_with_human_response]: run the agent, structure and store
    its answer. *)
Definition run_and_store (agent_name : string) (agent_config : AgentConfig.t)
    (prompt : string) : M unit :=
  final_response <- _execute_agent_with_tools agent_name agent_config prompt ;;
  let structured_result := _structure_agent_result final_response agent_config in
  store_result agent_name structured_result "output" ;;;
  store_result agent_name (VText final_response) "raw".

Definition _execute_agent (agent_name : string) : M unit :=
  match Dict.get agent_name agents_config with
  | None =>
      raise (PyException "ValueError"
               ("Agent '" ++ agent_name ++ "' nicht in Registry gefunden"))
  | Some agent_config =>
      state <- get_state ;;
      task_description <-
        match _find_task_for_agent state agent_name with
        | None =>
            add_history ("No specific task found for " ++ agent_name
                         ++ ", using general assignment") ;;;
            ret ("Perform your role as " ++ AgentConfig.role agent_config
                 ++ " for the goal: " ++ AgentState.high_level_goal state)
        | Some task => ret (TaskPlan.description task)
        end ;;
      state <- get_state ;;
      let agent_prompt := _create_agent_prompt agent_config task_description state in
      try_except
        (add_history ("Executing agent: " ++ agent_name) ;;;
         run_and_store agent_name agent_config agent_prompt ;;;
         add_history ("Agent " ++ agent_name ++ " completed successfully"))
        (fun r => raise (HumanInterventionRequired r))
        (fun e =>
           add_history ("Agent " ++ agent_name ++ " execution failed: "
                        ++ str_exn e) ;;;
           raise e)
  end.

Definition _continue_agent_with_human_response (agent_name human_response : string)
  : M unit :=
  match Dict.get agent_name agents_config with
  | None =>
      raise (PyException "ValueError"
               ("Agent '" ++ agent_name ++ "' nicht in Registry gefunden"))
  | Some agent_config =>
      state <- get_state ;;
      let continuation_prompt :=
        _create_continuation_prompt agent_config state human_response in
      try_except
        (add_history ("Continuing agent " ++ agent_name
                      ++ " with human response") ;;;
         run_and_store agent_name agent_config continuation_prompt ;;;
         add_history ("Agent " ++ agent_name
                      ++ " continued successfully with human input"))
        (fun r => raise (HumanInterventionRequired r))
        (fun e =>
           add_history ("Agent " ++ agent_name ++ " continuation failed: "
                        ++ str_exn e) ;;;
           raise e)
  end.

(** *** Synthesis *)

Definition collect_outputs (state : AgentState.t) : Dict.t ResultValue :=
  fold_left (fun all_results agent_name =>
               match AgentState.get_result agent_name "output" state with
               | Some result =>
                   if truthy result then Dict.set agent_name result all_results
                   else all_results
               | None => all_results
               end)
            (AgentState.completed_nodes state) Dict.empty.

Definition _synthesis_phase (crew_config : CrewConfig.t) : M unit :=
  add_history "Starting synthesis phase" ;;;
  state <- get_state ;;
  let supervisor_model := supervisor_of crew_config in
  let all_results := collect_outputs state in
  let synthesis_prompt :=
    _create_synthesis_prompt (AgentState.high_level_goal state) all_results in
  try_except_Exception
    (final_synthesis <-
       bridge (AgentState.mission_id state ++ "_synthesis")
              supervisor_model synthesis_prompt ;;
     store_result "supervisor" (VText final_synthesis) "final_synthesis" ;;;
     add_history "Synthesis phase completed")
    (fun e => add_history ("Synthesis failed: " ++ str_exn e)).

(** *** Conditional router *)

Definition recommendation_to_target : Dict.t string :=
  [("publish", "END"); ("revise", "writer");
   ("research_more", "researcher"); ("fail", "END")].

(** The body of [_handle_quality_assessment_routing] once
    [recommendation = qa_result.recommendation.value] has been read. *)
Definition route_recommendation (recommendation : string)
    (qa_result : QualityAssessment.t) : M string :=
  match Dict.get recommendation recommendation_to_target with
  | Some next_target =>
      if negb (String.eqb next_target "") then
        add_history ("QA-Entscheidung: " ++ recommendation ++ " → " ++ next_target
                     ++ " | Begründung: " ++ QualityAssessment.reasoning qa_result
                     ++ " | Confidence: "
                     ++ format_2f (QualityAssessment.confidence_score qa_result)) ;;;
        (match QualityAssessment.issues_found qa_result with
         | [] => ret tt
         | issues => add_history ("QA-Issues: " ++ Py.join ", " issues)
         end) ;;;
        ret next_target
      else
        add_history ("FEHLER: Unbekannte QA-Empfehlung '" ++ recommendation
                     ++ "' - beende Mission") ;;;
        ret "END"
  | None =>
      add_history ("FEHLER: Unbekannte QA-Empfehlung '" ++ recommendation
                   ++ "' - beende Mission") ;;;
      ret "END"
  end.

Definition _handle_quality_assessment_routing (qa_result : QualityAssessment.t)
    (transitions : option (list Transition.t)) : M string :=
  route_recommendation
    (Recommendation_value (QualityAssessment.recommendation qa_result)) qa_result.

Definition first_target (transitions : list Transition.t) : string :=
  match transitions with
  | t :: _ => Transition.target t
  | [] => "END"
  end.

Definition _parse_routing_response (response : string)
    (transitions : list Transition.t) : string :=
  let response := Py.lower (Py.strip response) in
  let valid_targets := map (fun t => Py.lower (Transition.target t)) transitions in
  match find (fun target => Py.contains target response) valid_targets with
  | Some target =>
      match find (fun t => String.eqb (Py.lower (Transition.target t)) target)
                 transitions with
      | Some t => Transition.target t
      | None => first_target transitions
      end
  | None => first_target transitions
  end.

Definition _handle_legacy_conditional_transitions (current_agent : string)
    (transitions : option (list Transition.t)) (crew_config : CrewConfig.t)
  : M string :=
  state <- get_state ;;
  let current_result := AgentState.get_result current_agent "output" state in
  match transitions with
  | None => raise (PyException "TypeError" "'NoneType' object is not iterable")
  | Some transitions =>
      let routing_prompt :=
        _create_routing_prompt state current_agent current_result transitions in
      try_except_Exception
        (routing_response <-
           bridge (AgentState.mission_id state ++ "_routing")
                  (supervisor_of crew_config) routing_prompt ;;
         let next_agent := _parse_routing_response routing_response transitions in
         add_history ("Legacy Supervisor routing: " ++ current_agent
                      ++ " -> " ++ next_agent) ;;;
         ret next_agent)
        (fun e =>
           match transitions with
           | t :: _ =>
               let fallback_target := Transition.target t in
               add_history ("Routing fallback: " ++ current_agent ++ " -> "
                            ++ fallback_target) ;;;
               ret fallback_target
           | [] => ret "END"
           end)
  end.

Definition _handle_conditional_transitions (current_agent : string)
    (transitions : option (list Transition.t)) (crew_config : CrewConfig.t)
  : M string :=
  state <- get_state ;;
  let current_result := AgentState.get_result current_agent "output" state in
  match as_quality current_result with
  | Some qa => _handle_quality_assessment_routing qa transitions
  | None => _handle_legacy_conditional_transitions current_agent transitions crew_config
  end.

(** *** Quality threshold *)

(** [x >= quality_threshold] for a stored value [x]. *)
Definition score_at_least (x : ResultValue) (quality_threshold : Q) : Res bool :=
  match x with
  | VData (JNum q) => Ret (Qle_bool quality_threshold q)
  | VData (JBool b) => Ret (Qle_bool quality_threshold (if b then 1 else 0))
  | _ => Raise (PyException "TypeError" "'>=' not supported between instances")
  end.

Definition _check_quality_threshold (state : AgentState.t)
    (crew_config : CrewConfig.t) : Res bool :=
  let quality_threshold :=
    match CrewConfig.quality_threshold crew_config with
    | Some q => q
    | None => 0.8
    end in
  let qa_results :=
    map snd (filter (fun '(agent_name, _) => Py.contains "qa" (Py.lower agent_name))
                    (Dict.items (AgentState.results state))) in
  match rev qa_results with
  | [] => Ret false
  | latest_qa :: _ =>
      (* [hasattr(latest_qa, 'overall_score')] is false of a dictionary *)
      match Dict.get "overall_score" latest_qa with
      | Some x => score_at_least x quality_threshold
      | None => Ret false
      end
  end.

(** *** Graph executor *)

Definition max_iterations_of (crew_config : CrewConfig.t) : Z :=
  match CrewConfig.max_iterations crew_config with
  | Some n => n
  | None => 3%Z
  end.

Definition set_current_node (node_name : string) : M unit :=
  fun c => (Ret tt,
            mkCtx (AgentState.set_current_node (hms_of c) node_name (st c))
                  (repo c) (world c)).

(** The [while current_node and current_node != "END"] loop of
    [_execution_phase]; [fuel] bounds the number of turns taken.  Both callers
    pass a repository, so the state is saved after every agent; the pause
    between two turns has no effect on the state. *)
Fixpoint graph_walk (fuel : nat) (crew_config : CrewConfig.t)
    (current_node : option string) (iteration_count : Z) : M unit :=
  match current_node with
  | None => ret tt
  | Some current_node =>
      if String.eqb current_node "" || String.eqb current_node "END" then ret tt
      else
        match fuel with
        | O => lift Diverge
        | S fuel' =>
            let max_iterations := max_iterations_of crew_config in
            set_current_node current_node ;;;
            if (max_iterations <=? iteration_count)%Z then
              add_history ("Maximum iterations (" ++ str_Z max_iterations
                           ++ ") reached. Forcing completion.")
            else
              try_except_signal
                (_execute_agent current_node ;;; save)
                (fun r => save ;;; raise (HumanInterventionRequired r)) ;;;
              state <- get_state ;;
              quality_reached <-
                (if Py.contains "qa" (Py.lower current_node)
                 then lift (_check_quality_threshold state crew_config)
                 else ret false) ;;
              if quality_reached then
                add_history "Quality threshold reached. Mission completed."
              else
                let node_config :=
                  match Dict.get current_node
                          (Graph.nodes (CrewConfig.graph crew_config)) with
                  | Some n => n
                  | None => NodeConfig.empty
                  end in
                match NodeConfig.conditional_transitions node_config with
                | Some transitions =>
                    next_node <- _handle_conditional_transitions current_node
                                   transitions crew_config ;;
                    state <- get_state ;;
                    if Py.mem next_node (AgentState.completed_nodes state) then
                      let iteration_count := (iteration_count + 1)%Z in
                      add_history ("Feedback loop iteration "
                                   ++ str_Z iteration_count ++ ": returning to "
                                   ++ next_node) ;;;
                      graph_walk fuel' crew_config (Some next_node) iteration_count
                    else
                      graph_walk fuel' crew_config (Some next_node) iteration_count
                | None =>
                    graph_walk fuel' crew_config
                      (NodeConfig.transitions_to node_config) iteration_count
                end
        end
  end.

Definition start_execution : M unit :=
  fun c => (Ret tt,
            mkCtx (AgentState.start_execution (now (world c)) (hms_of c) (st c))
                  (repo c) (world c)).

Definition complete_execution : M unit :=
  fun c => (Ret tt,
            mkCtx (AgentState.complete_execution (now (world c)) (hms_of c) (st c))
                  (repo c) (world c)).

Definition mark_error (error_message : string) : M unit :=
  fun c => (Ret tt,
            mkCtx (AgentState.mark_error (isoformat (now (world c))) (hms_of c)
                     error_message (st c))
                  (repo c) (world c)).

Definition _execution_phase (fuel : nat) (crew_config : CrewConfig.t) : M unit :=
  start_execution ;;;
  graph_walk fuel crew_config
    (Graph.entry_point (CrewConfig.graph crew_config)) 0 ;;;
  add_history "Execution phase completed".

(** *** Mission orchestrator *)

(** The [try] block of [execute_mission]. *)
Definition execute_mission_try (fuel : nat) (crew_config : CrewConfig.t)
    (parameters : option JSON) : M unit :=
  _planning_phase crew_config parameters ;;;
  save ;;;
  _execution_phase fuel crew_config ;;;
  _synthesis_phase crew_config ;;;
  save ;;;
  complete_execution ;;;
  save.

(** What a caller of [execute_mission] or [resume_mission] observes: the
    returned state or the raised exception, and the repository and world left
    behind. *)
Record Outcome : Type := mkOutcome {
  result : Res AgentState.t;
  final_repository : option Repository.t;
  final_world : World
}.

Definition outcome_of {A} (r : Res A) (c : Ctx) : Outcome :=
  mkOutcome (match r with
             | Ret _ => Ret (st c)
             | Raise e => Raise e
             | Diverge => Diverge
             end)
            (Some (repo c)) (world c).

(** The state created, logged and saved before the [try] block is entered;
    [fresh_id] stands for the identifier the new state draws at random. *)
Definition new_mission (fresh_id crew_name goal : string)
    (repository : Repository.t) (w : World) : Ctx :=
  let state := create_mission_state fresh_id (now w) crew_name goal in
  snd ((add_history ("Mission '" ++ AgentState.mission_id state ++ "' created.") ;;;
        save) (mkCtx state repository w)).


Definition execute_mission (fuel : nat) (fresh_id : string)
    (crew_name goal : string) (parameters : option JSON)
    (state_repository : option Repository.t) (w : World) : Outcome :=
  match Dict.get crew_name crews_config with
  | None =>
      mkOutcome (Raise (PyException "ValueError"
                          ("Crew '" ++ crew_name ++ "' nicht in Registry gefunden")))
                state_repository w
  | Some crew_config =>
      match state_repository with
      | None =>
          mkOutcome (Raise (PyException "ValueError"
                              "A state_repository must be provided to execute a mission."))
                    None w
      | Some repository =>
          let c1 := new_mission fresh_id crew_name goal repository w in
          match execute_mission_try fuel crew_config parameters c1 with
          | (Raise (HumanInterventionRequired e), c2) =>
              let '(_, c3) := save c2 in
              outcome_of (Ret tt) c3
          | (Raise e, c2) =>
              let error_msg := "Mission execution failed: " ++ str_exn e in
              let '(_, c3) := (mark_error error_msg ;;; save) c2 in
              outcome_of (@Raise unit e) c3
          | (r, c2) => outcome_of r c2
          end
      end
  end.

(** The inner [try] block of [resume_mission]. *)
Definition resume_mission_continue (fuel : nat) (crew_config : CrewConfig.t)
    (requesting_agent human_response : string) : M unit :=
  _continue_agent_with_human_response requesting_agent human_response ;;;
  save ;;;
  _execution_phase fuel crew_config ;;;
  state <- get_state ;;
  if String.eqb (AgentState.status state) "RUNNING" then
    _synthesis_phase crew_config ;;;
    save ;;;
    complete_execution ;;;
    save
  else ret tt.

(** The outer [try] block of [resume_mission]; [true] is returned where the
    inner handler returns the state that was suspended again. *)
Definition resume_mission_try (fuel : nat) (request : HumanRequest.t)
    (human_response : string) : M bool :=
  let requesting_agent := HumanRequest.agent_name request in
  c0 <- (fun c => (Ret c, c)) ;;
  let tool_result :=
    JObj [("status", JStr "human_input_received");
          ("response", JStr human_response);
          ("timestamp", JStr (isoformat (now (world c0))));
          ("original_question", JStr (HumanRequest.question request))] in
  store_result requesting_agent (VData tool_result) "human_response" ;;;
  modify (AgentState.set_status "RUNNING") ;;;
  modify (AgentState.set_active_human_request None) ;;;
  add_history ("🤝 Mission resumed with human response: "
               ++ Py.take 100 human_response ++ "...") ;;;
  save ;;;
  state <- get_state ;;
  let crew_name := AgentState.crew_name state in
  match Dict.get crew_name crews_config with
  | None =>
      raise (PyException "ValueError"
               ("Crew '" ++ crew_name ++ "' nicht in Registry gefunden"))
  | Some crew_config =>
      try_except_signal
        (resume_mission_continue fuel crew_config requesting_agent
           human_response ;;;
         ret false)
        (fun e => save ;;; ret true)
  end.

Definition resume_mission (fuel : nat) (mission_id human_response : string)
    (state_repository : option Repository.t) (w : World) : Outcome :=
  match state_repository with
  | None =>
      mkOutcome (Raise (PyException "ValueError"
                          "A state_repository must be provided to resume a mission."))
                None w
  | Some repository =>
      match Repository.get_by_id mission_id repository with
      | None =>
          mkOutcome (Raise (PyException "ValueError"
                              ("Mission '" ++ mission_id ++ "' nicht gefunden")))
                    state_repository w
      | Some state =>
          if negb (String.eqb (AgentState.status state) "AWAITING_HUMAN_INPUT") then
            mkOutcome (Raise (PyException "ValueError"
                                ("Mission '" ++ mission_id
                                 ++ "' wartet nicht auf menschliche Eingabe (Status: "
                                 ++ AgentState.status state ++ ")")))
                      state_repository w
          else
            match AgentState.active_human_request state with
            | None =>
                mkOutcome (Raise (PyException "ValueError"
                                    ("Mission '" ++ mission_id
                                     ++ "' hat keine aktive Human-Request")))
                          state_repository w
            | Some request =>
                match resume_mission_try fuel request human_response
                        (mkCtx state repository w) with
                | (Raise e, c') =>
                    let error_msg := "Mission resume failed: " ++ str_exn e in
                    let '(_, c'') := (mark_error error_msg ;;; save) c' in
                    outcome_of (@Raise unit e) c''
                | (r, c') => outcome_of r c'
                end
            end
      end
  end.

End Orchestrator.

(** ** The event store (monitoring/event_store.py)

    The store is the list of the lines written to its file, oldest first;
    the timestamp of a line is left out. *)

Module EventStore.

(** A line of the log file, without its ["timestamp"]. *)
Record Event : Type := mkEvent {
  event_type : string;
  component : string;
  message : string;
  conversation_id : option string;
  additional_data : Dict.t JSON
}.

Definition t : Type := list Event.

Definition log_event (event_type component message : string)
    (conversation_id : option string) (additional_data : Dict.t JSON)
    (store : t) : t :=
  (store ++ [mkEvent event_type component message conversation_id additional_data])%list.

(** The keyword arguments of a call
    [log_circuit_breaker_event(adapter_name=..., event=..., ...)]: the first
    two are always written, [failure_count] and [details] by some calls. *)
Record BreakerCall : Type := mkBreakerCall {
  adapter_name : string;
  event : string;
  failure_count : option Z;
  details : option string
}.

(** [log_circuit_breaker_event(self, adapter_name, event, failure_count=None)]:
    the signature has no parameter [details]. *)
Definition log_circuit_breaker_event (call : BreakerCall) (store : t)
  : Res unit * t :=
  match details call with
  | Some _ =>
      (Raise (PyException "TypeError"
                "EventStore.log_circuit_breaker_event() got an unexpected keyword argument 'details'"),
       store)
  | None =>
      (Ret tt,
       log_event "CIRCUIT_BREAKER" "CircuitBreaker"
         ("Circuit breaker " ++ event call ++ " for " ++ adapter_name call) None
         [("adapter_name", JStr (adapter_name call));
          ("breaker_event", JStr (event call));
          ("failure_count", match failure_count call with
                            | Some n => JNum (inject_Z n)
                            | None => JNull
                            end)]
         store)
  end.

End EventStore.

(** ** The conversation state machine (orchestration/conversation_state.py)

    The router keeps one machine per conversation identifier and asks it
    before every call of a model.  Where an event store is given, the
    machine's log entries are scheduled as background tasks; they are
    appended to the store here. *)

Module ConversationStateMachine.

Inductive State : Type :=
| IDLE | AWAITING_RESPONSE | RESPONSE_RECEIVED | CONVERSATION_ENDED | ERROR.

Definition State_name (s : State) : string :=
  match s with
  | IDLE => "IDLE"
  | AWAITING_RESPONSE => "AWAITING_RESPONSE"
  | RESPONSE_RECEIVED => "RESPONSE_RECEIVED"
  | CONVERSATION_ENDED => "CONVERSATION_ENDED"
  | ERROR => "ERROR"
  end.

Record t : Type := mk {
  id : string;
  current_state : State;
  participants_chain : list string
}.

Definition init (conversation_id : string) : t := mk conversation_id IDLE [].

Definition set_current_state (v : State) (m : t) : t :=
  mk (id m) v (participants_chain m).

(** [if event_store: ... event_store.log_event(level, "ConversationStateMachine",
    message, conversation_id=self.id)] *)
Definition log (event_store : option EventStore.t) (level message : string)
    (m : t) : option EventStore.t :=
  match event_store with
  | Some store =>
      Some (EventStore.log_event level "ConversationStateMachine" message
              (Some (id m)) [] store)
  | None => None
  end.

Definition is_last (target_llm_name : string) (chain : list string) : bool :=
  match PyList.last chain with
  | Some x => String.eqb target_llm_name x
  | None => false
  end.

Definition is_last_but_one (target_llm_name : string) (chain : list string) : bool :=
  match PyList.last_but_one chain with
  | Some x => String.eqb target_llm_name x
  | None => false
  end.

Definition transition_to (target_llm_name : string)
    (event_store : option EventStore.t) (allow_repeats : bool) (m : t)
  : Res bool * (t * option EventStore.t) :=
  match current_state m with
  | CONVERSATION_ENDED | ERROR =>
      let error_msg := "Conversation '" ++ id m
                       ++ "' is already ended or in an error state." in
      (Raise (PyException "Exception" ("Invalid state transition: " ++ error_msg)),
       (m, log event_store "ERROR" error_msg m))
  | _ =>
      let is_mission_control := Py.startswith "mission_" (id m) in
      if negb allow_repeats && negb is_mission_control
         && is_last target_llm_name (participants_chain m) then
        let error_msg := "Direct repetition loop to '" ++ target_llm_name
                         ++ "' is not allowed." in
        (Raise (PyException "Exception" ("Invalid state transition: " ++ error_msg)),
         (set_current_state ERROR m, log event_store "ERROR" error_msg m))
      else if negb allow_repeats && negb is_mission_control
              && is_last_but_one target_llm_name (participants_chain m) then
        let error_msg := "Ping-pong loop back to '" ++ target_llm_name
                         ++ "' is not allowed." in
        (Raise (PyException "Exception" ("Invalid state transition: " ++ error_msg)),
         (set_current_state ERROR m, log event_store "ERROR" error_msg m))
      else
        (Ret true,
         (mk (id m) AWAITING_RESPONSE (participants_chain m ++ [target_llm_name])%list,
          log event_store "INFO"
            ("State transition: " ++ State_name (current_state m)
             ++ " -> AWAITING_RESPONSE (target: " ++ target_llm_name ++ ")") m))
  end.

Definition record_response (from_llm_name : string)
    (event_store : option EventStore.t) (m : t) : t * option EventStore.t :=
  match current_state m with
  | AWAITING_RESPONSE =>
      if is_last from_llm_name (participants_chain m) then
        (set_current_state RESPONSE_RECEIVED m,
         log event_store "INFO"
           ("State transition: AWAITING_RESPONSE -> RESPONSE_RECEIVED (from: "
            ++ from_llm_name ++ ")") m)
      else (m, event_store)
  | _ => (m, event_store)
  end.

Definition end_conversation (m : t) : t := set_current_state CONVERSATION_ENDED m.

End ConversationStateMachine.

(** ** The circuit breaker (orchestration/circuit_breaker.py)

    Instants and durations are rational numbers of seconds.  The breaker
    reads the clock of the world it runs in; the jitter factor it draws from
    [random.uniform(0.8, 1.2)] is passed in.  One call is followed from start
    to end: calls that overlap are not modelled. *)

Module CircuitBreaker.

Inductive CircuitBreakerState : Type := CLOSED | OPEN | HALF_OPEN.

Record t : Type := mk {
  _adapter_name : string;
  _max_failures : Z;
  _reset_timeout_base_seconds : Z;
  _max_reset_timeout_seconds : Z;
  (** [isinstance(e, self._expected_exception)] *)
  _expected_exception : Exn -> bool;
  _failure_count : Z;
  _consecutive_failure_count : Z;
  _state : CircuitBreakerState;
  _last_failure_time : option Q;
  _next_attempt_at : option Q
}.

(** [__init__]; [reset_timeout_base_seconds or reset_timeout]. *)
Definition init (adapter_name : string) (max_failures reset_timeout : Z)
    (reset_timeout_base_seconds : option Z) (max_reset_timeout_seconds : Z)
    (expected_exception : Exn -> bool) : t :=
  mk adapter_name max_failures
     (match reset_timeout_base_seconds with
      | Some b => if (b =? 0)%Z then reset_timeout else b
      | None => reset_timeout
      end)
     max_reset_timeout_seconds expected_exception 0 0 CLOSED None None.

(** [CircuitBreaker(event_store, adapter_name)], as the bridge and the
    factory build it. *)
Definition default (adapter_name : string) : t :=
  init adapter_name 3 60 None 300 (fun _ => true).

Definition update (failure_count consecutive_failure_count : Z)
    (state : CircuitBreakerState) (last_failure_time next_attempt_at : option Q)
    (b : t) : t :=
  mk (_adapter_name b) (_max_failures b) (_reset_timeout_base_seconds b)
     (_max_reset_timeout_seconds b) (_expected_exception b)
     failure_count consecutive_failure_count state last_failure_time
     next_attempt_at.

Definition set_state (state : CircuitBreakerState) (b : t) : t :=
  update (_failure_count b) (_consecutive_failure_count b) state
    (_last_failure_time b) (_next_attempt_at b) b.

(** [min(backoff_duration, self._max_reset_timeout_seconds)] *)
Definition capped_backoff (b : t) : Q :=
  let backoff_multiplier := Qpower 2 (_consecutive_failure_count b - 1) in
  let backoff_duration :=
    inject_Z (_reset_timeout_base_seconds b) * backoff_multiplier in
  if Qle_bool backoff_duration (inject_Z (_max_reset_timeout_seconds b))
  then backoff_duration
  else inject_Z (_max_reset_timeout_seconds b).

Definition _open_circuit (now jitter_factor : Q) (b : t) : t :=
  let final_wait_time := capped_backoff b * jitter_factor in
  update (_failure_count b) (_consecutive_failure_count b) OPEN
    (_last_failure_time b) (Some (now + final_wait_time)) b.

(** [if self._event_store: await self._event_store.log_circuit_breaker_event(...)] *)
Definition log (event_store : option EventStore.t) (call : EventStore.BreakerCall)
  : Res unit * option EventStore.t :=
  match event_store with
  | Some store =>
      let '(r, store') := EventStore.log_circuit_breaker_event call store in
      (r, Some store')
  | None => (Ret tt, None)
  end.

Definition record_success (event_store : option EventStore.t) (b : t)
  : Res unit * (t * option EventStore.t) :=
  let '(logged, event_store') :=
    match _state b with
    | HALF_OPEN =>
        log event_store
          (EventStore.mkBreakerCall (_adapter_name b) "RESET_TO_CLOSED" None
             (Some "Test-Request erfolgreich"))
    | _ => (Ret tt, event_store)
    end in
  match logged with
  | Ret _ => (Ret tt, (update 0 0 CLOSED (_last_failure_time b) None b, event_store'))
  | Raise e => (Raise e, (b, event_store'))
  | Diverge => (Diverge, (b, event_store'))
  end.

(** [now] is the reading of the clock kept as [_last_failure_time],
    [opened_at] the later one that [_open_circuit] takes. *)
Definition record_failure (now opened_at jitter_factor : Q)
    (event_store : option EventStore.t) (b : t)
  : Res unit * (t * option EventStore.t) :=
  let b1 := update (_failure_count b + 1) (_consecutive_failure_count b)
              (_state b) (Some now) (_next_attempt_at b) b in
  match _state b1 with
  | HALF_OPEN =>
      let b2 := update (_failure_count b1) (_consecutive_failure_count b1 + 1)
                  (_state b1) (_last_failure_time b1) (_next_attempt_at b1) b1 in
      match log event_store
              (EventStore.mkBreakerCall (_adapter_name b2) "TEST_REQUEST_FAILED"
                 (Some (_failure_count b2))
                 (Some ("Consecutive failures: "
                        ++ str_Z (_consecutive_failure_count b2)))) with
      | (Ret _, event_store') =>
          (Ret tt, (_open_circuit opened_at jitter_factor b2, event_store'))
      | (Raise e, event_store') => (Raise e, (b2, event_store'))
      | (Diverge, event_store') => (Diverge, (b2, event_store'))
      end
  | _ =>
      if (_max_failures b1 <=? _failure_count b1)%Z then
        let b2 := update (_failure_count b1) 1 (_state b1)
                    (_last_failure_time b1) (_next_attempt_at b1) b1 in
        match log event_store
                (EventStore.mkBreakerCall (_adapter_name b2) "TRIPPED_TO_OPEN"
                   (Some (_failure_count b2)) None) with
        | (Ret _, event_store') =>
            (Ret tt, (_open_circuit opened_at jitter_factor b2, event_store'))
        | (Raise e, event_store') => (Raise e, (b2, event_store'))
        | (Diverge, event_store') => (Diverge, (b2, event_store'))
        end
      else (Ret tt, (b1, event_store))
  end.

Section Execute.

(** The world the protected call runs in, its clock, and the rendering of an
    instant by [isoformat]. *)
Variable W : Type.
Variable clock : W -> Q.
Variable isoformat : Q -> string.

(** The first part of [execute]: what the breaker decides before the call. *)
Definition before_call (w : W) (event_store : option EventStore.t) (b : t)
  : Res unit * (t * option EventStore.t) :=
  match _state b with
  | OPEN =>
      match _next_attempt_at b with
      | Some next_attempt_at =>
          if Qle_bool next_attempt_at (clock w) then
            let b1 := set_state HALF_OPEN b in
            let '(logged, event_store') :=
              log event_store
                (EventStore.mkBreakerCall (_adapter_name b1)
                   "TRANSITION_TO_HALF_OPEN" None
                   (Some "Wartezeit abgelaufen, teste Verfügbarkeit")) in
            (logged, (b1, event_store'))
          else
            match log event_store
                    (EventStore.mkBreakerCall (_adapter_name b)
                       "REQUEST_BLOCKED_OPEN_STATE" None None) with
            | (Ret _, event_store') =>
                (Raise (PyException "CircuitBreakerError"
                          ("Circuit is open for '" ++ _adapter_name b
                           ++ "'. Service is temporarily unavailable."
                           ++ " Next attempt at " ++ isoformat next_attempt_at)),
                 (b, event_store'))
            | (other, event_store') => (other, (b, event_store'))
            end
      | None =>
          match log event_store
                  (EventStore.mkBreakerCall (_adapter_name b)
                     "REQUEST_BLOCKED_OPEN_STATE" None None) with
          | (Ret _, event_store') =>
              (Raise (PyException "CircuitBreakerError"
                        ("Circuit is open for '" ++ _adapter_name b
                         ++ "'. Service is temporarily unavailable.")),
               (b, event_store'))
          | (other, event_store') => (other, (b, event_store'))
          end
      end
  | _ => (Ret tt, (b, event_store))
  end.

(** [execute(coro)]: the awaited call [coro] takes the world from [w] to the
    world in which the breaker records its outcome; [opened_at] and
    [jitter_factor] are what [_open_circuit] reads from the clock and draws
    if the circuit is opened. *)
Definition execute {A} (coro : W -> Res A * W) (opened_at jitter_factor : Q)
    (w : W)
    (event_store : option EventStore.t) (b : t)
  : Res A * (t * option EventStore.t) * W :=
  match before_call w event_store b with
  | (Ret _, (b1, event_store1)) =>
      match coro w with
      | (Ret result, w') =>
          match record_success event_store1 b1 with
          | (Ret _, after) => (Ret result, after, w')
          | (Raise e, after) => (Raise e, after, w')
          | (Diverge, after) => (Diverge, after, w')
          end
      | (Raise e, w') =>
          if _expected_exception b1 e then
            match record_failure (clock w') opened_at jitter_factor event_store1 b1 with
            | (Ret _, after) => (Raise e, after, w')
            | (Raise e', after) => (Raise e', after, w')
            | (Diverge, after) => (Diverge, after, w')
            end
          else (Raise e, (b1, event_store1), w')
      | (Diverge, w') => (Diverge, (b1, event_store1), w')
      end
  | (Raise e, after) => (Raise e, after, w)
  | (Diverge, after) => (Diverge, after, w)
  end.

End Execute.

End CircuitBreaker.

(** ** [model_dump_json] and [model_validate_json] of a mission state

    The text written for a state is kept as the state that
    [AgentState.model_validate_json] reads from it.  The field [results] is
    declared [Dict[str, Any]]: a pydantic object stored as a result is written
    as the dictionary of its fields and is read back as that dictionary, not
    as the object; texts and JSON-like values come back as they were, and so
    do the typed fields of the state. *)

Module StateJson.

Record t : Type := mk { parsed : AgentState.t }.

(** The dictionary written for a [QualityAssessment]; the two legacy
    properties are not fields and are not written. *)
Definition QualityAssessment_dump (qa : QualityAssessment.t) : JSON :=
  JObj [("recommendation",
         JStr (Recommendation_value (QualityAssessment.recommendation qa)));
        ("reasoning", JStr (QualityAssessment.reasoning qa));
        ("strengths", JArr (map JStr (QualityAssessment.strengths qa)));
        ("issues_found", JArr (map JStr (QualityAssessment.issues_found qa)));
        ("confidence_score", JNum (QualityAssessment.confidence_score qa))].

(** A result after it has been written and read. *)
Definition read_back (v : ResultValue) : ResultValue :=
  match v with
  | VText s => VText s
  | VQuality qa => VData (QualityAssessment_dump qa)
  | VModel _ dump => VData dump
  | VData j => VData j
  end.

Definition model_dump_json (state : AgentState.t) : t :=
  mk (AgentState.set_results
        (map (fun slot =>
                (fst slot, map (fun kind => (fst kind, read_back (snd kind)))
                             (snd slot)))
           (AgentState.results state))
        state).

Definition model_validate_json (data : t) : AgentState.t := parsed data.

End StateJson.

(** ** Redis, as far as the state repository uses it

    String keys hold a value until the instant at which they expire; sets do
    not expire.  Instants are seconds.  The value of a state key is the text
    that [model_dump_json] wrote. *)

Module Redis.

Record t : Type := mk {
  strings : Dict.t (StateJson.t * Z);
  sets : Dict.t (list string)
}.

Definition empty : t := mk Dict.empty Dict.empty.

(** [SET key value EX ex], issued at [now] *)
Definition set_ex (key : string) (value : StateJson.t) (ex now : Z) (r : t) : t :=
  mk (Dict.set key (value, (now + ex)%Z) (strings r)) (sets r).

(** [GET key], issued at [now] *)
Definition get (key : string) (now : Z) (r : t) : option StateJson.t :=
  match Dict.get key (strings r) with
  | Some (value, expires_at) =>
      if (now <? expires_at)%Z then Some value else None
  | None => None
  end.

(** [DEL key] *)
Definition del (key : string) (r : t) : t :=
  mk (Dict.remove key (strings r)) (sets r).

(** [SMEMBERS key] *)
Definition smembers (key : string) (r : t) : list string :=
  match Dict.get key (sets r) with
  | Some members => members
  | None => []
  end.

(** [SADD key member] *)
Definition sadd (key member : string) (r : t) : t :=
  mk (strings r) (Dict.set key (Repository.sadd member (smembers key r)) (sets r)).

(** [SREM key member] *)
Definition srem (key member : string) (r : t) : t :=
  mk (strings r) (Dict.set key (Repository.srem member (smembers key r)) (sets r)).

End Redis.

(** ** repositories/redis_agent_state_repository.py, with the expiry of its keys

    [Repository] above is this repository as seen while no key has expired. *)

Module RedisAgentStateRepository.

Definition STATE_KEY_PREFIX : string := "llm_bridge:mission_state:".
Definition ACTIVE_MISSIONS_SET_KEY : string := "llm_bridge:active_missions".
Definition MISSION_TTL_SECONDS : Z := 24 * 3600.

Definition _get_key (mission_id : string) : string :=
  STATE_KEY_PREFIX ++ mission_id.

(** Both commands of the pipeline are executed together, at [now]. *)
Definition save (now : Z) (state : AgentState.t) (client : Redis.t) : Redis.t :=
  let key := _get_key (AgentState.mission_id state) in
  let state_json := StateJson.model_dump_json state in
  let client := Redis.set_ex key state_json MISSION_TTL_SECONDS now client in
  if Py.mem (AgentState.status state)
       ["PENDING"; "PLANNING"; "RUNNING"; "AWAITING_HUMAN_INPUT"]
  then Redis.sadd ACTIVE_MISSIONS_SET_KEY (AgentState.mission_id state) client
  else Redis.srem ACTIVE_MISSIONS_SET_KEY (AgentState.mission_id state) client.

Definition get_by_id (now : Z) (mission_id : string) (client : Redis.t)
  : option AgentState.t :=
  match Redis.get (_get_key mission_id) now client with
  | Some data => Some (StateJson.model_validate_json data)
  | None => None
  end.

Definition delete (mission_id : string) (client : Redis.t) : Redis.t :=
  Redis.srem ACTIVE_MISSIONS_SET_KEY mission_id
    (Redis.del (_get_key mission_id) client).

Definition list_active_ids (client : Redis.t) : list string :=
  Redis.smembers ACTIVE_MISSIONS_SET_KEY client.

End RedisAgentStateRepository.

(** ** repositories/memory_state_repository.py

    This repository keeps the state objects themselves, not copies: a [Ref]
    names an object and the heap gives its present content.  The set of
    active identifiers is a list without repetition. *)

Module InMemoryAgentStateRepository.

Definition Ref : Type := nat.
Definition Heap : Type := Ref -> AgentState.t.

Record t : Type := mk {
  _states : Dict.t Ref;
  _active_ids : list string
}.

Definition init : t := mk Dict.empty [].

Definition save (state : Ref) (heap : Heap) (r : t) : t :=
  let mission_id := AgentState.mission_id (heap state) in
  mk (Dict.set mission_id state (_states r))
     (if Py.mem (AgentState.status (heap state))
           ["RUNNING"; "AWAITING_HUMAN_INPUT"; "PLANNING"]
      then Repository.sadd mission_id (_active_ids r)
      else Repository.srem mission_id (_active_ids r)).

Definition get_by_id (mission_id : string) (r : t) : option Ref :=
  Dict.get mission_id (_states r).

Definition list_active_ids (r : t) : list string := _active_ids r.

(** [state.status in ["COMPLETED", "ERROR"] and state.completed_at and
    state.completed_at < cutoff_time] *)
Definition finished_before (cutoff_time : Z) (state : AgentState.t) : bool :=
  Py.mem (AgentState.status state) ["COMPLETED"; "ERROR"]
  && match AgentState.completed_at state with
     | Some completed_at => (completed_at <? cutoff_time)%Z
     | None => false
     end.

(** [cleanup_old_states(older_than_hours)], called at [now]: the number of
    states deleted and the repository left. *)
Definition cleanup_old_states (now older_than_hours : Z) (heap : Heap) (r : t)
  : nat * t :=
  let cutoff_time := (now - older_than_hours * 3600)%Z in
  let to_delete :=
    map fst (filter (fun item => finished_before cutoff_time (heap (snd item)))
               (Dict.items (_states r))) in
  (List.length to_delete,
   mk (fold_left (fun states mission_id => Dict.remove mission_id states)
         to_delete (_states r))
      (_active_ids r)).

End InMemoryAgentStateRepository.

(** ** The recovery of interrupted missions when the API starts
    (api/main.py, [lifespan])

    Every mission listed as active is loaded, marked as failed and saved; the
    clock is read once, at [now]. *)

Section Lifespan.

Context `{Collab : Collaborators}.

(** [str(datetime.now())] *)
Variable str_datetime : Z -> string.

Definition mark_interrupted (now : Z) (state : AgentState.t) : AgentState.t :=
  AgentState.mark_error (isoformat now) (strftime_hms now)
    ("Mission interrupted by server restart at " ++ str_datetime now ++ ".")
    state.

(** The body of the loop over the interrupted missions. *)
Definition recover_mission (now : Z) (client : Redis.t) (mission_id : string)
  : Redis.t :=
  match RedisAgentStateRepository.get_by_id now mission_id client with
  | Some state =>
      RedisAgentStateRepository.save now (mark_interrupted now state) client
  | None => client
  end.

Definition recover_interrupted_missions (now : Z) (client : Redis.t) : Redis.t :=
  let interrupted_ids := RedisAgentStateRepository.list_active_ids client in
  fold_left (recover_mission now) interrupted_ids client.

End Lifespan.

(** ** The tool registry as shipped (tools/registry.py, tools/web_tools.py)

    Of a tool's function the parameter list is embedded, with its defaults;
    of its entry the description, the names of the documented parameters, the
    category and the [async] flag.  What the functions compute from their
    arguments is left to a collaborator, [ask_human] apart. *)

Module Registry.

(** Binding of keyword arguments to the parameters of [fname]: a keyword
    that names no parameter, then a parameter left without value, is a
    [TypeError]. *)
Definition bind_kwargs (fname : string) (params : list (string * option JSON))
    (kwargs : Dict.t JSON) : Res (list JSON) :=
  match find (fun k => negb (Py.mem k (map fst params))) (Dict.keys kwargs) with
  | Some k =>
      Raise (PyException "TypeError"
               (fname ++ "() got an unexpected keyword argument '" ++ k ++ "'"))
  | None =>
      match filter (fun p => match Dict.get (fst p) kwargs, snd p with
                             | None, None => true
                             | _, _ => false
                             end) params with
      | [] =>
          Ret (map (fun p => match Dict.get (fst p) kwargs, snd p with
                             | Some v, _ => v
                             | None, Some default => default
                             | None, None => JNull
                             end) params)
      | missing =>
          Raise (PyException "TypeError"
                   (fname ++ "() missing " ++ str_nat (List.length missing)
                    ++ " required positional argument"
                    ++ (match missing with [_] => "" | _ => "s" end) ++ ": "
                    ++ Py.join " and "
                         (map (fun p => "'" ++ fst p ++ "'") missing)))
      end
  end.

Section Shipped.

Context `{Collab : Collaborators}.

(** What the function registered under a name returns for its bound
    arguments. *)
Variable body : string -> list JSON -> World -> Res JSON * World.

Record Tool : Type := mkTool {
  function : Dict.t JSON -> World -> Res JSON * World;
  description : string;
  parameters : list string;
  category : string;
  async : bool
}.

Definition call (name fname : string) (params : list (string * option JSON))
    (kwargs : Dict.t JSON) (w : World) : Res JSON * World :=
  match bind_kwargs fname params kwargs with
  | Ret args => body name args w
  | Raise e => (Raise e, w)
  | Diverge => (Diverge, w)
  end.

(** [async def search_web(query, max_results=5)] *)
Definition search_web : Dict.t JSON -> World -> Res JSON * World :=
  call "web_search" "search_web" [("query", None); ("max_results", Some (JNum 5))].

(** [async def fetch_url_content(url)] *)
Definition fetch_url_content : Dict.t JSON -> World -> Res JSON * World :=
  call "fetch_url" "fetch_url_content" [("url", None)].

(** [async def analyze_content(content, analysis_type="summary")] *)
Definition analyze_content : Dict.t JSON -> World -> Res JSON * World :=
  call "analyze_content" "analyze_content"
    [("content", None); ("analysis_type", Some (JStr "summary"))].

(** [lambda parameter: ...], registered under [name] *)
Definition lambda (name parameter : string) : Dict.t JSON -> World -> Res JSON * World :=
  call name "<lambda>" [(parameter, None)].

Definition ask_human_entry (description category : string) : Tool :=
  mkTool (fun kwargs w => (ask_human kwargs, w)) description
    ["question"; "context"; "options"; "urgency"] category false.

(** The display of [TOOL_REGISTRY], in the order written; "ask_human" is
    written twice. *)
Definition TOOL_REGISTRY_display : list (string * Tool) :=
  [("web_search",
    mkTool search_web
      "Führt eine Websuche durch, um aktuelle Informationen zu einem Thema zu finden"
      ["query"; "max_results"] "web" true);
   ("fetch_url",
    mkTool fetch_url_content "Lädt den Inhalt einer spezifischen URL"
      ["url"] "web" true);
   ("analyze_content",
    mkTool analyze_content
      "Analysiert gegebenen Text (Zusammenfassung, Keywords, Sentiment)"
      ["content"; "analysis_type"] "analysis" true);
   ("ask_human",
    ask_human_entry
      "Pausiert die Mission und stellt eine spezifische Frage an einen menschlichen Experten. Benutze dies nur, wenn du absolut nicht weiterkommst oder eine strategische Entscheidung benötigst."
      "collaboration");
   ("document_analysis",
    mkTool (lambda "document_analysis" "doc")
      "Analysiert Dokumente und extrahiert wichtige Informationen"
      ["document"] "analysis" false);
   ("quality_check",
    mkTool (lambda "quality_check" "content")
      "Überprüft die Qualität von erstellten Inhalten"
      ["content"] "quality" false);
   ("text_formatting",
    mkTool (lambda "text_formatting" "text")
      "Formatiert und strukturiert Text für bessere Lesbarkeit"
      ["text"] "formatting" false);
   ("grammar_check",
    mkTool (lambda "grammar_check" "text")
      "Überprüft Grammatik und Rechtschreibung"
      ["text"] "quality" false);
   ("data_processing",
    mkTool (lambda "data_processing" "data")
      "Verarbeitet und analysiert strukturierte Daten"
      ["data"] "analysis" false);
   ("chart_generation",
    mkTool (lambda "chart_generation" "data")
      "Erstellt Diagramme und Visualisierungen aus Daten"
      ["data"] "visualization" false);
   ("ask_human",
    ask_human_entry
      "Stelle eine klärende Frage an den menschlichen Benutzer, wenn eine Aufgabe mehrdeutig ist oder menschliches Urteilsvermögen erfordert. Löst eine Exception aus, die vom Orchestrator behandelt wird."
      "human_interaction")].

Definition TOOL_REGISTRY : Dict.t Tool := Dict.of_literal TOOL_REGISTRY_display.

(** An entry as the orchestrator reads it. *)
Definition tool_info (tool : Tool) : ToolInfo.t :=
  @ToolInfo.mk Collab (function tool) (description tool) (async tool).

(** The registry the orchestrator imports. *)
Definition imported_registry : Dict.t ToolInfo.t :=
  map (fun item => (fst item, tool_info (snd item))) TOOL_REGISTRY.

End Shipped.

End Registry.

(** ** config/schema.py: nodes and graphs

    The crews the API hands to the orchestrator are dumps of validated
    models. *)

Module Schema.

(** The values of a node as the registry file gives them. *)
Record NodeConfig : Type := mkNodeConfig {
  transitions_to : option string;
  conditional_transitions : option (list Transition.t)
}.

Definition has_transitions_to (values : NodeConfig) : bool :=
  match transitions_to values with
  | Some target => negb (String.eqb target "")
  | None => false
  end.

Definition has_conditional_transitions (values : NodeConfig) : bool :=
  match conditional_transitions values with
  | Some (_ :: _) => true
  | _ => false
  end.

(** [NodeConfig.check_transitions] *)
Definition check_transitions (values : NodeConfig) : Res NodeConfig :=
  if has_transitions_to values && has_conditional_transitions values then
    Raise (PyException "ValueError"
             "Ein Knoten kann nicht sowohl 'transitions_to' als auch 'conditional_transitions' haben.")
  else if negb (has_transitions_to values)
          && negb (has_conditional_transitions values) then
    Raise (PyException "ValueError"
             "Ein Knoten muss entweder 'transitions_to' oder 'conditional_transitions' definieren.")
  else Ret values.

(** [NodeConfig.model_dump()]: both keys are written. *)
Definition NodeConfig_model_dump (node : NodeConfig) : NodeConfig.t :=
  NodeConfig.mk (transitions_to node) (Some (conditional_transitions node)).

Record GraphConfig : Type := mkGraphConfig {
  entry_point : string;
  nodes : Dict.t NodeConfig
}.

(** Validation of the nodes, in their order, then
    [GraphConfig.entry_point_must_exist_in_nodes]. *)
Fixpoint check_nodes (nodes : Dict.t NodeConfig) : Res (Dict.t NodeConfig) :=
  match nodes with
  | [] => Ret []
  | (name, values) :: rest =>
      match check_transitions values with
      | Ret node =>
          match check_nodes rest with
          | Ret checked => Ret ((name, node) :: checked)
          | other => other
          end
      | Raise e => Raise e
      | Diverge => Diverge
      end
  end.

Definition GraphConfig_validate (entry_point : string) (nodes : Dict.t NodeConfig)
  : Res GraphConfig :=
  match check_nodes nodes with
  | Ret checked =>
      if Dict.has entry_point checked then Ret (mkGraphConfig entry_point checked)
      else Raise (PyException "ValueError"
                    ("Entry point '" ++ entry_point
                     ++ "' muss in nodes definiert sein"))
  | Raise e => Raise e
  | Diverge => Diverge
  end.

Definition GraphConfig_model_dump (graph : GraphConfig) : Graph.t :=
  Graph.mk (Some (entry_point graph))
    (map (fun item => (fst item, NodeConfig_model_dump (snd item))) (nodes graph)).

End Schema.

(** ** Mission templates ([execute_template_mission]) *)

Module MissionTemplate.
(** A template as dumped: [prompt_template] may hold [None]. *)
Record t : Type := mk {
  crew : string;
  prompt_template : option string
}.
End MissionTemplate.

(** What a caller passes as [active_missions_dict], which the method hands
    to [execute_mission] as its [state_repository]. *)
Inductive StoreArgument : Type :=
| NoStore
| ADict (d : Dict.t JSON)
| ARepository (r : Repository.t).

Section TemplateMission.

Context `{Collab : Collaborators}.

Variable agents_config : Dict.t AgentConfig.t.
Variable crews_config : Dict.t CrewConfig.t.
Variable TOOL_REGISTRY : Dict.t ToolInfo.t.
Variable mission_templates : Dict.t MissionTemplate.t.

(** [prompt_template.format( **parameters)] *)
Variable str_format : string -> Dict.t JSON -> Res string.

Definition execute_template_mission (fuel : nat) (fresh_id : string)
    (template_name : string) (parameters : Dict.t JSON)
    (active_missions_dict : StoreArgument) (w : World) : Outcome :=
  match Dict.get template_name mission_templates with
  | None =>
      mkOutcome (Raise (PyException "ValueError"
                          ("Template '" ++ template_name ++ "' nicht gefunden")))
                None w
  | Some template =>
      let crew_name := MissionTemplate.crew template in
      match MissionTemplate.prompt_template template with
      | None =>
          mkOutcome (Raise (PyException "AttributeError"
                              "'NoneType' object has no attribute 'format'"))
                    None w
      | Some prompt_template =>
          match str_format prompt_template parameters with
          | Ret goal =>
              match active_missions_dict with
              | NoStore | ADict [] =>
                  execute_mission agents_config crews_config TOOL_REGISTRY fuel
                    fresh_id crew_name goal (Some (JObj parameters)) None w
              | ADict (_ :: _) =>
                  (* a dictionary that is not empty passes for a repository
                     until its [save] is asked for *)
                  match Dict.get crew_name crews_config with
                  | None =>
                      mkOutcome (Raise (PyException "ValueError"
                                          ("Crew '" ++ crew_name
                                           ++ "' nicht in Registry gefunden")))
                                None w
                  | Some _ =>
                      mkOutcome (Raise (PyException "AttributeError"
                                          "'dict' object has no attribute 'save'"))
                                None w
                  end
              | ARepository r =>
                  execute_mission agents_config crews_config TOOL_REGISTRY fuel
                    fresh_id crew_name goal (Some (JObj parameters)) (Some r) w
              end
          | Raise e => mkOutcome (Raise e) None w
          | Diverge => mkOutcome Diverge None w
          end
      end
  end.

End TemplateMission.

(** ** Values on their way to JSON ([_serialize_for_json],
    [AgentState._serialize_results])

    The values are those built from [None], booleans, numbers, strings,
    instants, lists, dictionaries with string keys and Pydantic objects. *)

Inductive PyVal : Type :=
| PNone
| PBool (b : bool)
| PNum (q : Q)
| PStr (s : string)
| PDatetime (t : Z)
| PList (l : list PyVal)
| PDict (d : list (string * PyVal))
| PModel (cls : string) (fields : list (string * PyVal)).

(** [obj.model_dump()], and what it makes of the values inside: objects
    become dictionaries of their fields, instants stay. *)
Fixpoint model_dump (obj : PyVal) : PyVal :=
  match obj with
  | PList l => PList (map model_dump l)
  | PDict d => PDict (map (fun '(k, v) => (k, model_dump v)) d)
  | PModel _ fields => PDict (map (fun '(k, v) => (k, model_dump v)) fields)
  | other => other
  end.

Section Serialize.

Context `{Collab : Collaborators}.

(** The source's last-but-one case is [_serialize_for_json(obj.model_dump())];
    the recursion is written here on the fields, and
    [_serialize_for_json_of_model] below shows the two to agree. *)
Fixpoint _serialize_for_json (obj : PyVal) : PyVal :=
  match obj with
  | PDatetime t => PStr (isoformat t)
  | PDict d => PDict (map (fun '(k, v) => (k, _serialize_for_json v)) d)
  | PList l => PList (map _serialize_for_json l)
  | PModel _ fields =>
      PDict (map (fun '(k, v) => (k, _serialize_for_json v)) fields)
  | other => other
  end.

(** [AgentState._serialize_results] has the same text. *)
Definition _serialize_results : PyVal -> PyVal := _serialize_for_json.

End Serialize.

(** ** A reference JSON reader

    Used to run the orchestrator on concrete replies.  It reads objects,
    arrays, strings with the single-character escapes, decimal numbers without
    exponent and the three literals. *)

Module JsonText.

Definition is_ws (c : ascii) : bool :=
  let n := nat_of_ascii c in
  ((n =? 32) || (n =? 9) || (n =? 10) || (n =? 13))%nat.

Fixpoint skip_ws (s : string) : string :=
  match s with
  | String c r => if is_ws c then skip_ws r else s
  | EmptyString => s
  end.

Definition digit_of (c : ascii) : option Z :=
  let n := nat_of_ascii c in
  if ((48 <=? n) && (n <=? 57))%nat then Some (Z.of_nat (n - 48)) else None.

(** Digits read so far as a number, their count, and the rest. *)
Fixpoint read_digits (s : string) (acc : Z) (count : nat) : Z * nat * string :=
  match s with
  | String c r =>
      match digit_of c with
      | Some d => read_digits r (acc * 10 + d)%Z (S count)
      | None => (acc, count, s)
      end
  | EmptyString => (acc, count, s)
  end.

Definition read_number (s : string) : option (Q * string) :=
  let '(neg, s1) := match s with
                    | String "-" r => (true, r)
                    | _ => (false, s)
                    end in
  let '(int_part, n, s2) := read_digits s1 0%Z 0 in
  match n with
  | O => None
  | S _ =>
      let sign (q : Q) := if neg then Qopp q else q in
      match s2 with
      | String "." r =>
          let '(frac, k, s3) := read_digits r 0%Z 0 in
          match k with
          | O => None
          | S _ =>
              Some (sign (Qmake (int_part * 10 ^ Z.of_nat k + frac)
                                (Z.to_pos (10 ^ Z.of_nat k))), s3)
          end
      | _ => Some (sign (inject_Z int_part), s2)
      end
  end.

(** The characters of a string literal after its opening quote. *)
Fixpoint read_string (s : string) : option (string * string) :=
  match s with
  | EmptyString => None
  | String c r =>
      if Ascii.eqb c "034" then Some (EmptyString, r)
      else if Ascii.eqb c "092" then
        match r with
        | String e r' =>
            let unescaped :=
              if Ascii.eqb e "n" then Some "010"%char
              else if Ascii.eqb e "t" then Some "009"%char
              else if Ascii.eqb e "r" then Some "013"%char
              else if Ascii.eqb e "b" then Some "008"%char
              else if Ascii.eqb e "f" then Some "012"%char
              else if Ascii.eqb e "034" || Ascii.eqb e "092" || Ascii.eqb e "/"
                   then Some e
              else None in
            match unescaped, read_string r' with
            | Some u, Some (x, rest) => Some (String u x, rest)
            | _, _ => None
            end
        | EmptyString => None
        end
      else if (nat_of_ascii c <? 32)%nat then None
      else match read_string r with
           | Some (x, rest) => Some (String c x, rest)
           | None => None
           end
  end.

Fixpoint read_value (fuel : nat) (s : string) : option (JSON * string) :=
  match fuel with
  | O => None
  | S fuel' =>
      match skip_ws s with
      | String "{" r =>
          match skip_ws r with
          | String "}" r' => Some (JObj [], r')
          | _ => read_members fuel' r []
          end
      | String "[" r =>
          match skip_ws r with
          | String "]" r' => Some (JArr [], r')
          | _ => read_elements fuel' r []
          end
      | String "034" r =>
          match read_string r with
          | Some (x, rest) => Some (JStr x, rest)
          | None => None
          end
      | s' =>
          if Py.startswith "null" s' then Some (JNull, Py.drop 4 s')
          else if Py.startswith "true" s' then Some (JBool true, Py.drop 4 s')
          else if Py.startswith "false" s' then Some (JBool false, Py.drop 5 s')
          else match read_number s' with
               | Some (q, rest) => Some (JNum q, rest)
               | None => None
               end
      end
  end
with read_elements (fuel : nat) (s : string) (acc : list JSON)
  : option (JSON * string) :=
  match fuel with
  | O => None
  | S fuel' =>
      match read_value fuel' s with
      | Some (v, rest) =>
          match skip_ws rest with
          | String "," r => read_elements fuel' r (acc ++ [v])
          | String "]" r => Some (JArr (acc ++ [v]), r)
          | _ => None
          end
      | None => None
      end
  end
with read_members (fuel : nat) (s : string) (acc : Dict.t JSON)
  : option (JSON * string) :=
  match fuel with
  | O => None
  | S fuel' =>
      match skip_ws s with
      | String "034" r =>
          match read_string r with
          | Some (k, rest) =>
              match skip_ws rest with
              | String ":" r' =>
                  match read_value fuel' r' with
                  | Some (v, rest') =>
                      match skip_ws rest' with
                      | String "," r'' => read_members fuel' r'' (Dict.set k v acc)
                      | String "}" r'' => Some (JObj (Dict.set k v acc), r'')
                      | _ => None
                      end
                  | None => None
                  end
              | _ => None
              end
          | None => None
          end
      | _ => None
      end
  end.

Definition escape_char (c : ascii) : string :=
  if Ascii.eqb c "034" || Ascii.eqb c "092" then String "092" (String c "")
  else String c "".

Fixpoint escape (s : string) : string :=
  match s with
  | EmptyString => EmptyString
  | String c r => escape_char c ++ escape r
  end.

Definition quoted (s : string) : string :=
  String "034" (escape s ++ String "034" EmptyString).

(** The compact text of a value; numbers are written when they are integers. *)
Fixpoint dumps (j : JSON) : string :=
  match j with
  | JNull => "null"
  | JBool true => "true"
  | JBool false => "false"
  | JNum q => str_Z (Qnum q)
  | JStr s => quoted s
  | JArr l =>
      "[" ++ Py.join "," (map dumps l) ++ "]"
  | JObj d =>
      "{" ++ Py.join "," (map (fun kv => quoted (fst kv) ++ ":" ++ dumps (snd kv)) d)
      ++ "}"
  end.

Definition loads (s : string) : JSON + string :=
  match read_value (S (S (String.length s))) s with
  | Some (j, rest) =>
      match skip_ws rest with
      | EmptyString => inl j
      | _ => inr "Extra data"
      end
  | None => inr "Expecting value"
  end.

End JsonText.

(** ** Running the orchestrator on scripted collaborators *)

Module Demo.

(** The world is the list of conversation identifiers the bridge has been
    called with; [reply] scripts the bridge from the identifier and that
    list.  The clock reads the number of calls made. *)
Definition collaborators (reply : string -> list string -> string + string)
  : Collaborators := {|
  World := list string;
  now := fun w => Z.of_nat (List.length w);
  strftime_hms := str_Z;
  isoformat := str_Z;
  bridge_message := fun conversation_id _ _ w =>
                      (reply conversation_id w, (w ++ [conversation_id])%list);
  json_loads := JsonText.loads;
  py_format := JsonText.dumps;
  format_2f := fun q => str_Z (Qnum q) ++ "/" ++ str_Z (Zpos (Qden q));
  _create_planning_prompt := fun _ goal _ _ => "plan: " ++ goal;
  _create_agent_prompt := fun cfg task _ => AgentConfig.role cfg ++ ": " ++ task;
  _create_tool_enhanced_prompt := fun prompt tools => prompt ++ " tools: " ++ Py.join ", " tools;
  _create_tool_result_prompt := fun prompt call result _ =>
                                  prompt ++ " result: " ++ JsonText.dumps result;
  _create_synthesis_prompt := fun goal results =>
                                "synthesis: " ++ goal ++ " from " ++ Py.join ", " (Dict.keys results);
  _create_routing_prompt := fun _ agent _ _ => "route: " ++ agent;
  _create_continuation_prompt := fun cfg _ answer => AgentConfig.role cfg ++ " continue: " ++ answer;
  structure_with_schema := fun _ response => VText response;
  int_of_text := fun text => option_map Z.of_int (NilZero.int_of_string text)
|}.

(** The same collaborators with another result structurer. *)
Definition with_structurer (C : Collaborators)
    (structure : string -> string -> ResultValue) : Collaborators := {|
  World := @World C;
  now := @now C;
  strftime_hms := @strftime_hms C;
  isoformat := @isoformat C;
  bridge_message := @bridge_message C;
  json_loads := @json_loads C;
  py_format := @py_format C;
  format_2f := @format_2f C;
  _create_planning_prompt := @_create_planning_prompt C;
  _create_agent_prompt := @_create_agent_prompt C;
  _create_tool_enhanced_prompt := @_create_tool_enhanced_prompt C;
  _create_tool_result_prompt := @_create_tool_result_prompt C;
  _create_synthesis_prompt := @_create_synthesis_prompt C;
  _create_routing_prompt := @_create_routing_prompt C;
  _create_continuation_prompt := @_create_continuation_prompt C;
  structure_with_schema := structure;
  int_of_text := @int_of_text C
|}.

Definition agent (model role : string) (tools : list string) : AgentConfig.t :=
  AgentConfig.mk model role "goal" "backstory" tools None None.

Definition plain_node (next : string) : NodeConfig.t :=
  NodeConfig.mk (Some next) None.

Definition one_task_plan : string :=
  JsonText.dumps
    (JArr [JObj [("task_id", JStr "t1"); ("description", JStr "Research G");
                 ("assigned_agent", JStr "researcher");
                 ("expected_output", JStr "Text"); ("priority", JNum 1)]]).

End Demo.

(** * Vocabulary of the properties *)

Section Vocabulary.

Context `{Collab : Collaborators}.
Variable TOOL_REGISTRY : Dict.t ToolInfo.t.

(** [c'] differs from [c] by entries appended to the history only. *)
Definition history_extended (c c' : Ctx) (entries : list string) : Prop :=
  c' = mkCtx (AgentState.set_history
                (AgentState.history (st c) ++ entries) (st c))
             (repo c) (world c).

(** The fixed table of the deterministic router. *)
Definition table_target (r : Recommendation) : string :=
  match r with
  | PUBLISH => "END"
  | REVISE => "writer"
  | RESEARCH_MORE => "researcher"
  | FAIL => "END"
  end.

(** The one task of the fallback plan. *)
Definition fallback_task : TaskPlan.t :=
  TaskPlan.mk "fallback_task_1" "Perform research and analysis" "researcher"
    "ResearchReport" 1.

(** [tool_call.get('args', {})] *)
Definition tool_args_of (tool_call : Dict.t JSON) : JSON :=
  match Dict.get "args" tool_call with
  | Some a => a
  | None => JObj []
  end.


(** The mission is as it was, up to history entries and what the tool did to
    the world. *)
Definition mission_untouched (c c' : Ctx) : Prop :=
  AgentState.status (st c') = AgentState.status (st c)
  /\ AgentState.error_messages (st c') = AgentState.error_messages (st c)
  /\ AgentState.active_human_request (st c')
     = AgentState.active_human_request (st c)
  /\ repo c' = repo c.

(** Every exception [m] raises, with the context it leaves, satisfies [P]. *)
Definition raises_only {A} (P : Exn -> Ctx -> Prop) (m : M A) : Prop :=
  forall c e c', m c = (Raise e, c') -> P e c'.

(** Computations that raise nothing at all. *)
Definition silent {A} (m : M A) : Prop := raises_only (fun _ _ => False) m.

(** The signal is not among the exceptions raised. *)
Definition no_signal (e : Exn) (_ : Ctx) : Prop := is_signal e = false.

(** The mission has been suspended on [request]. *)
Definition suspended_by (request : HumanRequest.t) (s : AgentState.t) : Prop :=
  AgentState.status s = "AWAITING_HUMAN_INPUT"
  /\ AgentState.active_human_request s = Some request
  /\ exists hms,
       In (AgentState.entry hms ("📋 Frage: " ++ HumanRequest.question request))
          (AgentState.history s).

(** The repository holds the state as it is now. *)
Definition persisted (c : Ctx) : Prop :=
  Repository.get_by_id (AgentState.mission_id (st c)) (repo c) = Some (st c).

(** A raised signal finds the mission suspended on the request it carries. *)
Definition carries_request (e : Exn) (c : Ctx) : Prop :=
  forall request, e = HumanInterventionRequired request ->
                  suspended_by request (st c).

(** ... and that state saved. *)
Definition carries_saved_request (e : Exn) (c : Ctx) : Prop :=
  forall request, e = HumanInterventionRequired request ->
                  suspended_by request (st c) /\ persisted c.

(** The request as [_execute_tool_call] stores it: the calling agent's name
    fills in for a missing or "unknown" one. *)
Definition named_request (agent_name : string) (request : HumanRequest.t)
  : HumanRequest.t :=
  if String.eqb (HumanRequest.agent_name request) ""
     || String.eqb (HumanRequest.agent_name request) "unknown"
  then HumanRequest.with_agent_name agent_name request
  else request.

(** Every registered tool returns or raises. *)
Definition tools_terminate : Prop :=
  forall name tool_info kwargs w,
    Dict.get name TOOL_REGISTRY = Some tool_info ->
    fst (ToolInfo.function tool_info kwargs w) <> Diverge.

(** [c'] has the completed nodes and the current node of [c]. *)
Definition same_nodes (c c' : Ctx) : Prop :=
  AgentState.completed_nodes (st c') = AgentState.completed_nodes (st c)
  /\ AgentState.current_node (st c') = AgentState.current_node (st c).

(** [m] returns or raises, and changes neither list of nodes. *)
Definition steady {A} (m : M A) : Prop :=
  forall c, fst (m c) <> Diverge /\ same_nodes c (snd (m c)).

(** The context once [node_name] has been made the current node. *)
Definition entered (node_name : string) (c : Ctx) : Ctx :=
  mkCtx (AgentState.set_current_node (hms_of c) node_name (st c)) (repo c) (world c).

(** The context once the state has been saved. *)
Definition saved (c : Ctx) : Ctx :=
  mkCtx (st c) (Repository.save (st c) (repo c)) (world c).

(** The context once [message] has been logged. *)
Definition logged (message : string) (c : Ctx) : Ctx :=
  mkCtx (AgentState.add_history_entry (hms_of c) message (st c)) (repo c) (world c).

(** [nodes_config.get(current_node, {})] *)
Definition node_config_of (crew_config : CrewConfig.t) (node_name : string)
  : NodeConfig.t :=
  match Dict.get node_name (Graph.nodes (CrewConfig.graph crew_config)) with
  | Some n => n
  | None => NodeConfig.empty
  end.

(** The quality check as the walk performs it after [node_name]. *)
Definition quality_check (crew_config : CrewConfig.t) (node_name : string)
    (s : AgentState.t) : Res bool :=
  if Py.contains "qa" (Py.lower node_name)
  then _check_quality_threshold s crew_config
  else Ret false.

(** How many of the names [N] are not among [C]. *)
Definition uncovered (N C : list string) : nat :=
  List.length (filter (fun x => negb (Py.mem x C)) N).

(** The completed nodes once a new current node replaces [cur]. *)
Definition closing (C : list string) (cur : option string) : list string :=
  match cur with
  | Some x =>
      if negb (String.eqb x "") && negb (Py.mem x C) then (C ++ [x])%list else C
  | None => C
  end.

(** What is left to discover when the walk is about to enter [n]. *)
Definition walk_measure (N : list string) (n : string) (s : AgentState.t) : nat :=
  let C := AgentState.completed_nodes s in
  let C1 := closing C (AgentState.current_node s) in
  (uncovered N C + uncovered N C1 + uncovered N (closing C1 (Some n)))%nat.

(** Loop-backs still allowed. *)
Definition budget (crew_config : CrewConfig.t) (iteration_count : Z) : nat :=
  Z.to_nat (max_iterations_of crew_config - iteration_count).

(** Every node of the graph declares conditional transitions. *)
Definition all_conditional (crew_config : CrewConfig.t) : Prop :=
  forall n node_config,
    Dict.get n (Graph.nodes (CrewConfig.graph crew_config)) = Some node_config ->
    NodeConfig.conditional_transitions node_config <> None.

(** No agent's slot of results has a kind named "overall_score". *)
Definition no_score_kind (s : AgentState.t) : Prop :=
  forall agent_name slot,
    In (agent_name, slot) (AgentState.results s) ->
    Dict.get "overall_score" slot = None.

(** The state a caller receives, if any. *)
Definition returned_state (o : Outcome) : option AgentState.t :=
  match result o with
  | Ret s => Some s
  | _ => None
  end.

(** The state the repository holds for a mission, if any. *)
Definition stored_state (mission_id : string) (o : Outcome)
  : option AgentState.t :=
  match final_repository o with
  | Some r => Repository.get_by_id mission_id r
  | None => None
  end.

End Vocabulary.

(** ** Failures of a mission *)

Section WalkFailures.

Context `{Collab : Collaborators}.
Variable agents_config : Dict.t AgentConfig.t.
Variable TOOL_REGISTRY : Dict.t ToolInfo.t.
Variable crew_config : CrewConfig.t.

(** The context once the execution phase has started. *)
Definition started (c : Ctx) : Ctx :=
  mkCtx (AgentState.start_execution (now (world c)) (hms_of c) (st c))
        (repo c) (world c).



End WalkFailures.

Section Failures.

Context `{Collab : Collaborators}.


(** Whatever its outcome, [m] leaves the error messages as they are. *)
Definition leaves_errors {A} (m : M A) : Prop :=
  forall c,
    AgentState.error_messages (st (snd (m c))) = AgentState.error_messages (st c).

End Failures.

(** ** Vocabulary of the further properties *)

(** [l'] is [l] with entries appended. *)
Definition extends {A} (l l' : list A) : Prop := exists tail, l' = (l ++ tail)%list.

(** [s'] is the record of the same mission at a later point: identifier,
    crew, goal and creation instant are those of [s], and history, error
    messages and completed nodes are those of [s] with entries appended. *)
Definition record_grows (s s' : AgentState.t) : Prop :=
  AgentState.mission_id s' = AgentState.mission_id s
  /\ AgentState.crew_name s' = AgentState.crew_name s
  /\ AgentState.high_level_goal s' = AgentState.high_level_goal s
  /\ AgentState.created_at s' = AgentState.created_at s
  /\ extends (AgentState.history s) (AgentState.history s')
  /\ extends (AgentState.error_messages s) (AgentState.error_messages s')
  /\ extends (AgentState.completed_nodes s) (AgentState.completed_nodes s').

Section Records.

Context `{Collab : Collaborators}.

(** Whatever its outcome, [m] leaves a later record of the same mission. *)
Definition keeps_record {A} (m : M A) : Prop :=
  forall c, record_grows (st c) (st (snd (m c))).

(** The outcome of a mission is one of three: the state returned is
    completed, the state returned is suspended, or an exception is raised
    over a failed state. *)
Definition settled_as (o : Outcome) (s : AgentState.t) : Prop :=
  match result o with
  | Ret returned =>
      returned = s
      /\ (AgentState.status s = "COMPLETED"
          \/ (AgentState.status s = "AWAITING_HUMAN_INPUT"
              /\ AgentState.active_human_request s <> None))
  | Raise e => AgentState.status s = "ERROR" /\ AgentState.error_messages s <> []
  | Diverge => False
  end.

End Records.

(** ** Conversations *)

(** What is done to a conversation's state machine, one call at a time. *)
Inductive Operation : Type :=
| TransitionTo (target_llm_name : string) (allow_repeats : bool)
| RecordResponse (from_llm_name : string)
| EndConversation.

(** The machine after one call, whether the call returned or raised. *)
Definition after_operation (op : Operation) (m : ConversationStateMachine.t)
  : ConversationStateMachine.t :=
  match op with
  | TransitionTo target_llm_name allow_repeats =>
      fst (snd (ConversationStateMachine.transition_to target_llm_name None
                  allow_repeats m))
  | RecordResponse from_llm_name =>
      fst (ConversationStateMachine.record_response from_llm_name None m)
  | EndConversation => ConversationStateMachine.end_conversation m
  end.

Definition after_operations (ops : list Operation) (m : ConversationStateMachine.t)
  : ConversationStateMachine.t :=
  fold_left (fun m op => after_operation op m) ops m.

(** The two states in which a conversation accepts no further call of a
    model. *)
Definition closed (m : ConversationStateMachine.t) : Prop :=
  ConversationStateMachine.current_state m = ConversationStateMachine.CONVERSATION_ENDED
  \/ ConversationStateMachine.current_state m = ConversationStateMachine.ERROR.

(** Read from the latest participant backwards: no participant is the one
    before it, nor the one before that. *)
Fixpoint no_short_loop_backwards (latest_first : list string) : bool :=
  match latest_first with
  | a :: rest =>
      match rest with
      | b :: rest' =>
          negb (String.eqb a b)
          && match rest' with
             | c :: _ => negb (String.eqb a c)
             | [] => true
             end
      | [] => true
      end
      && no_short_loop_backwards rest
  | [] => true
  end.

Definition no_short_loop (chain : list string) : Prop :=
  no_short_loop_backwards (rev chain) = true.

(** Every call of a model in [ops] is made with loop detection on. *)
Definition without_repeats (ops : list Operation) : Prop :=
  forall target_llm_name allow_repeats,
    In (TransitionTo target_llm_name allow_repeats) ops -> allow_repeats = false.

(** ** The circuit breaker *)

(** What one recorded failure reads from outside: the clock when the failure
    is counted, the clock when the circuit is opened, and the jitter drawn. *)
Record Failure : Type := mkFailure {
  counted_at : Q;
  opened_at : Q;
  jitter : Q
}.

(** The breaker after the given failures in a row, no event store being
    attached. *)
Definition after_failures (failures : list Failure) (b : CircuitBreaker.t)
  : CircuitBreaker.t :=
  fold_left
    (fun b failure =>
       fst (snd (CircuitBreaker.record_failure (counted_at failure)
                   (opened_at failure) (jitter failure) None b)))
    failures b.

(** A factor [random.uniform(0.8, 1.2)] can draw. *)
Definition jitter_drawn (jitter_factor : Q) : Prop :=
  8 # 10 <= jitter_factor /\ jitter_factor <= 12 # 10.

(** A call that hands no value back: it raises or does not end. *)
Definition fails {A} (r : Res A) : Prop :=
  match r with
  | Ret _ => False
  | _ => True
  end.

(** ** The Redis repository *)

(** Every state key holds the state of the mission it is named after, as
    [save] writes it. *)
Definition stored_under_own_id (client : Redis.t) : Prop :=
  forall mission_id data expires_at,
    Dict.get (RedisAgentStateRepository._get_key mission_id) (Redis.strings client)
    = Some (data, expires_at) ->
    AgentState.mission_id (StateJson.model_validate_json data) = mission_id.

(** The statuses under which [save] lists a mission as active. *)
Definition listed_as_active (status : string) : bool :=
  Py.mem status ["PENDING"; "PLANNING"; "RUNNING"; "AWAITING_HUMAN_INPUT"].

(** ** Values ready for [json.dumps] *)

(** No instant and no model object is left in the value, at any depth. *)
Fixpoint plain_json (v : PyVal) : bool :=
  match v with
  | PDatetime _ | PModel _ _ => false
  | PList l => forallb plain_json l
  | PDict d => forallb (fun kv => plain_json (snd kv)) d
  | _ => true
  end.

(** * Scenarios *)

Module DemoSuspension.

(** A registry whose tool "escalate" is [ask_human]; the researcher calls it
    on its first turn. *)
Definition escalate_call : string :=
  JsonText.dumps (JObj [("tool_name", JStr "escalate");
                        ("args", JObj [("question", JStr "Which market?")])]).

Definition reply (conversation_id : string) (_ : list string) : string + string :=
  if Py.endswith "_planning" conversation_id then inl Demo.one_task_plan
  else if Py.endswith "_tool_0" conversation_id then inl escalate_call
  else inl "done".

Definition collaborators : Collaborators := Demo.collaborators reply.

Definition registry : Dict.t (@ToolInfo.t collaborators) :=
  [("escalate",
    @ToolInfo.mk collaborators (fun kwargs w => (ask_human kwargs, w))
      "asks a human" false)].

Definition agents : Dict.t AgentConfig.t :=
  [("researcher", Demo.agent "m1" "Researcher" ["escalate"])].

Definition crew : CrewConfig.t :=
  CrewConfig.mk ["researcher"] (Some "sup")
    (Graph.mk (Some "researcher") [("researcher", Demo.plain_node "END")])
    None None.

Definition request : HumanRequest.t :=
  HumanRequest.mk "researcher" "Which market?" "" None "medium" (Some 300%Z).

(** The context in which the [try] block of [execute_mission] ends. *)
Definition suspended_context : @Ctx collaborators :=
  snd (@execute_mission_try collaborators agents registry 10 crew None
         (@new_mission collaborators "mission_1" "solo" "G" Repository.empty [])).

Definition run : @Outcome collaborators :=
  @execute_mission collaborators agents [("solo", crew)] registry 10 "mission_1"
    "solo" "G" None (Some Repository.empty) [].

End DemoSuspension.

Module DemoRouting.

Definition collaborators : Collaborators := Demo.collaborators (fun _ _ => inl "publisher").

Definition verdict : QualityAssessment.t :=
  QualityAssessment.mk REVISE "needs another pass" [] ["weak sources"] 0.4.

(** A mission whose "qa_agent" has just delivered [verdict]; the graph
    declares targets that the table does not know. *)
Definition context : @Ctx collaborators :=
  @mkCtx collaborators
    (AgentState.store_result "0" "qa_agent" (VQuality verdict) "output"
       (create_mission_state "mission_1" 0 "crew" "G"))
    Repository.empty [].

Definition declared : option (list Transition.t) :=
  Some [Transition.mk "if good" "publisher"; Transition.mk "if bad" "editor"].

Definition crew : CrewConfig.t :=
  CrewConfig.mk ["qa_agent"] None (Graph.mk (Some "qa_agent") []) None None.

End DemoRouting.

Module DemoResume.

Definition collaborators : Collaborators := Demo.collaborators (fun _ _ => inl "done").

(** A stored mission that is running, not suspended. *)
Definition running : AgentState.t :=
  AgentState.set_status "RUNNING" (create_mission_state "mission_7" 0 "solo" "G").

Definition repository : Repository.t := Repository.save running Repository.empty.

End DemoResume.

Module DemoPlanning.

(** The supervisor answers in prose. *)
Definition prose : string := "I cannot produce a plan".

Definition collaborators : Collaborators := Demo.collaborators (fun _ _ => inl prose).

Definition crew : CrewConfig.t :=
  CrewConfig.mk ["researcher"] (Some "sup")
    (Graph.mk (Some "researcher") [("researcher", Demo.plain_node "END")])
    None None.

Definition context : @Ctx collaborators :=
  @new_mission collaborators "mission_1" "solo" "G" Repository.empty [].

End DemoPlanning.

Module DemoToolFailure.

Definition collaborators : Collaborators := Demo.collaborators (fun _ _ => inl "done").

(** The registry's own entry for [ask_human]. *)
Definition ask_human_entry : @ToolInfo.t collaborators :=
  @ToolInfo.mk collaborators (fun kwargs w => (ask_human kwargs, w))
    "Stelle eine klärende Frage an den menschlichen Benutzer" false.

Definition registry : Dict.t (@ToolInfo.t collaborators) :=
  [("ask_human", ask_human_entry)].

Definition call : Dict.t JSON :=
  [("tool_name", JStr "ask_human");
   ("args", JObj [("question", JStr "Which market?")])].

Definition context : @Ctx collaborators :=
  @new_mission collaborators "mission_1" "solo" "G" Repository.empty [].

End DemoToolFailure.

Module DemoSolo.

(** Goal "G", entry point "researcher", researcher.transitions_to = "END";
    planning yields one task assigned to "researcher". *)
Definition reply (conversation_id : string) (_ : list string) : string + string :=
  if Py.endswith "_planning" conversation_id then inl Demo.one_task_plan
  else inl ("answer of " ++ conversation_id).

Definition collaborators : Collaborators := Demo.collaborators reply.

Definition agents : Dict.t AgentConfig.t :=
  [("researcher", Demo.agent "m1" "Researcher" [])].

Definition crew : CrewConfig.t :=
  CrewConfig.mk ["researcher"] (Some "sup")
    (Graph.mk (Some "researcher") [("researcher", Demo.plain_node "END")])
    None None.

Definition run : @Outcome collaborators :=
  @execute_mission collaborators agents [("solo", crew)] [] 10 "mission_1"
    "solo" "G" None (Some Repository.empty) [].

(** The same crew as a dumped [NodeConfig] gives it: both keys present, the
    conditional one holding [None]. *)
Definition dumped_crew : CrewConfig.t :=
  CrewConfig.mk ["researcher"] (Some "sup")
    (Graph.mk (Some "researcher")
       [("researcher", NodeConfig.mk (Some "END") (Some None))])
    (Some 3%Z) (Some 0.85).

Definition dumped_run : @Outcome collaborators :=
  @execute_mission collaborators agents [("solo", dumped_crew)] [] 10 "mission_1"
    "solo" "G" None (Some Repository.empty) [].

End DemoSolo.

Module DemoAskHuman.

(** The researcher of the one-node crew, given the shipped tool "ask_human",
    calls it on its first turn. *)
Definition ask_human_call : string :=
  JsonText.dumps (JObj [("tool_name", JStr "ask_human");
                        ("args", JObj [("question", JStr "Which market?")])]).

Definition reply (conversation_id : string) (_ : list string) : string + string :=
  if Py.endswith "_planning" conversation_id then inl Demo.one_task_plan
  else if Py.endswith "_tool_0" conversation_id then inl ask_human_call
  else inl "done".

Definition collaborators : Collaborators := Demo.collaborators reply.

Definition body : string -> list JSON -> list string -> Res JSON * list string :=
  fun _ _ w => (Ret (JObj [("status", JStr "simulated")]), w).

Definition agents : Dict.t AgentConfig.t :=
  [("researcher", Demo.agent "m1" "Researcher" ["ask_human"])].

Definition run : @Outcome collaborators :=
  @execute_mission collaborators agents [("solo", DemoSolo.crew)]
    (@Registry.imported_registry collaborators body) 10 "mission_1" "solo" "G"
    None (Some Repository.empty) [].

End DemoAskHuman.

Module DemoResumeWalk.

(** researcher -> writer -> END; the mission was suspended while "writer" was
    the current node, "researcher" being completed. *)
Definition collaborators : Collaborators :=
  Demo.collaborators (fun conversation_id _ => inl ("answer of " ++ conversation_id)).

Definition agents : Dict.t AgentConfig.t :=
  [("researcher", Demo.agent "m1" "Researcher" []);
   ("writer", Demo.agent "m2" "Writer" [])].

Definition crew : CrewConfig.t :=
  CrewConfig.mk ["researcher"; "writer"] (Some "sup")
    (Graph.mk (Some "researcher")
       [("researcher", Demo.plain_node "writer");
        ("writer", Demo.plain_node "END")])
    None None.

Definition request : HumanRequest.t :=
  HumanRequest.mk "writer" "Which tone?" "" None "medium" (Some 300%Z).

Definition suspended : AgentState.t :=
  AgentState.set_active_human_request (Some request)
    (AgentState.set_status "AWAITING_HUMAN_INPUT"
       (AgentState.set_current_node "1" "writer"
          (AgentState.store_result "1" "researcher" (VText "findings") "output"
             (AgentState.set_current_node "0" "researcher"
                (AgentState.start_execution 0 "0"
                   (create_mission_state "mission_2" 0 "duo" "G")))))).

Definition repository : Repository.t := Repository.save suspended Repository.empty.

Definition run : @Outcome collaborators :=
  @resume_mission collaborators agents [("duo", crew)] [] 10 "mission_2" "formal"
    (Some repository) [].

End DemoResumeWalk.

Module DemoQuality.

(** writer -> qa_agent -> publisher -> END with [quality_threshold] 0.85; the
    result of "qa_agent" is structured as a [QAReport] whose [overall_score]
    is 0.95. *)
Definition reply (conversation_id : string) (_ : list string) : string + string :=
  if Py.endswith "_planning" conversation_id then inl Demo.one_task_plan
  else inl ("answer of " ++ conversation_id).

Definition qa_report : JSON :=
  JObj [("overall_score", JNum 0.95); ("feedback_summary", JStr "excellent");
        ("meets_requirements", JBool true); ("recommendation", JStr "publish");
        ("estimated_completion", JNum 1)].

Definition collaborators : Collaborators :=
  Demo.with_structurer (Demo.collaborators reply)
    (fun schema response =>
       if String.eqb schema "QAReport" then VModel "QAReport" qa_report
       else VText response).

Definition agents : Dict.t AgentConfig.t :=
  [("writer", Demo.agent "m1" "Writer" []);
   ("qa_agent", AgentConfig.mk "m2" "Reviewer" "goal" "backstory" []
                  (Some "QAReport") None);
   ("publisher", Demo.agent "m3" "Publisher" [])].

Definition crew : CrewConfig.t :=
  CrewConfig.mk ["writer"; "qa_agent"; "publisher"] (Some "sup")
    (Graph.mk (Some "writer")
       [("writer", Demo.plain_node "qa_agent");
        ("qa_agent", Demo.plain_node "publisher");
        ("publisher", Demo.plain_node "END")])
    (Some 3%Z) (Some 0.85).

Definition run : @Outcome collaborators :=
  @execute_mission collaborators agents [("review", crew)] [] 10 "mission_4"
    "review" "G" None (Some Repository.empty) [].

(** A state whose "qa_agent" holds a quality verdict of confidence 0.95. *)
Definition verdict_state : AgentState.t :=
  AgentState.store_result "0" "qa_agent"
    (VQuality (QualityAssessment.mk PUBLISH "fine" [] [] 0.95)) "output"
    (create_mission_state "mission_4" 0 "review" "G").

(** A state in which the slot itself carries a kind "overall_score", which no
    call of [store_result] in the orchestrator creates. *)
Definition scored_slot_state : AgentState.t :=
  AgentState.store_result "0" "qa_agent" (VData (JNum 0.82)) "overall_score"
    (create_mission_state "mission_4" 0 "review" "G").

Definition crew_without_threshold : CrewConfig.t :=
  CrewConfig.mk ["qa_agent"] None (Graph.mk (Some "qa_agent") []) None None.

End DemoQuality.

Module DemoSynthesisFailure.

(** The one-node crew again; the supervisor is down when the synthesis asks. *)
Definition reply (conversation_id : string) (_ : list string) : string + string :=
  if Py.endswith "_planning" conversation_id then inl Demo.one_task_plan
  else if Py.endswith "_synthesis" conversation_id then inr "bridge down"
  else inl ("answer of " ++ conversation_id).

Definition collaborators : Collaborators := Demo.collaborators reply.

Definition run : @Outcome collaborators :=
  @execute_mission collaborators DemoSolo.agents [("solo", DemoSolo.crew)] [] 10
    "mission_6" "solo" "G" None (Some Repository.empty) [].

End DemoSynthesisFailure.

Module DemoPlanningFailure.

(** The supervisor is down when the planning asks. *)
Definition collaborators : Collaborators :=
  Demo.collaborators (fun _ _ => inr "supervisor unavailable").

Definition failure : Exn :=
  PyException "Exception" "Planning phase failed: supervisor unavailable".

Definition failed_context : @Ctx collaborators :=
  snd (@execute_mission_try collaborators DemoSolo.agents [] 10 DemoSolo.crew None
         (@new_mission collaborators "mission_6" "solo" "G" Repository.empty [])).

End DemoPlanningFailure.

Module DemoAgentFailure.

(** The one-node crew; the researcher's model is down. *)
Definition reply (conversation_id : string) (_ : list string) : string + string :=
  if Py.endswith "_planning" conversation_id then inl Demo.one_task_plan
  else if Py.endswith "_researcher" conversation_id then inr "model down"
  else inl ("answer of " ++ conversation_id).

Definition collaborators : Collaborators := Demo.collaborators reply.

Definition start : @Ctx collaborators :=
  @new_mission collaborators "mission_6" "solo" "G" Repository.empty [].

(** The context in which the planning has returned. *)
Definition planned : @Ctx collaborators :=
  snd (@_planning_phase collaborators DemoSolo.agents DemoSolo.crew None start).

(** The context in which the researcher has failed. *)
Definition failed_context : @Ctx collaborators :=
  snd (@_execute_agent collaborators DemoSolo.agents [] "researcher"
         (entered "researcher" (started (saved planned)))).

Definition run : @Outcome collaborators :=
  @execute_mission collaborators DemoSolo.agents [("solo", DemoSolo.crew)] [] 10
    "mission_6" "solo" "G" None (Some Repository.empty) [].

End DemoAgentFailure.

Module DemoPlainCycle.

(** a -> b -> a through plain [transitions_to]; no node is "END". *)
Definition collaborators : Collaborators := Demo.collaborators (fun _ _ => inl "ok").

Definition agents : Dict.t AgentConfig.t :=
  [("a", Demo.agent "m1" "First" []); ("b", Demo.agent "m2" "Second" [])].

Definition crew : CrewConfig.t :=
  CrewConfig.mk ["a"; "b"] (Some "sup")
    (Graph.mk (Some "a") [("a", Demo.plain_node "b"); ("b", Demo.plain_node "a")])
    (Some 3%Z) None.

Definition run (fuel : nat) : @Outcome collaborators :=
  @execute_mission collaborators agents [("cycle", crew)] [] fuel "mission_5"
    "cycle" "G" None (Some Repository.empty) [].

End DemoPlainCycle.

Module DemoFeedbackLoop.

(** One node, "writer", whose conditional transitions lead back to itself;
    the supervisor always routes to "writer"; no node is "END". *)
Definition reply (conversation_id : string) (_ : list string) : string + string :=
  if Py.endswith "_routing" conversation_id then inl "writer" else inl "ok".

Definition collaborators : Collaborators := Demo.collaborators reply.

Definition agents : Dict.t AgentConfig.t :=
  [("writer", Demo.agent "m1" "Writer" [])].

Definition crew : CrewConfig.t :=
  CrewConfig.mk ["writer"] (Some "sup")
    (Graph.mk (Some "writer")
       [("writer",
         NodeConfig.mk None (Some (Some [Transition.mk "needs work" "writer"])))])
    None None.

Definition run : @Outcome collaborators :=
  @execute_mission collaborators agents [("loop", crew)] [] 10 "mission_5"
    "loop" "G" None (Some Repository.empty) [].

Definition start : @Ctx collaborators :=
  @new_mission collaborators "mission_5" "loop" "G" Repository.empty [].

End DemoFeedbackLoop.

Module DemoMalformedPlan.

(** The supervisor wraps its tasks in an object instead of answering with
    the list. *)
Definition wrapped : string :=
  JsonText.dumps (JObj [("tasks", JArr [])]).

Definition collaborators : Collaborators := Demo.collaborators (fun _ _ => inl wrapped).

Definition context : @Ctx collaborators :=
  @new_mission collaborators "mission_1" "solo" "G" Repository.empty [].

End DemoMalformedPlan.

Module DemoDumpedNode.

(** The node of the one-node crew as the registry file writes it. *)
Definition values : Schema.NodeConfig := Schema.mkNodeConfig (Some "END") None.

Definition start : @Ctx DemoSolo.collaborators :=
  @new_mission DemoSolo.collaborators "mission_1" "solo" "G" Repository.empty [].

(** The context in which the researcher has answered. *)
Definition answered : @Ctx DemoSolo.collaborators :=
  snd (@_execute_agent DemoSolo.collaborators DemoSolo.agents [] "researcher"
         (entered "researcher" start)).

End DemoDumpedNode.

(** A breaker of the bridge that has opened once, to be tried again at 60;
    the world is the time, and the protected call answers after one second. *)
Module DemoOpenBreaker.

Definition breaker : CircuitBreaker.t :=
  CircuitBreaker.update 3 1 CircuitBreaker.OPEN (Some 0) (Some 60)
    (CircuitBreaker.default "gateway").

Definition clock (w : Q) : Q := w.

Definition isoformat (instant : Q) : string := "1970-01-01T00:01:00".

Definition answer (w : Q) : Res string * Q := (Ret "pong", w + 1).

End DemoOpenBreaker.

(** The Redis store found at a restart at 100000: a running mission saved
    at 90000, and one saved at 0 whose state key has expired. *)
Module DemoRestart.

Definition collaborators : Collaborators := Demo.collaborators (fun _ _ => inl "ok").

Definition str_datetime : Z -> string := str_Z.

Definition running : AgentState.t :=
  AgentState.set_status "RUNNING" (create_mission_state "mission_1" 90000 "solo" "G").

Definition expired : AgentState.t :=
  AgentState.set_status "RUNNING" (create_mission_state "mission_2" 0 "solo" "G").

Definition client : Redis.t :=
  RedisAgentStateRepository.save 90000 running
    (RedisAgentStateRepository.save 0 expired Redis.empty).

End DemoRestart.

(** An in-memory repository with a mission completed at 10 and one that
    failed before completing. *)
Module DemoCleanup.

Definition finished : AgentState.t :=
  AgentState.complete_execution 10 "00:00:10"
    (AgentState.set_status "RUNNING" (create_mission_state "mission_1" 0 "solo" "G")).

Definition failed : AgentState.t :=
  AgentState.mark_error "1970-01-01T00:00:05" "00:00:05" "bridge down"
    (create_mission_state "mission_2" 0 "solo" "G").

Definition heap : InMemoryAgentStateRepository.Heap :=
  fun state => match state with O => finished | _ => failed end.

Definition repository : InMemoryAgentStateRepository.t :=
  InMemoryAgentStateRepository.save 1%nat heap
    (InMemoryAgentStateRepository.save 0%nat heap InMemoryAgentStateRepository.init).

End DemoCleanup.

(** An agent calls "document_analysis" the way the registry documents it. *)
Module DemoDocumentedCall.

Definition collaborators : Collaborators := Demo.collaborators (fun _ _ => inl "ok").

Definition body : string -> list JSON -> list string -> Res JSON * list string :=
  fun _ _ w => (Ret (JObj [("status", JStr "simulated")]), w).

Definition kwargs : Dict.t JSON := [("document", JStr "report.pdf")].

Definition tool_call : Dict.t JSON :=
  [("tool_name", JStr "document_analysis"); ("args", JObj kwargs)].

Definition reply : string := JsonText.dumps (JObj tool_call).

Definition context : @Ctx collaborators :=
  @new_mission collaborators "mission_1" "solo" "G" Repository.empty [].

End DemoDocumentedCall.

(** Two states of a workflow that both hold a draft. *)
Module DemoMerge.

Definition primary : AgentState.t :=
  AgentState.set_intermediate_data
    [("draft", JStr "first"); ("notes", JStr "kept")]
    (create_mission_state "mission_1" 0 "solo" "G").

Definition secondary : AgentState.t :=
  AgentState.set_intermediate_data [("draft", JStr "second")]
    (create_mission_state "mission_2" 0 "solo" "G").

End DemoMerge.

(** * Properties *)

(** ** The reference JSON reader at work *)

Example loads_tool_call :
  JsonText.loads
    (JsonText.dumps (JObj [("tool_name", JStr "web_search");
                           ("args", JObj [("query", JStr "x")])]))
  = inl (JObj [("tool_name", JStr "web_search");
               ("args", JObj [("query", JStr "x")])]).
Proof. reflexivity. Qed.

Example loads_prose : JsonText.loads "I cannot produce a plan" = inr "Expecting value".
Proof. reflexivity. Qed.

(** ** Dictionaries, lists and pairs *)

Lemma dict_get_set_same {V} (k : string) (v : V) (d : Dict.t V) :
  Dict.get k (Dict.set k v d) = Some v.
Proof.
  induction d as [|[k' v'] d IH]; simpl.
  - now rewrite String.eqb_refl.
  - destruct (String.eqb k k') eqn:Hk; simpl; rewrite Hk; [reflexivity|exact IH].
Qed.

Lemma dict_get_set_other {V} (k k' : string) (v : V) (d : Dict.t V) :
  k <> k' -> Dict.get k (Dict.set k' v d) = Dict.get k d.
Proof.
  intros Hk. induction d as [|[k0 v0] d IH]; simpl.
  - now apply String.eqb_neq in Hk as ->.
  - destruct (String.eqb k' k0) eqn:Hk0; simpl.
    + apply String.eqb_eq in Hk0 as <-.
      now apply String.eqb_neq in Hk as ->.
    + now rewrite IH.
Qed.

Lemma in_dict_set {V} (k : string) (v : V) (d : Dict.t V) (k' : string) (v' : V) :
  In (k', v') (Dict.set k v d) -> In (k', v') d \/ v' = v.
Proof.
  induction d as [|[k0 v0] d IH]; simpl.
  - intros [Heq|[]]. right. now inversion Heq.
  - destruct (String.eqb k k0); simpl.
    + intros [Heq|Hin]; [right; now inversion Heq|left; now right].
    + intros [Heq|Hin]; [left; now left|].
      destruct (IH Hin) as [Hd|Hv]; [left; now right|now right].
Qed.

Lemma in_dict_set_pair {V} (k : string) (v : V) (d : Dict.t V) (k' : string) (v' : V) :
  In (k', v') (Dict.set k v d) -> In (k', v') d \/ (k', v') = (k, v).
Proof.
  induction d as [|[k0 v0] d IH]; simpl.
  - intros [Heq|[]]. right. now inversion Heq.
  - destruct (String.eqb_spec k k0) as [->|_]; simpl.
    + intros [Heq|Hin]; [right; now inversion Heq|left; now right].
    + intros [Heq|Hin]; [left; now left|].
      destruct (IH Hin) as [Hd|Hv]; [left; now right|now right].
Qed.

Lemma in_of_literal {V} (items : list (string * V)) (k : string) (v : V) :
  In (k, v) (Dict.of_literal items) -> In (k, v) items.
Proof.
  unfold Dict.of_literal, Dict.empty.
  assert (Hacc : forall acc,
             In (k, v) (fold_left (fun acc kv => Dict.set (fst kv) (snd kv) acc)
                          items acc) ->
             In (k, v) acc \/ In (k, v) items).
  { induction items as [|[k0 v0] items IH]; intros acc; cbn [fold_left fst snd].
    - now left.
    - intros Hin. destruct (IH _ Hin) as [Hset|Hrest]; [|right; now right].
      destruct (in_dict_set_pair _ _ _ _ _ Hset) as [Hacc|Heq];
        [now left|right; left; now symmetry]. }
  intros Hin. now destruct (Hacc [] Hin) as [[]|Hitems].
Qed.

Lemma dict_get_in {V} (k : string) (v : V) (d : Dict.t V) :
  Dict.get k d = Some v -> In (k, v) d.
Proof.
  induction d as [|[k0 v0] d IH]; simpl; [discriminate|].
  destruct (String.eqb_spec k k0) as [->|_].
  - intros Heq. inversion Heq. now left.
  - intros Hget. right. now apply IH.
Qed.

Lemma dict_get_map_values {V W} (f : V -> W) (k : string) (d : Dict.t V) :
  Dict.get k (map (fun kv => (fst kv, f (snd kv))) d) = option_map f (Dict.get k d).
Proof.
  induction d as [|[k0 v0] d IH]; [reflexivity|].
  cbn [map Dict.get fst snd]. destruct (String.eqb k k0); [reflexivity|exact IH].
Qed.

Lemma dict_get_in_keys {V} (k : string) (v : V) (d : Dict.t V) :
  Dict.get k d = Some v -> In k (Dict.keys d).
Proof.
  induction d as [|[k0 v0] d IH]; simpl; [discriminate|].
  destruct (String.eqb_spec k k0) as [->|_]; [now left|].
  intros Hget. right. now apply IH.
Qed.

Lemma dict_has_in_keys {V} (k : string) (d : Dict.t V) :
  Dict.has k d = true -> In k (Dict.keys d).
Proof.
  unfold Dict.has. destruct (Dict.get k d) as [v|] eqn:Hget; [|discriminate].
  intros _. now apply (dict_get_in_keys k v).
Qed.

Lemma dict_has_set {V} (k : string) (v : V) (d : Dict.t V) :
  Dict.has k (Dict.set k v d) = true.
Proof. unfold Dict.has. now rewrite dict_get_set_same. Qed.

Lemma mem_app (x : string) (l1 l2 : list string) :
  Py.mem x (l1 ++ l2) = Py.mem x l1 || Py.mem x l2.
Proof. unfold Py.mem. apply existsb_app. Qed.

Lemma pair_of_fst {A B} (p : A * B) (a : A) : fst p = a -> p = (a, snd p).
Proof. destruct p. simpl. now intros ->. Qed.

(** ** Bookkeeping of the state record *)

Lemma history_add_history_entry (hms message : string) (s : AgentState.t) :
  AgentState.history (AgentState.add_history_entry hms message s)
  = (AgentState.history s ++ [AgentState.entry hms message])%list.
Proof. reflexivity. Qed.

Lemma status_add_history_entry (hms message : string) (s : AgentState.t) :
  AgentState.status (AgentState.add_history_entry hms message s)
  = AgentState.status s.
Proof. reflexivity. Qed.

Lemma history_extended_nil `{Collaborators} (c : Ctx) : history_extended c c [].
Proof.
  unfold history_extended. rewrite app_nil_r. destruct c as [[] ? ?]. reflexivity.
Qed.

Lemma add_history_extends `{Collaborators} (message : string) (c : Ctx) :
  exists c', add_history message c = (Ret tt, c')
             /\ history_extended c c' [AgentState.entry (hms_of c) message].
Proof. eexists. split; reflexivity. Qed.

Lemma history_extended_refl `{Collaborators} (c : Ctx) :
  history_extended c (mkCtx (st c) (repo c) (world c)) [].
Proof.
  unfold history_extended. rewrite app_nil_r. destruct c as [[] ? ?]. reflexivity.
Qed.

Lemma history_extended_step `{Collaborators} (c : Ctx) (s1 : AgentState.t)
    (r : Repository.t) (w : World) (l : list string) (hms message : string) :
  history_extended c (mkCtx s1 r w) l ->
  history_extended c (mkCtx (AgentState.add_history_entry hms message s1) r w)
    (l ++ [AgentState.entry hms message]).
Proof.
  unfold history_extended. intros Heq. injection Heq as -> -> ->.
  unfold AgentState.add_history_entry. simpl. now rewrite app_assoc.
Qed.

(** Unfolds the state-passing primitives, leaving the strings alone. *)
Ltac mstep :=
  cbv beta iota delta
    [bind ret raise lift try_except try_except_signal try_except_Exception
     get_state modify add_history store_result save
     set_current_node start_execution complete_execution mark_error hms_of];
  cbn [st repo world].

Ltac history_only :=
  repeat (eapply history_extended_step); apply history_extended_refl.

(** ** The conditional router on a quality verdict *)

Lemma recommendation_to_target_value (r : Recommendation) :
  Dict.get (Recommendation_value r) recommendation_to_target
  = Some (table_target r).
Proof. destruct r; reflexivity. Qed.

Lemma table_target_not_empty (r : Recommendation) :
  String.eqb (table_target r) "" = false.
Proof. destruct r; reflexivity. Qed.

Lemma recommendation_to_target_unknown (recommendation : string) :
  ~ In recommendation ["publish"; "revise"; "research_more"; "fail"] ->
  Dict.get recommendation recommendation_to_target = None.
Proof.
  intros Hnot. unfold recommendation_to_target, Dict.get.
  repeat match goal with
         | |- context [String.eqb ?a ?b] =>
             destruct (String.eqb_spec a b) as [->|_];
             [exfalso; apply Hnot; simpl; tauto|]
         end.
  reflexivity.
Qed.

Lemma route_recommendation_known `{Collaborators}
    (qa : QualityAssessment.t) (c : Ctx) :
  exists c' entries,
    route_recommendation
      (Recommendation_value (QualityAssessment.recommendation qa)) qa c
    = (Ret (table_target (QualityAssessment.recommendation qa)), c')
    /\ history_extended c c' entries.
Proof.
  unfold route_recommendation.
  rewrite recommendation_to_target_value, table_target_not_empty.
  cbv beta iota delta [negb].
  destruct (QualityAssessment.issues_found qa); mstep;
    do 2 eexists; (split; [reflexivity|]); history_only.
Qed.

Lemma route_recommendation_unknown `{Collaborators}
    (recommendation : string) (qa : QualityAssessment.t) (c : Ctx) :
  ~ In recommendation ["publish"; "revise"; "research_more"; "fail"] ->
  exists c',
    route_recommendation recommendation qa c = (Ret "END", c')
    /\ history_extended c c'
         [AgentState.entry (hms_of c)
            ("FEHLER: Unbekannte QA-Empfehlung '" ++ recommendation
             ++ "' - beende Mission")].
Proof.
  intros Hnot. unfold route_recommendation.
  rewrite (recommendation_to_target_unknown _ Hnot). mstep.
  eexists. split; [reflexivity|].
  apply (history_extended_step c (st c) (repo c) (world c) []).
  apply history_extended_refl.
Qed.

(** C3. When the output result of the node that has just finished is a quality
    verdict, the conditional router answers by the fixed table publish -> END,
    revise -> writer, research_more -> researcher, fail -> END, whatever
    transitions the graph declares for the node and whatever the crew is, and
    touches nothing but the history; on a recommendation text outside the
    table the routing body answers END and appends an error entry to the
    history. *)
Theorem quality_verdict_routes_by_fixed_table `{Collaborators}
    (current_agent : string) (qa : QualityAssessment.t)
    (transitions : option (list Transition.t)) (crew_config : CrewConfig.t)
    (c : Ctx) :
  AgentState.get_result current_agent "output" (st c) = Some (VQuality qa) ->
  (exists c' entries,
      _handle_conditional_transitions current_agent transitions crew_config c
      = (Ret (table_target (QualityAssessment.recommendation qa)), c')
      /\ history_extended c c' entries)
  /\ (forall recommendation,
        ~ In recommendation ["publish"; "revise"; "research_more"; "fail"] ->
        exists c',
          route_recommendation recommendation qa c = (Ret "END", c')
          /\ history_extended c c'
               [AgentState.entry (hms_of c)
            ("FEHLER: Unbekannte QA-Empfehlung '" ++ recommendation
             ++ "' - beende Mission")]).
Proof.
  intros Hres. split.
  - unfold _handle_conditional_transitions. mstep.
    rewrite Hres. cbv beta iota delta [as_quality].
    unfold _handle_quality_assessment_routing.
    apply route_recommendation_known.
  - intros recommendation Hnot. now apply route_recommendation_unknown.
Qed.

Lemma quality_verdict_routes_by_fixed_table_witness :
  AgentState.get_result "qa_agent" "output" (st DemoRouting.context)
  = Some (VQuality DemoRouting.verdict)
  /\ exists c' entries,
       @_handle_conditional_transitions DemoRouting.collaborators "qa_agent"
         DemoRouting.declared DemoRouting.crew DemoRouting.context
       = (Ret "writer", c')
       /\ history_extended DemoRouting.context c' entries.
Proof.
  assert (Hres : AgentState.get_result "qa_agent" "output" (st DemoRouting.context)
                 = Some (VQuality DemoRouting.verdict)) by reflexivity.
  split; [exact Hres|].
  exact (proj1 (@quality_verdict_routes_by_fixed_table DemoRouting.collaborators
                  "qa_agent" DemoRouting.verdict DemoRouting.declared
                  DemoRouting.crew DemoRouting.context Hres)).
Defined.

(** ** Resuming a mission that is not suspended *)

(** C7. When the stored mission is not in status AWAITING_HUMAN_INPUT, or
    holds no active human request, [resume_mission] raises a [ValueError] and
    hands back the repository and the world exactly as it found them: nothing
    was saved before the error. *)
Theorem resume_of_unsuspended_mission_is_rejected `{Collaborators}
    (agents_config : Dict.t AgentConfig.t) (crews_config : Dict.t CrewConfig.t)
    (TOOL_REGISTRY : Dict.t ToolInfo.t) (fuel : nat)
    (mission_id human_response : string) (repository : Repository.t)
    (w : World) (state : AgentState.t) :
  Repository.get_by_id mission_id repository = Some state ->
  AgentState.status state <> "AWAITING_HUMAN_INPUT"
  \/ AgentState.active_human_request state = None ->
  exists msg,
    resume_mission agents_config crews_config TOOL_REGISTRY fuel mission_id
      human_response (Some repository) w
    = mkOutcome (Raise (PyException "ValueError" msg)) (Some repository) w.
Proof.
  intros Hget Hbad. unfold resume_mission. rewrite Hget.
  destruct (String.eqb_spec (AgentState.status state) "AWAITING_HUMAN_INPUT")
    as [Hst|Hst]; cbv beta iota delta [negb].
  - destruct Hbad as [Hbad|Hbad]; [contradiction|].
    rewrite Hbad. eexists. reflexivity.
  - eexists. reflexivity.
Qed.

Lemma resume_of_unsuspended_mission_is_rejected_witness :
  Repository.get_by_id "mission_7" DemoResume.repository = Some DemoResume.running
  /\ AgentState.status DemoResume.running <> "AWAITING_HUMAN_INPUT"
  /\ exists msg,
       @resume_mission DemoResume.collaborators [] [] [] 10 "mission_7" "yes"
         (Some DemoResume.repository) []
       = @mkOutcome DemoResume.collaborators
           (Raise (PyException "ValueError" msg))
           (Some DemoResume.repository) [].
Proof.
  assert (Hget : Repository.get_by_id "mission_7" DemoResume.repository
                 = Some DemoResume.running) by reflexivity.
  assert (Hstatus : AgentState.status DemoResume.running <> "AWAITING_HUMAN_INPUT")
    by discriminate.
  split; [exact Hget|]. split; [exact Hstatus|].
  exact (@resume_of_unsuspended_mission_is_rejected DemoResume.collaborators
           [] [] [] 10 "mission_7" "yes" DemoResume.repository []
           DemoResume.running Hget (or_introl Hstatus)).
Defined.

(** ** Tool failures inside the tool-use loop *)

Section ToolFailures.

Context `{Collab : Collaborators}.
Variable TOOL_REGISTRY : Dict.t ToolInfo.t.


End ToolFailures.



(** ** The registry's own [ask_human] entry behind [_execute_tool_call] *)

(** [ask_human] never returns a value. *)
Lemma ask_human_always_raises (kwargs : Dict.t JSON) :
  exists e, ask_human kwargs = Raise e.
Proof.
  unfold ask_human.
  destruct (find _ (Dict.keys kwargs)); [eexists; reflexivity|].
  destruct (Dict.get "question" kwargs) as [q|]; [|eexists; reflexivity].
  destruct q; try (eexists; reflexivity).
  destruct (match Dict.get "context" kwargs with Some c => c | None => JStr "" end);
    try (eexists; reflexivity).
  destruct (match Dict.get "urgency" kwargs with Some u => u | None => JStr "medium" end);
    try (eexists; reflexivity).
  destruct (match Dict.get "options" kwargs with Some o => o | None => JNull end)
    as [ | b | q | s2 | l | d ]; try (eexists; reflexivity).
  destruct (json_str_list (JArr l)); eexists; reflexivity.
Qed.

(** Called with a question alone, [ask_human] raises the signal with a request
    from agent "unknown", of medium urgency and a timeout of 300 seconds. *)
Lemma ask_human_raises_signal (question : string) :
  ask_human [("question", JStr question)]
  = Raise (HumanInterventionRequired
             (HumanRequest.mk "unknown" question "" None "medium" (Some 300%Z))).
Proof. reflexivity. Qed.

(** Keyword arguments that include ["agent_name"] do not bind. *)
Lemma ask_human_rejects_agent_name (kwargs : Dict.t JSON) :
  Dict.has "agent_name" kwargs = true ->
  exists k,
    ask_human kwargs
    = Raise (PyException "TypeError"
               ("ask_human() got an unexpected keyword argument '" ++ k ++ "'")).
Proof.
  intros Hhas. unfold ask_human.
  destruct (find _ (Dict.keys kwargs)) as [k|] eqn:Hfind; [now exists k|].
  apply dict_has_in_keys in Hhas.
  pose proof (find_none _ _ Hfind _ Hhas) as Hk. discriminate Hk.
Qed.

(** Whatever arguments the model gives, a call of "ask_human" through a
    registry that binds the name to [ask_human] comes back as an error result:
    the agent name injected before the call is not a parameter of
    [ask_human], so the function's body, and its raise, is never reached. *)
Lemma registered_ask_human_call_is_an_error_result `{Collaborators}
    (TOOL_REGISTRY : Dict.t ToolInfo.t) (tool_info : ToolInfo.t)
    (tool_call_response agent_name : string) (tool_call : Dict.t JSON) (c : Ctx) :
  json_loads (Py.strip tool_call_response) = inl (JObj tool_call) ->
  Dict.get "tool_name" tool_call = Some (JStr "ask_human") ->
  Dict.get "ask_human" TOOL_REGISTRY = Some tool_info ->
  (forall kwargs w, ToolInfo.function tool_info kwargs w = (ask_human kwargs, w)) ->
  exists msg c',
    _execute_tool_call TOOL_REGISTRY tool_call_response agent_name c
    = (Ret (error_dict msg), c').
Proof.
  intros Hjson Hname Hreg Hfun.
  unfold _execute_tool_call, _execute_tool_call_try.
  rewrite Hjson, Hname, Hreg. fold (tool_args_of tool_call). mstep.
  unfold prepare_tool_args. rewrite String.eqb_refl.
  destruct (tool_args_of tool_call) as [ | b | q | s | l | kwargs];
    cbn [inject_agent_name].
  - do 2 eexists. reflexivity.
  - do 2 eexists. reflexivity.
  - do 2 eexists. reflexivity.
  - destruct (Py.contains "agent_name" s); do 2 eexists; reflexivity.
  - destruct (existsb _ l); do 2 eexists; reflexivity.
  - assert (Hbound : exists kwargs',
               (if Dict.has "agent_name" kwargs then JObj kwargs
                else JObj (Dict.set "agent_name" (JStr agent_name) kwargs))
               = JObj kwargs'
               /\ Dict.has "agent_name" kwargs' = true).
    { destruct (Dict.has "agent_name" kwargs) eqn:Hhas.
      - now exists kwargs.
      - eexists. split; [reflexivity|apply dict_has_set]. }
    destruct Hbound as (kwargs' & -> & Hhas).
    destruct (ask_human_rejects_agent_name kwargs' Hhas) as (k & Hraise).
    unfold call_tool. cbn [st repo world]. rewrite Hfun, Hraise. mstep.
    do 2 eexists. reflexivity.
Qed.

(** ** Planning responses that cannot be parsed *)

(** Projections of an updated state record. *)
Ltac state_simpl :=
  cbn [AgentState.mission_id AgentState.crew_name AgentState.high_level_goal
       AgentState.created_at AgentState.task_plan AgentState.current_node
       AgentState.completed_nodes AgentState.results
       AgentState.intermediate_data AgentState.status
       AgentState.progress_percentage AgentState.history
       AgentState.error_messages AgentState.active_human_request
       AgentState.started_at AgentState.completed_at
       AgentState.execution_time_seconds
       AgentState.set_task_plan AgentState.set_current
       AgentState.set_completed_nodes AgentState.set_results
       AgentState.set_status AgentState.set_progress_percentage
       AgentState.set_history AgentState.set_error_messages
       AgentState.set_active_human_request AgentState.set_started_at
       AgentState.set_completed_at AgentState.set_execution_time_seconds
       AgentState.add_history_entry st repo world].

Lemma fallback_plan_validates `{Collaborators} :
  TaskPlans_of fallback_plan = Ret [fallback_task].
Proof. reflexivity. Qed.

(** A priority written as text is read as the integer the text stands for. *)
Lemma text_priority_is_converted `{Collaborators}
    (task_id description assigned_agent expected_output text : string) (z : Z) :
  int_of_text text = Some z ->
  TaskPlan_of (JObj [("task_id", JStr task_id); ("description", JStr description);
                     ("assigned_agent", JStr assigned_agent);
                     ("expected_output", JStr expected_output);
                     ("priority", JStr text)])
  = Ret (TaskPlan.mk task_id description assigned_agent expected_output z).
Proof. intros Hread. cbn. now rewrite Hread. Qed.

Lemma startswith_app (p q s : string) :
  Py.startswith (p ++ q) s = true -> Py.startswith p s = true.
Proof.
  revert s. induction p as [|a p IH]; intros s; [reflexivity|].
  destruct s as [|b s]; simpl; [discriminate|].
  intros Hs. apply andb_true_iff in Hs as [Hab Hs].
  rewrite Hab. simpl. now apply IH.
Qed.

Lemma contains_app (p q s : string) :
  Py.contains (p ++ q) s = true -> Py.contains p s = true.
Proof.
  induction s as [|b s IH].
  - cbn [Py.contains]. rewrite !orb_false_r. apply startswith_app.
  - cbn [Py.contains]. intros Hs. apply orb_true_iff in Hs as [Hs|Hs].
    + apply startswith_app in Hs. rewrite Hs. reflexivity.
    + rewrite (IH Hs). apply orb_true_r.
Qed.

Lemma strip_code_fences_unfenced (response : string) :
  Py.contains "```" response = false -> strip_code_fences response = response.
Proof.
  intros Hno. unfold strip_code_fences. rewrite Hno.
  destruct (Py.contains "```json" response) eqn:Hj; [|reflexivity].
  apply (contains_app "```" "json") in Hj. congruence.
Qed.

(** C8. When the supervisor's planning reply, once its markdown code fence is
    stripped, is not valid JSON, [_parse_planning_response] returns the
    single-task fallback plan and the planning phase ends normally with that
    one task, assigned to "researcher", as the mission's plan; a reply without
    any fence is parsed as it stands, so every unfenced reply that is not
    valid JSON takes this path. *)
Theorem unparseable_plan_falls_back_to_default `{Collaborators}
    (agents_config : Dict.t AgentConfig.t) (crew_config : CrewConfig.t)
    (parameters : option JSON) (c : Ctx) (plan_response msg : string)
    (w' : World) :
  bridge_message (AgentState.mission_id (st c) ++ "_planning")
    (supervisor_of crew_config)
    (_create_planning_prompt agents_config (AgentState.high_level_goal (st c))
       (CrewConfig.agents crew_config) parameters)
    (world c)
  = (inl plan_response, w') ->
  json_loads (Py.strip (strip_code_fences plan_response)) = inr msg ->
  _parse_planning_response plan_response = fallback_plan
  /\ (exists c',
        _planning_phase agents_config crew_config parameters c = (Ret tt, c')
        /\ AgentState.task_plan (st c') = Some [fallback_task]
        /\ TaskPlan.assigned_agent fallback_task = "researcher"
        /\ AgentState.status (st c') = "PLANNING"
        /\ AgentState.error_messages (st c') = AgentState.error_messages (st c))
  /\ (Py.contains "```" plan_response = false ->
      strip_code_fences plan_response = plan_response).
Proof.
  intros Hbridge Hjson.
  assert (Hparse : _parse_planning_response plan_response = fallback_plan).
  { unfold _parse_planning_response. now rewrite Hjson. }
  split; [exact Hparse|]. split; [|apply strip_code_fences_unfenced].
  unfold _planning_phase. mstep. unfold bridge. state_simpl.
  rewrite Hbridge. mstep. rewrite Hparse, fallback_plan_validates.
  eexists. split; [reflexivity|]. state_simpl. repeat split; reflexivity.
Qed.

Lemma unparseable_plan_falls_back_to_default_witness :
  @json_loads DemoPlanning.collaborators
    (Py.strip (strip_code_fences DemoPlanning.prose)) = inr "Expecting value"
  /\ exists c',
       @_planning_phase DemoPlanning.collaborators [] DemoPlanning.crew None
         DemoPlanning.context = (Ret tt, c')
       /\ AgentState.task_plan (st c') = Some [fallback_task].
Proof.
  assert (Hjson : @json_loads DemoPlanning.collaborators
                    (Py.strip (strip_code_fences DemoPlanning.prose))
                  = inr "Expecting value") by reflexivity.
  split; [exact Hjson|].
  destruct (@unparseable_plan_falls_back_to_default DemoPlanning.collaborators
              [] DemoPlanning.crew None DemoPlanning.context DemoPlanning.prose
              "Expecting value" ["mission_1_planning"] eq_refl Hjson)
    as (_ & (c' & Hrun & Hplan & _) & _).
  exists c'. split; assumption.
Defined.

(** ** What a computation can raise *)

Section Raising.

Context `{Collab : Collaborators}.

Lemma bind_raise_inv {A B} (m : M A) (k : A -> M B) (c c' : Ctx) (e : Exn) :
  bind m k c = (Raise e, c') ->
  m c = (Raise e, c')
  \/ exists a c1, m c = (Ret a, c1) /\ k a c1 = (Raise e, c').
Proof.
  unfold bind. destruct (m c) as [[a | e0 |] c1]; intros Heq.
  - right. now exists a, c1.
  - left. inversion Heq. reflexivity.
  - discriminate Heq.
Qed.

Lemma bind_ret_inv {A B} (m : M A) (k : A -> M B) (c c' : Ctx) (b : B) :
  bind m k c = (Ret b, c') ->
  exists a c1, m c = (Ret a, c1) /\ k a c1 = (Ret b, c').
Proof.
  unfold bind. destruct (m c) as [[a | e |] c1]; intros Heq;
    [now exists a, c1|discriminate Heq|discriminate Heq].
Qed.

Lemma raises_only_bind {A B} (P : Exn -> Ctx -> Prop) (m : M A) (k : A -> M B) :
  raises_only P m -> (forall a, raises_only P (k a)) -> raises_only P (bind m k).
Proof.
  intros Hm Hk c e c' Heq.
  apply bind_raise_inv in Heq as [Heq | (a & c1 & _ & Heq)].
  - now apply (Hm c).
  - now apply (Hk a c1).
Qed.

Lemma raises_only_weaken {A} (P Q : Exn -> Ctx -> Prop) (m : M A) :
  (forall e c, P e c -> Q e c) -> raises_only P m -> raises_only Q m.
Proof. intros HPQ Hm c e c' Heq. apply HPQ. now apply (Hm c). Qed.

Lemma silent_raises_only {A} (P : Exn -> Ctx -> Prop) (m : M A) :
  silent m -> raises_only P m.
Proof. apply raises_only_weaken. intros e c []. Qed.

Lemma silent_bind {A B} (m : M A) (k : A -> M B) :
  silent m -> (forall a, silent (k a)) -> silent (bind m k).
Proof. apply raises_only_bind. Qed.

Lemma silent_ret {A} (a : A) : silent (ret a).
Proof. intros c e c' Heq. discriminate Heq. Qed.

Lemma silent_get_state : silent get_state.
Proof. intros c e c' Heq. discriminate Heq. Qed.

Lemma silent_modify (f : AgentState.t -> AgentState.t) : silent (modify f).
Proof. intros c e c' Heq. discriminate Heq. Qed.

Lemma silent_add_history (message : string) : silent (add_history message).
Proof. intros c e c' Heq. discriminate Heq. Qed.

Lemma silent_store_result (a : string) (r : ResultValue) (k : string) :
  silent (store_result a r k).
Proof. intros c e c' Heq. discriminate Heq. Qed.

Lemma silent_save : silent save.
Proof. intros c e c' Heq. discriminate Heq. Qed.

Lemma silent_set_current_node (n : string) : silent (set_current_node n).
Proof. intros c e c' Heq. discriminate Heq. Qed.

Lemma silent_start_execution : silent start_execution.
Proof. intros c e c' Heq. discriminate Heq. Qed.

Lemma silent_complete_execution : silent complete_execution.
Proof. intros c e c' Heq. discriminate Heq. Qed.

Lemma no_signal_bridge (conversation_id target message : string) :
  raises_only no_signal (bridge conversation_id target message).
Proof.
  intros c e c'. unfold bridge.
  destruct (bridge_message conversation_id target message (world c)) as [[t | err] w];
    intros Heq; inversion Heq; reflexivity.
Qed.

Lemma no_signal_raise {A} (e : Exn) :
  is_signal e = false -> raises_only no_signal (raise (A:=A) e).
Proof. intros He c e' c' Heq. inversion Heq; subst. exact He. Qed.

Lemma no_signal_lift {A} (r : Res A) :
  (forall e, r = Raise e -> is_signal e = false) -> raises_only no_signal (lift r).
Proof. intros Hr c e c' Heq. inversion Heq; subst. now apply Hr. Qed.

End Raising.

Create HintDb raising.
#[export] Hint Resolve silent_ret silent_get_state silent_modify
  silent_add_history silent_store_result silent_save silent_set_current_node
  silent_start_execution silent_complete_execution : raising.

(** Closes [raises_only P m] for an [m] built from silent steps. *)
Ltac quiet :=
  solve [ apply silent_raises_only;
          repeat (apply silent_bind; [|intros ?]);
          auto with raising ].

(** ** The human-intervention signal on its way up *)

Section Signal.

Context `{Collab : Collaborators}.
Variable agents_config : Dict.t AgentConfig.t.
Variable crews_config : Dict.t CrewConfig.t.
Variable TOOL_REGISTRY : Dict.t ToolInfo.t.

Lemma no_signal_carries {A} (m : M A) :
  raises_only no_signal m -> raises_only carries_request m.
Proof.
  apply raises_only_weaken. intros e c He request ->. discriminate He.
Qed.

Lemma no_signal_carries_saved {A} (m : M A) :
  raises_only no_signal m -> raises_only carries_saved_request m.
Proof.
  apply raises_only_weaken. intros e c He request ->. discriminate He.
Qed.

Lemma get_by_id_save (s : AgentState.t) (r : Repository.t) :
  Repository.get_by_id (AgentState.mission_id s) (Repository.save s r) = Some s.
Proof. unfold Repository.get_by_id, Repository.save. simpl. apply dict_get_set_same. Qed.

Lemma persisted_after_save (c c' : Ctx) :
  save c = (Ret tt, c') -> persisted c' /\ st c' = st c.
Proof.
  unfold save, persisted. intros Heq. inversion Heq; subst. simpl.
  split; [apply get_by_id_save|reflexivity].
Qed.

(** What [_execute_tool_call] does when its [try] block raises the signal. *)
Lemma tool_call_signal (tool_call_response agent_name : string) (c c1 : Ctx)
    (request : HumanRequest.t) :
  _execute_tool_call_try TOOL_REGISTRY tool_call_response agent_name c
  = (Raise (HumanInterventionRequired request), c1) ->
  exists c2,
    _execute_tool_call TOOL_REGISTRY tool_call_response agent_name c
    = (Raise (HumanInterventionRequired (named_request agent_name request)), c2)
    /\ suspended_by (named_request agent_name request) (st c2)
    /\ repo c2 = repo c1 /\ world c2 = world c1
    /\ AgentState.history (st c2)
       = (AgentState.history (st c1)
          ++ [AgentState.entry (hms_of c1)
                ("🚦 Mission pausiert: " ++ agent_name
                 ++ " benötigt menschliche Eingabe");
              AgentState.entry (hms_of c1)
                ("📋 Frage: "
                 ++ HumanRequest.question (named_request agent_name request))])%list.
Proof.
  intros Htry. unfold _execute_tool_call. rewrite Htry.
  fold (named_request agent_name request). mstep.
  eexists. split; [reflexivity|]. state_simpl.
  repeat split; try reflexivity.
  - exists (strftime_hms (now (world c1))). apply in_or_app. right. left. reflexivity.
  - now rewrite <- app_assoc.
Qed.

Lemma tool_call_carries (tool_call_response agent_name : string) :
  raises_only carries_request
    (_execute_tool_call TOOL_REGISTRY tool_call_response agent_name).
Proof.
  intros c e c' Heq.
  destruct (_execute_tool_call_try TOOL_REGISTRY tool_call_response agent_name c)
    as [[j | e0 |] c1] eqn:Htry.
  - unfold _execute_tool_call in Heq. rewrite Htry in Heq. discriminate Heq.
  - destruct e0 as [request | msg | cls msg].
    + destruct (tool_call_signal _ _ _ _ _ Htry) as (c2 & Hcall & Hsusp & _).
      rewrite Hcall in Heq. inversion Heq; subst.
      intros request' Hreq. inversion Hreq; subst. exact Hsusp.
    + unfold _execute_tool_call in Heq. rewrite Htry in Heq. discriminate Heq.
    + unfold _execute_tool_call in Heq. rewrite Htry in Heq. discriminate Heq.
  - unfold _execute_tool_call in Heq. rewrite Htry in Heq. discriminate Heq.
Qed.

Lemma tool_use_loop_carries (remaining tool_call_count : nat) (agent_name : string)
    (agent_config : AgentConfig.t) (initial_prompt current_prompt : string) :
  raises_only carries_request
    (tool_use_loop TOOL_REGISTRY remaining tool_call_count agent_name agent_config
       initial_prompt current_prompt).
Proof.
  revert tool_call_count current_prompt.
  induction remaining as [|remaining IH]; intros tool_call_count current_prompt;
    cbn [tool_use_loop].
  - apply raises_only_bind; [quiet|].
    intros _. apply raises_only_bind; [quiet|].
    intros state. apply no_signal_carries, no_signal_bridge.
  - apply raises_only_bind; [quiet|].
    intros state. apply raises_only_bind; [apply no_signal_carries, no_signal_bridge|].
    intros llm_response. destruct (_is_tool_call llm_response).
    + apply raises_only_bind; [apply tool_call_carries|].
      intros tool_result.
      apply raises_only_bind; [quiet|].
      intros _. apply IH.
    + quiet.
Qed.

Lemma execute_agent_with_tools_carries (agent_name : string)
    (agent_config : AgentConfig.t) (initial_prompt : string) :
  raises_only carries_request
    (_execute_agent_with_tools TOOL_REGISTRY agent_name agent_config initial_prompt).
Proof.
  unfold _execute_agent_with_tools. destruct (AgentConfig.tools agent_config).
  - apply raises_only_bind; [quiet|].
    intros state. apply no_signal_carries, no_signal_bridge.
  - apply tool_use_loop_carries.
Qed.

Lemma run_and_store_carries (agent_name : string) (agent_config : AgentConfig.t)
    (prompt : string) :
  raises_only carries_request
    (run_and_store TOOL_REGISTRY agent_name agent_config prompt).
Proof.
  unfold run_and_store.
  apply raises_only_bind; [apply execute_agent_with_tools_carries|].
  intros final_response.
  quiet.
Qed.

(** [try_except] with a handler that raises the signal again and one that logs
    and raises the exception again. *)
Lemma reraising_try_except_carries {A} (body : M A) (log : Exn -> string) :
  raises_only carries_request body ->
  raises_only carries_request
    (try_except body (fun r => raise (HumanInterventionRequired r))
       (fun e => bind (add_history (log e)) (fun _ => raise e))).
Proof.
  intros Hbody c e c' Heq. unfold try_except in Heq.
  destruct (body c) as [[a | e0 |] c1] eqn:Hb; [discriminate Heq | |discriminate Heq].
  destruct e0 as [request | msg | cls msg].
  - inversion Heq; subst. apply (Hbody c _ _ Hb).
  - revert Heq. mstep. intros Heq. inversion Heq; subst. intros request Hreq.
    discriminate Hreq.
  - revert Heq. mstep. intros Heq. inversion Heq; subst. intros request Hreq.
    discriminate Hreq.
Qed.

Lemma execute_agent_carries (agent_name : string) :
  raises_only carries_request
    (_execute_agent agents_config TOOL_REGISTRY agent_name).
Proof.
  unfold _execute_agent. destruct (Dict.get agent_name agents_config) as [agent_config|].
  - apply raises_only_bind; [quiet|].
    intros state. apply raises_only_bind.
    { destruct (_find_task_for_agent state agent_name).
      - quiet.
      - quiet. }
    intros task_description.
    apply raises_only_bind; [quiet|].
    intros state'. apply reraising_try_except_carries.
    apply raises_only_bind; [quiet|].
    intros _. apply raises_only_bind; [apply run_and_store_carries|].
    intros _. apply silent_raises_only; auto with raising.
  - apply no_signal_carries, no_signal_raise. reflexivity.
Qed.

Lemma try_except_Exception_raises {A} (P : Exn -> Ctx -> Prop) (body : M A)
    (on_exception : Exn -> M A) :
  (forall e, raises_only P (on_exception e)) ->
  raises_only P (try_except_Exception body on_exception).
Proof.
  intros Hh c e c' Heq. unfold try_except_Exception in Heq.
  destruct (body c) as [[a | e0 |] c1]; [discriminate Heq | |discriminate Heq].
  now apply (Hh e0 c1).
Qed.

(** The handler of the graph walk: save, then raise the signal again. *)
Lemma saving_try_except_signal {A} (body : M A) :
  raises_only carries_request body ->
  raises_only carries_saved_request
    (try_except_signal body
       (fun r => bind save (fun _ => raise (HumanInterventionRequired r)))).
Proof.
  intros Hbody c e c' Heq. unfold try_except_signal in Heq.
  destruct (body c) as [[a | e0 |] c1] eqn:Hb; [discriminate Heq | |discriminate Heq].
  destruct e0 as [request | msg | cls msg].
  - revert Heq. mstep. intros Heq. inversion Heq; subst.
    intros request' Hreq. inversion Hreq; subst. split.
    + apply (Hbody c _ _ Hb). reflexivity.
    + unfold persisted. cbn [st repo]. apply get_by_id_save.
  - inversion Heq; subst. intros request Hreq. discriminate Hreq.
  - inversion Heq; subst. intros request Hreq. discriminate Hreq.
Qed.

Lemma score_at_least_no_signal (x : ResultValue) (threshold : Q) (e : Exn) :
  score_at_least x threshold = Raise e -> is_signal e = false.
Proof.
  destruct x as [s | qa | schema dump | []]; simpl; intros Heq;
    inversion Heq; reflexivity.
Qed.

Lemma check_quality_threshold_no_signal (state : AgentState.t)
    (crew_config : CrewConfig.t) (e : Exn) :
  _check_quality_threshold state crew_config = Raise e -> is_signal e = false.
Proof.
  unfold _check_quality_threshold.
  destruct (rev _) as [|latest_qa rest]; [discriminate|].
  destruct (Dict.get "overall_score" latest_qa); [|discriminate].
  apply score_at_least_no_signal.
Qed.

Lemma route_recommendation_silent (recommendation : string)
    (qa : QualityAssessment.t) :
  silent (route_recommendation recommendation qa).
Proof.
  unfold route_recommendation.
  destruct (Dict.get recommendation recommendation_to_target) as [target|].
  - destruct (negb (String.eqb target "")).
    + apply silent_bind; [auto with raising|]. intros _.
      apply silent_bind; [|intros; auto with raising].
      destruct (QualityAssessment.issues_found qa); auto with raising.
    + apply silent_bind; intros; auto with raising.
  - apply silent_bind; intros; auto with raising.
Qed.

Lemma handle_conditional_transitions_no_signal (current_agent : string)
    (transitions : option (list Transition.t)) (crew_config : CrewConfig.t) :
  raises_only no_signal
    (_handle_conditional_transitions current_agent transitions crew_config).
Proof.
  unfold _handle_conditional_transitions.
  apply raises_only_bind; [quiet|]. intros state.
  destruct (as_quality _) as [qa|].
  - apply silent_raises_only, route_recommendation_silent.
  - unfold _handle_legacy_conditional_transitions.
    apply raises_only_bind; [quiet|]. intros state'.
    destruct transitions as [transitions|].
    + apply try_except_Exception_raises. intros e.
      destruct transitions; quiet.
    + apply no_signal_raise. reflexivity.
Qed.

Lemma graph_walk_carries (fuel : nat) (crew_config : CrewConfig.t)
    (current_node : option string) (iteration_count : Z) :
  raises_only carries_saved_request
    (graph_walk agents_config TOOL_REGISTRY fuel crew_config current_node
       iteration_count).
Proof.
  revert current_node iteration_count.
  induction fuel as [|fuel IH]; intros [current_node|] iteration_count;
    cbn [graph_walk]; try quiet;
    destruct (String.eqb current_node "" || String.eqb current_node "END");
    try quiet.
  - intros c e c' Heq. discriminate Heq.
  - apply raises_only_bind; [quiet|]. intros _.
    destruct (max_iterations_of crew_config <=? iteration_count)%Z; [quiet|].
    apply raises_only_bind.
    { apply saving_try_except_signal.
      apply raises_only_bind; [apply execute_agent_carries|]. intros _. quiet. }
    intros _. apply raises_only_bind; [quiet|]. intros state.
    apply raises_only_bind.
    { destruct (Py.contains "qa" (Py.lower current_node)); [|quiet].
      apply no_signal_carries_saved, no_signal_lift.
      apply check_quality_threshold_no_signal. }
    intros [|]; [quiet|].
    destruct (NodeConfig.conditional_transitions _) as [transitions|].
    + apply raises_only_bind;
        [apply no_signal_carries_saved, handle_conditional_transitions_no_signal|].
      intros next_node. apply raises_only_bind; [quiet|]. intros state'.
      destruct (Py.mem next_node (AgentState.completed_nodes state')).
      * apply raises_only_bind; [quiet|]. intros _. apply IH.
      * apply IH.
    + apply IH.
Qed.

Lemma planning_phase_no_signal (crew_config : CrewConfig.t)
    (parameters : option JSON) :
  raises_only no_signal (_planning_phase agents_config crew_config parameters).
Proof.
  unfold _planning_phase.
  apply raises_only_bind; [quiet|]. intros _.
  apply raises_only_bind; [quiet|]. intros _.
  apply raises_only_bind; [quiet|]. intros state.
  apply try_except_Exception_raises. intros e. apply no_signal_raise. reflexivity.
Qed.

Lemma synthesis_phase_silent (crew_config : CrewConfig.t) :
  silent (_synthesis_phase crew_config).
Proof.
  unfold _synthesis_phase.
  apply silent_bind; [auto with raising|]. intros _.
  apply silent_bind; [auto with raising|]. intros state.
  apply try_except_Exception_raises. intros e. apply silent_add_history.
Qed.

Lemma execute_mission_try_carries (fuel : nat) (crew_config : CrewConfig.t)
    (parameters : option JSON) :
  raises_only carries_saved_request
    (execute_mission_try agents_config TOOL_REGISTRY fuel crew_config parameters).
Proof.
  unfold execute_mission_try.
  apply raises_only_bind; [apply no_signal_carries_saved, planning_phase_no_signal|].
  intros _. apply raises_only_bind; [quiet|]. intros _.
  apply raises_only_bind.
  { unfold _execution_phase.
    apply raises_only_bind; [quiet|]. intros _.
    apply raises_only_bind; [apply graph_walk_carries|]. intros _. quiet. }
  intros _.
  apply raises_only_bind; [apply silent_raises_only, synthesis_phase_silent|].
  intros _. quiet.
Qed.

Lemma execute_mission_try_returns_completed (fuel : nat)
    (crew_config : CrewConfig.t) (parameters : option JSON) (c c' : Ctx) :
  execute_mission_try agents_config TOOL_REGISTRY fuel crew_config parameters c
  = (Ret tt, c') ->
  persisted c' /\ AgentState.status (st c') = "COMPLETED".
Proof.
  unfold execute_mission_try. intros Hrun.
  do 5 (apply bind_ret_inv in Hrun as (? & ? & _ & Hrun)).
  revert Hrun. mstep. intros Hrun. inversion Hrun; subst; clear Hrun.
  unfold persisted. cbn [st repo]. split; [apply get_by_id_save|].
  unfold AgentState.complete_execution. state_simpl.
  destruct (AgentState.started_at _); reflexivity.
Qed.

End Signal.

(** Whenever the human-intervention signal comes out of the mission's
    [try] block -- which it does only from a tool's function, through the
    handler of [_execute_tool_call], the tool-use loop and the graph walk --
    [execute_mission] raises nothing: it returns the mission as the signal
    left it, in status AWAITING_HUMAN_INPUT, with the signal's request as
    [active_human_request], the question logged in the history, and that very
    state stored in the repository.  At the tool, the handler sets the status,
    stores the request (the calling agent's name filling in for "unknown"),
    appends two history entries and raises the signal again. *)
Lemma human_signal_suspends_mission `{Collaborators}
    (agents_config : Dict.t AgentConfig.t) (crews_config : Dict.t CrewConfig.t)
    (TOOL_REGISTRY : Dict.t ToolInfo.t) (fuel : nat)
    (fresh_id crew_name goal : string) (parameters : option JSON)
    (repository : Repository.t) (w : World) (crew_config : CrewConfig.t)
    (request : HumanRequest.t) (c2 : Ctx) :
  Dict.get crew_name crews_config = Some crew_config ->
  execute_mission_try agents_config TOOL_REGISTRY fuel crew_config parameters
    (new_mission fresh_id crew_name goal repository w)
  = (Raise (HumanInterventionRequired request), c2) ->
  (exists final_repository,
      execute_mission agents_config crews_config TOOL_REGISTRY fuel fresh_id
        crew_name goal parameters (Some repository) w
      = mkOutcome (Ret (st c2)) (Some final_repository) (world c2)
      /\ Repository.get_by_id (AgentState.mission_id (st c2)) final_repository
         = Some (st c2))
  /\ AgentState.status (st c2) = "AWAITING_HUMAN_INPUT"
  /\ AgentState.active_human_request (st c2) = Some request
  /\ (exists hms,
        In (AgentState.entry hms ("📋 Frage: " ++ HumanRequest.question request))
           (AgentState.history (st c2)))
  /\ (forall tool_call_response agent_name c c1 raised,
        _execute_tool_call_try TOOL_REGISTRY tool_call_response agent_name c
        = (Raise (HumanInterventionRequired raised), c1) ->
        exists c',
          _execute_tool_call TOOL_REGISTRY tool_call_response agent_name c
          = (Raise (HumanInterventionRequired (named_request agent_name raised)), c')
          /\ suspended_by (named_request agent_name raised) (st c')
          /\ List.length (AgentState.history (st c'))
             = (List.length (AgentState.history (st c1)) + 2)%nat).
Proof.
  intros Hcrew Htry.
  destruct (execute_mission_try_carries agents_config TOOL_REGISTRY fuel
              crew_config parameters _ _ _ Htry request eq_refl)
    as [(Hstatus & Hrequest & Hlog) Hsaved].
  split; [|repeat split; try assumption].
  - exists (Repository.save (st c2) (repo c2)).
    unfold execute_mission. rewrite Hcrew, Htry. unfold outcome_of. mstep.
    split; [reflexivity|]. apply get_by_id_save.
  - intros tool_call_response agent_name c c1 raised Hraise.
    destruct (tool_call_signal TOOL_REGISTRY _ _ _ _ _ Hraise)
      as (c' & Hcall & Hsusp & _ & _ & Hhist).
    exists c'. repeat split; try assumption; try apply Hsusp.
    rewrite Hhist, length_app. reflexivity.
Qed.

Lemma escalated_question_suspends_mission :
  Dict.get "solo" [("solo", DemoSuspension.crew)] = Some DemoSuspension.crew
  /\ @execute_mission_try DemoSuspension.collaborators DemoSuspension.agents
       DemoSuspension.registry 10 DemoSuspension.crew None
       (@new_mission DemoSuspension.collaborators "mission_1" "solo" "G"
          Repository.empty [])
     = (Raise (HumanInterventionRequired DemoSuspension.request),
        DemoSuspension.suspended_context)
  /\ AgentState.status (st DemoSuspension.suspended_context)
     = "AWAITING_HUMAN_INPUT"
  /\ AgentState.active_human_request (st DemoSuspension.suspended_context)
     = Some DemoSuspension.request.
Proof.
  assert (Hcrew : Dict.get "solo" [("solo", DemoSuspension.crew)]
                  = Some DemoSuspension.crew) by reflexivity.
  assert (Htry : @execute_mission_try DemoSuspension.collaborators
                   DemoSuspension.agents DemoSuspension.registry 10
                   DemoSuspension.crew None
                   (@new_mission DemoSuspension.collaborators "mission_1" "solo"
                      "G" Repository.empty [])
                 = (Raise (HumanInterventionRequired DemoSuspension.request),
                    DemoSuspension.suspended_context)).
  { unfold DemoSuspension.suspended_context. apply pair_of_fst.
    vm_compute. reflexivity. }
  split; [exact Hcrew|]. split; [exact Htry|].
  destruct (@human_signal_suspends_mission DemoSuspension.collaborators
              DemoSuspension.agents [("solo", DemoSuspension.crew)]
              DemoSuspension.registry 10 "mission_1" "solo" "G" None
              Repository.empty [] DemoSuspension.crew DemoSuspension.request
              DemoSuspension.suspended_context Hcrew Htry)
    as (_ & Hstatus & Hrequest & _).
  split; assumption.
Defined.

(** ** Missions in which no tool call raises the signal *)

Section Unsignalled.

Context `{Collab : Collaborators}.
Variable agents_config : Dict.t AgentConfig.t.
Variable crews_config : Dict.t CrewConfig.t.
Variable TOOL_REGISTRY : Dict.t ToolInfo.t.

Hypothesis tool_calls_raise_no_signal :
  forall tool_call_response agent_name,
    raises_only no_signal
      (_execute_tool_call TOOL_REGISTRY tool_call_response agent_name).

Lemma tool_use_loop_no_signal (remaining tool_call_count : nat) (agent_name : string)
    (agent_config : AgentConfig.t) (initial_prompt current_prompt : string) :
  raises_only no_signal
    (tool_use_loop TOOL_REGISTRY remaining tool_call_count agent_name agent_config
       initial_prompt current_prompt).
Proof.
  revert tool_call_count current_prompt.
  induction remaining as [|remaining IH]; intros tool_call_count current_prompt;
    cbn [tool_use_loop].
  - apply raises_only_bind; [quiet|].
    intros _. apply raises_only_bind; [quiet|].
    intros state. apply no_signal_bridge.
  - apply raises_only_bind; [quiet|].
    intros state. apply raises_only_bind; [apply no_signal_bridge|].
    intros llm_response. destruct (_is_tool_call llm_response).
    + apply raises_only_bind; [apply tool_calls_raise_no_signal|].
      intros tool_result.
      apply raises_only_bind; [quiet|].
      intros _. apply IH.
    + quiet.
Qed.

Lemma run_and_store_no_signal (agent_name : string) (agent_config : AgentConfig.t)
    (prompt : string) :
  raises_only no_signal (run_and_store TOOL_REGISTRY agent_name agent_config prompt).
Proof.
  unfold run_and_store, _execute_agent_with_tools.
  apply raises_only_bind; [|intros final_response; quiet].
  destruct (AgentConfig.tools agent_config).
  - apply raises_only_bind; [quiet|].
    intros state. apply no_signal_bridge.
  - apply tool_use_loop_no_signal.
Qed.

(** [try_except] with a handler that raises the signal again and one that logs
    and raises the exception again, around a body that raises no signal. *)
Lemma reraising_try_except_no_signal {A} (body : M A) (log : Exn -> string) :
  raises_only no_signal body ->
  raises_only no_signal
    (try_except body (fun r => raise (HumanInterventionRequired r))
       (fun e => bind (add_history (log e)) (fun _ => raise e))).
Proof.
  intros Hbody c e c' Heq. unfold try_except in Heq.
  destruct (body c) as [[a | e0 |] c1] eqn:Hb; [discriminate Heq | |discriminate Heq].
  pose proof (Hbody c _ _ Hb) as Hquiet. unfold no_signal in *.
  destruct e0 as [request | msg | cls msg]; [discriminate Hquiet | |];
    revert Heq; mstep; intros Heq; inversion Heq; subst; reflexivity.
Qed.

Lemma execute_agent_no_signal (agent_name : string) :
  raises_only no_signal (_execute_agent agents_config TOOL_REGISTRY agent_name).
Proof.
  unfold _execute_agent. destruct (Dict.get agent_name agents_config) as [agent_config|].
  - apply raises_only_bind; [quiet|].
    intros state. apply raises_only_bind.
    { destruct (_find_task_for_agent state agent_name).
      - quiet.
      - quiet. }
    intros task_description.
    apply raises_only_bind; [quiet|].
    intros state'. apply reraising_try_except_no_signal.
    apply raises_only_bind; [quiet|].
    intros _. apply raises_only_bind; [apply run_and_store_no_signal|].
    intros _. apply silent_raises_only; auto with raising.
  - apply no_signal_raise. reflexivity.
Qed.

Lemma try_except_signal_no_signal {A} (body : M A)
    (on_signal : HumanRequest.t -> M A) :
  raises_only no_signal body ->
  raises_only no_signal (try_except_signal body on_signal).
Proof.
  intros Hbody c e c' Heq. unfold try_except_signal in Heq.
  destruct (body c) as [[a | e0 |] c1] eqn:Hb; [discriminate Heq | |discriminate Heq].
  pose proof (Hbody c _ _ Hb) as Hquiet. unfold no_signal in *.
  destruct e0 as [request | msg | cls msg]; [discriminate Hquiet | |];
    inversion Heq; subst; reflexivity.
Qed.

Lemma graph_walk_no_signal (fuel : nat) (crew_config : CrewConfig.t)
    (current_node : option string) (iteration_count : Z) :
  raises_only no_signal
    (graph_walk agents_config TOOL_REGISTRY fuel crew_config current_node
       iteration_count).
Proof.
  revert current_node iteration_count.
  induction fuel as [|fuel IH]; intros [current_node|] iteration_count;
    cbn [graph_walk]; try quiet;
    destruct (String.eqb current_node "" || String.eqb current_node "END");
    try quiet.
  - intros c e c' Heq. discriminate Heq.
  - apply raises_only_bind; [quiet|]. intros _.
    destruct (max_iterations_of crew_config <=? iteration_count)%Z; [quiet|].
    apply raises_only_bind.
    { apply try_except_signal_no_signal.
      apply raises_only_bind; [apply execute_agent_no_signal|]. intros _. quiet. }
    intros _. apply raises_only_bind; [quiet|]. intros state.
    apply raises_only_bind.
    { destruct (Py.contains "qa" (Py.lower current_node)); [|quiet].
      apply no_signal_lift.
      apply check_quality_threshold_no_signal. }
    intros [|]; [quiet|].
    destruct (NodeConfig.conditional_transitions _) as [transitions|].
    + apply raises_only_bind;
        [apply handle_conditional_transitions_no_signal|].
      intros next_node. apply raises_only_bind; [quiet|]. intros state'.
      destruct (Py.mem next_node (AgentState.completed_nodes state')).
      * apply raises_only_bind; [quiet|]. intros _. apply IH.
      * apply IH.
    + apply IH.
Qed.

Lemma execute_mission_try_no_signal (fuel : nat) (crew_config : CrewConfig.t)
    (parameters : option JSON) :
  raises_only no_signal
    (execute_mission_try agents_config TOOL_REGISTRY fuel crew_config parameters).
Proof.
  unfold execute_mission_try.
  apply raises_only_bind; [apply planning_phase_no_signal|].
  intros _. apply raises_only_bind; [quiet|]. intros _.
  apply raises_only_bind.
  { unfold _execution_phase.
    apply raises_only_bind; [quiet|]. intros _.
    apply raises_only_bind; [apply graph_walk_no_signal|]. intros _. quiet. }
  intros _.
  apply raises_only_bind; [apply silent_raises_only, synthesis_phase_silent|].
  intros _. quiet.
Qed.

(** A mission in which no tool call raises the signal is never returned
    suspended: the state a caller receives is COMPLETED. *)
Lemma unsignalled_mission_returns_completed (fuel : nat)
    (fresh_id crew_name goal : string) (parameters : option JSON)
    (state_repository : option Repository.t) (w : World) (s : AgentState.t) :
  returned_state
    (execute_mission agents_config crews_config TOOL_REGISTRY fuel fresh_id
       crew_name goal parameters state_repository w)
  = Some s ->
  AgentState.status s = "COMPLETED".
Proof.
  unfold execute_mission.
  destruct (Dict.get crew_name crews_config) as [crew_config|]; [|discriminate].
  destruct state_repository as [repository|]; [|discriminate].
  pose proof (execute_mission_try_no_signal fuel crew_config parameters
                (new_mission fresh_id crew_name goal repository w)) as Hquiet.
  pose proof (execute_mission_try_returns_completed agents_config TOOL_REGISTRY
                fuel crew_config parameters
                (new_mission fresh_id crew_name goal repository w)) as Hdone.
  destruct (execute_mission_try agents_config TOOL_REGISTRY fuel crew_config
              parameters (new_mission fresh_id crew_name goal repository w))
    as [[[] | e |] c2].
  - intros Hret. inversion Hret; subst. now apply (Hdone c2).
  - specialize (Hquiet e c2 eq_refl). unfold no_signal in Hquiet.
    destruct e as [request | msg | cls msg]; [discriminate Hquiet | |];
      unfold outcome_of; mstep; discriminate.
  - discriminate.
Qed.

End Unsignalled.

(** ** The shipped registry never raises the signal *)

(** What the orchestrator finds under a name of the shipped registry:
    [ask_human] under "ask_human", and under every other name a function that
    binds its keywords and runs its body. *)
Lemma imported_registry_entry `{Collaborators}
    (body : string -> list JSON -> World -> Res JSON * World)
    (name : string) (tool_info : ToolInfo.t) :
  Dict.get name (Registry.imported_registry body) = Some tool_info ->
  (name = "ask_human"
   /\ ToolInfo.function tool_info = fun kwargs w => (ask_human kwargs, w))
  \/ (name <> "ask_human"
      /\ exists fname params,
           ToolInfo.function tool_info = Registry.call body name fname params).
Proof.
  unfold Registry.imported_registry. rewrite dict_get_map_values.
  destruct (Dict.get name (Registry.TOOL_REGISTRY body)) as [tool|] eqn:Hget;
    [|discriminate].
  intros Heq. inversion Heq; subst tool_info; clear Heq.
  apply dict_get_in, in_of_literal in Hget.
  unfold Registry.TOOL_REGISTRY_display in Hget. cbn [In] in Hget.
  repeat (destruct Hget as [Hget|Hget];
          [inversion Hget; subst;
           first [ left; split; reflexivity
                 | right; split; [discriminate|do 2 eexists; reflexivity] ]|]).
  destruct Hget.
Qed.

Lemma bind_kwargs_no_signal (fname : string) (params : list (string * option JSON))
    (kwargs : Dict.t JSON) (e : Exn) :
  Registry.bind_kwargs fname params kwargs = Raise e -> is_signal e = false.
Proof.
  unfold Registry.bind_kwargs.
  destruct (find _ (Dict.keys kwargs)); [intros Heq; now inversion Heq|].
  destruct (filter _ params); [discriminate|].
  intros Heq. now inversion Heq.
Qed.

Lemma inject_agent_name_binds (agent_name : string) (tool_args tool_args' : JSON) :
  inject_agent_name agent_name tool_args = Ret tool_args' ->
  match tool_args' with
  | JObj kwargs => Dict.has "agent_name" kwargs = true
  | _ => True
  end.
Proof.
  destruct tool_args as [ | b | q | s | l | kwargs]; cbn [inject_agent_name];
    try discriminate.
  - destruct (Py.contains "agent_name" s); [|discriminate].
    intros Heq. now inversion Heq.
  - destruct (existsb _ l); [|discriminate]. intros Heq. now inversion Heq.
  - destruct (Dict.has "agent_name" kwargs) eqn:Hhas; intros Heq; inversion Heq.
    + exact Hhas.
    + apply dict_has_set.
Qed.

Lemma inject_agent_name_no_signal (agent_name : string) (tool_args : JSON) (e : Exn) :
  inject_agent_name agent_name tool_args = Raise e -> is_signal e = false.
Proof.
  destruct tool_args as [ | b | q | s | l | kwargs]; cbn [inject_agent_name];
    try (intros Heq; now inversion Heq).
  - destruct (Py.contains "agent_name" s); [discriminate|].
    intros Heq; now inversion Heq.
  - destruct (existsb _ l); [discriminate|]. intros Heq; now inversion Heq.
Qed.

Section ShippedRegistry.

Context `{Collab : Collaborators}.
Variable body : string -> list JSON -> World -> Res JSON * World.

(** No body of a shipped tool raises the signal: [ask_human] is the only
    place of the program that does. *)
Hypothesis bodies_raise_no_signal :
  forall name args w request,
    fst (body name args w) <> Raise (HumanInterventionRequired request).

Lemma shipped_call_tool_no_signal (name agent_name : string)
    (tool_info : ToolInfo.t) (tool_args : JSON) :
  Dict.get name (Registry.imported_registry body) = Some tool_info ->
  raises_only no_signal
    (bind (lift (prepare_tool_args name agent_name tool_args))
       (fun tool_args => call_tool tool_info tool_args)).
Proof.
  intros Hentry c e c'. unfold bind, lift, no_signal.
  destruct (imported_registry_entry body name tool_info Hentry)
    as [[-> Hfun] | [Hname (fname & params & Hfun)]].
  - unfold prepare_tool_args. rewrite String.eqb_refl.
    destruct (inject_agent_name agent_name tool_args) as [bound | e0 |] eqn:Hbound.
    + apply inject_agent_name_binds in Hbound.
      unfold call_tool. destruct bound as [ | b | q | s | l | kwargs];
        try (intros Heq; now inversion Heq).
      rewrite Hfun.
      destruct (ask_human_rejects_agent_name kwargs Hbound) as [k ->].
      intros Heq; now inversion Heq.
    + apply inject_agent_name_no_signal in Hbound.
      intros Heq. now inversion Heq; subst.
    + discriminate.
  - unfold prepare_tool_args. apply String.eqb_neq in Hname. rewrite Hname.
    unfold call_tool. destruct tool_args as [ | b | q | s | l | kwargs];
      try (intros Heq; now inversion Heq).
    rewrite Hfun. unfold Registry.call.
    destruct (Registry.bind_kwargs fname params kwargs) as [args | e0 |] eqn:Hbind.
    + pose proof (bodies_raise_no_signal name args (world c)) as Hbody.
      destruct (body name args (world c)) as [[j | e1 |] w'];
        try discriminate.
      intros Heq. inversion Heq; subst.
      destruct e as [request | msg | cls msg]; try reflexivity.
      now contradiction (Hbody request).
    + apply bind_kwargs_no_signal in Hbind. intros Heq. now inversion Heq; subst.
    + discriminate.
Qed.

Lemma shipped_tool_call_try_no_signal (tool_call_response agent_name : string) :
  raises_only no_signal
    (_execute_tool_call_try (Registry.imported_registry body) tool_call_response
       agent_name).
Proof.
  unfold _execute_tool_call_try.
  destruct (json_loads (Py.strip tool_call_response)) as [parsed | msg];
    [|now apply no_signal_raise].
  destruct parsed as [ | b | q | s | l | tool_call];
    try now apply no_signal_raise.
  destruct (Dict.get "tool_name" tool_call) as [tool_name|];
    [|now apply no_signal_raise].
  destruct tool_name as [ | b | q | name | l | d];
    [quiet | quiet | quiet | | now apply no_signal_raise
     | now apply no_signal_raise].
  destruct (Dict.get name (Registry.imported_registry body)) as [tool_info|] eqn:Hentry;
    [|quiet].
  apply raises_only_bind; [quiet|]. intros _.
  fold (tool_args_of tool_call).
  intros c e c' Heq.
  apply bind_raise_inv in Heq as [Heq | (tool_args & c1 & Hprep & Heq)].
  - apply (shipped_call_tool_no_signal name agent_name tool_info
             (tool_args_of tool_call) Hentry c e c').
    unfold bind. rewrite Heq. reflexivity.
  - apply bind_raise_inv in Heq as [Heq | (result & c2 & _ & Heq)].
    + apply (shipped_call_tool_no_signal name agent_name tool_info
               (tool_args_of tool_call) Hentry c e c').
      unfold bind. rewrite Hprep. exact Heq.
    + revert Heq. mstep. discriminate.
Qed.

Lemma shipped_tool_call_no_signal (tool_call_response agent_name : string) :
  raises_only no_signal
    (_execute_tool_call (Registry.imported_registry body) tool_call_response
       agent_name).
Proof.
  intros c e c' Heq. unfold _execute_tool_call in Heq.
  pose proof (shipped_tool_call_try_no_signal tool_call_response agent_name c)
    as Htry.
  destruct (_execute_tool_call_try (Registry.imported_registry body)
              tool_call_response agent_name c) as [[j | e0 |] c1];
    [discriminate Heq| |discriminate Heq].
  specialize (Htry e0 c1 eq_refl). unfold no_signal in Htry.
  destruct e0 as [request | msg | cls msg]; [discriminate Htry | |];
    revert Heq; mstep; discriminate.
Qed.

End ShippedRegistry.

Lemma shipped_ask_human_entry `{Collaborators}
    (body : string -> list JSON -> World -> Res JSON * World) :
  exists description,
    Dict.get "ask_human" (Registry.imported_registry body)
    = Some (@ToolInfo.mk _ (fun kwargs w => (ask_human kwargs, w)) description false).
Proof. eexists. reflexivity. Qed.

(** C1. With the registry as shipped, a call of "ask_human" does not suspend
    the mission.  [_execute_tool_call] gives every call of "ask_human" the
    keyword [agent_name], which is no parameter of [ask_human]: the call fails
    on the [TypeError] of the binding, the function's body and its raise are
    never reached, and the agent is handed an error result.  In the mission
    whose researcher asks "Which market?" on its first turn the model is
    asked again, the mission runs on through the synthesis and is returned
    COMPLETED, with no pending request and no entry of a pause.  So it is in
    every mission: as long as no other tool's body raises the signal, the
    signal never leaves the [try] block of [execute_mission], and a state
    that is returned is COMPLETED.  The same function registered under
    another name, so that no [agent_name] is added, does suspend the same
    mission on the same question. *)
Theorem shipped_ask_human_call_does_not_suspend :
  (final_world DemoAskHuman.run
   = ["mission_1_planning"; "mission_1_researcher_tool_0";
      "mission_1_researcher_tool_1"; "mission_1_synthesis"]
   /\ option_map AgentState.status (returned_state DemoAskHuman.run)
      = Some "COMPLETED"
   /\ option_map AgentState.active_human_request (returned_state DemoAskHuman.run)
      = Some None
   /\ option_map
        (fun s =>
           existsb
             (Py.contains
                "Tool error: Tool execution failed: ask_human() got an unexpected keyword argument 'agent_name'")
             (AgentState.history s))
        (returned_state DemoAskHuman.run)
      = Some true
   /\ option_map
        (fun s => existsb (Py.contains "Mission pausiert") (AgentState.history s))
        (returned_state DemoAskHuman.run)
      = Some false)
  /\ (forall (C : Collaborators)
        (body : string -> list JSON -> World -> Res JSON * World)
        (tool_call_response agent_name : string) (tool_call : Dict.t JSON)
        (c : Ctx),
        json_loads (Py.strip tool_call_response) = inl (JObj tool_call) ->
        Dict.get "tool_name" tool_call = Some (JStr "ask_human") ->
        exists msg c',
          _execute_tool_call (Registry.imported_registry body) tool_call_response
            agent_name c
          = (Ret (error_dict msg), c'))
  /\ (forall (C : Collaborators)
        (body : string -> list JSON -> World -> Res JSON * World)
        (agents_config : Dict.t AgentConfig.t)
        (crews_config : Dict.t CrewConfig.t) (fuel : nat)
        (fresh_id crew_name goal : string) (parameters : option JSON)
        (state_repository : option Repository.t) (w : World),
        (forall name args w0 request,
            fst (body name args w0) <> Raise (HumanInterventionRequired request)) ->
        (forall crew_config c request c2,
            execute_mission_try agents_config (Registry.imported_registry body)
              fuel crew_config parameters c
            <> (Raise (HumanInterventionRequired request), c2))
        /\ (forall s,
              returned_state
                (execute_mission agents_config crews_config
                   (Registry.imported_registry body) fuel fresh_id crew_name goal
                   parameters state_repository w)
              = Some s ->
              AgentState.status s = "COMPLETED"))
  /\ (option_map AgentState.status (returned_state DemoSuspension.run)
      = Some "AWAITING_HUMAN_INPUT"
      /\ option_map AgentState.active_human_request
           (returned_state DemoSuspension.run)
         = Some (Some DemoSuspension.request)).
Proof.
  split; [repeat split; vm_compute; reflexivity|].
  split; [|split; [|split; vm_compute; reflexivity]].
  - intros C body tool_call_response agent_name tool_call c Hjson Hname.
    destruct (shipped_ask_human_entry body) as [description Hentry].
    apply (registered_ask_human_call_is_an_error_result
             (Registry.imported_registry body) _ tool_call_response agent_name
             tool_call c Hjson Hname Hentry).
    reflexivity.
  - intros C body agents_config crews_config fuel fresh_id crew_name goal
      parameters state_repository w Hbody.
    pose proof (shipped_tool_call_no_signal body Hbody) as Hcalls.
    split.
    + intros crew_config c request c2 Hraise.
      pose proof (execute_mission_try_no_signal agents_config
                    (Registry.imported_registry body) Hcalls fuel crew_config
                    parameters c _ c2 Hraise) as Hquiet.
      discriminate Hquiet.
    + intros s. apply unsignalled_mission_returns_completed. exact Hcalls.
Qed.

(** ** Concrete missions *)

(** C9. The one-node mission calls the planner, "researcher" and the
    synthesis once each, stores the researcher's output and ends COMPLETED --
    but with no entry in [completed_nodes]: the last node stays in
    [current_node] only, and the synthesis prompt is built from no result.
    With the node's dictionary as a dumped [NodeConfig] the walk takes the
    conditional branch and the mission ends in ERROR. *)
Theorem single_node_mission_leaves_completed_nodes_empty :
  final_world DemoSolo.run
  = ["mission_1_planning"; "mission_1_researcher"; "mission_1_synthesis"]
  /\ option_map AgentState.status (returned_state DemoSolo.run) = Some "COMPLETED"
  /\ option_map (AgentState.get_result "researcher" "output")
       (returned_state DemoSolo.run)
     = Some (Some (VText "answer of mission_1_researcher"))
  /\ option_map AgentState.current_node (returned_state DemoSolo.run)
     = Some (Some "researcher")
  /\ option_map AgentState.completed_nodes (returned_state DemoSolo.run) = Some []
  /\ option_map collect_outputs (returned_state DemoSolo.run) = Some []
  /\ result DemoSolo.dumped_run
     = Raise (PyException "TypeError" "'NoneType' object is not iterable")
  /\ option_map AgentState.status (stored_state "mission_1" DemoSolo.dumped_run)
     = Some "ERROR".
Proof. repeat split; vm_compute; reflexivity. Qed.

(** C2. Resumed while "writer" is the current node, the mission re-invokes the
    writer with the answer and then walks the graph again from its entry
    point: "researcher" and "writer" are both executed once more before the
    synthesis, where the successor of "writer" is END. *)
Theorem resume_walks_again_from_entry_point :
  option_map AgentState.current_node
    (Repository.get_by_id "mission_2" DemoResumeWalk.repository)
  = Some (Some "writer")
  /\ Graph.entry_point (CrewConfig.graph DemoResumeWalk.crew) = Some "researcher"
  /\ final_world DemoResumeWalk.run
     = ["mission_2_writer"; "mission_2_researcher"; "mission_2_writer";
        "mission_2_synthesis"]
  /\ option_map AgentState.status (returned_state DemoResumeWalk.run)
     = Some "COMPLETED".
Proof. repeat split; vm_compute; reflexivity. Qed.

(** ** The quality threshold *)

Lemma check_quality_threshold_without_score_kind (s : AgentState.t)
    (crew_config : CrewConfig.t) :
  no_score_kind s -> _check_quality_threshold s crew_config = Ret false.
Proof.
  intros Hno. unfold _check_quality_threshold.
  destruct (rev _) as [|latest_qa rest] eqn:Hrev; [reflexivity|].
  assert (Hin : In latest_qa (rev (latest_qa :: rest))).
  { apply in_rev. rewrite rev_involutive. now left. }
  rewrite <- Hrev, rev_involutive in Hin.
  apply in_map_iff in Hin as ([agent_name slot] & Hslot & Hin).
  apply filter_In in Hin as [Hin _]. simpl in Hslot. subst slot.
  now rewrite (Hno agent_name latest_qa Hin).
Qed.

(** The orchestrator stores results under the kinds "output", "raw",
    "final_synthesis" and "human_response" only; none of them creates the
    kind the threshold check looks up. *)
Lemma store_result_keeps_no_score_kind (hms agent_name result_type : string)
    (result : ResultValue) (s : AgentState.t) :
  result_type <> "overall_score" ->
  no_score_kind s ->
  no_score_kind (AgentState.store_result hms agent_name result result_type s).
Proof.
  intros Hkind Hno a slot Hin. unfold AgentState.store_result in Hin.
  cbn [AgentState.results AgentState.add_history_entry AgentState.set_history
       AgentState.set_results] in Hin.
  apply in_dict_set in Hin as [Hin|Hslot]; [now apply (Hno a)|]. subst slot.
  rewrite dict_get_set_other by (intros Heq; now apply Hkind).
  destruct (Dict.get agent_name (AgentState.results s)) as [old|] eqn:Hold;
    [|reflexivity].
  assert (Hold_in : In (agent_name, old) (AgentState.results s)).
  { clear -Hold. induction (AgentState.results s) as [|[k0 v0] d IH];
      simpl in *; [discriminate|].
    destruct (String.eqb_spec agent_name k0) as [->|_].
    - inversion Hold. now left.
    - right. now apply IH. }
  now apply (Hno agent_name).
Qed.

(** C4. After "qa_agent" has delivered a report whose score 0.95 exceeds the
    threshold 0.85, the walk does not stop: "publisher" is still executed, and
    the history has no entry of a reached threshold.  The check reads the
    agent's slot of results (a dictionary of kinds), not the result in it, so
    it answers False for a [QAReport] and for a quality verdict alike; and
    where the crew declares no threshold the check compares against 0.8. *)
Theorem quality_threshold_does_not_stop_the_walk :
  final_world DemoQuality.run
  = ["mission_4_planning"; "mission_4_writer"; "mission_4_qa_agent";
     "mission_4_publisher"; "mission_4_synthesis"]
  /\ option_map (AgentState.get_result "qa_agent" "output")
       (returned_state DemoQuality.run)
     = Some (Some (VModel "QAReport" DemoQuality.qa_report))
  /\ option_map
       (fun s => existsb (Py.contains "Quality threshold reached")
                   (AgentState.history s))
       (returned_state DemoQuality.run)
     = Some false
  /\ _check_quality_threshold DemoQuality.verdict_state DemoQuality.crew = Ret false
  /\ _check_quality_threshold DemoQuality.scored_slot_state
       DemoQuality.crew_without_threshold = Ret true
  /\ _check_quality_threshold DemoQuality.scored_slot_state DemoQuality.crew
     = Ret false.
Proof. repeat split; vm_compute; reflexivity. Qed.

(** ** A failure of the synthesis *)


(** ** One turn of the graph walk *)

Section IterationCap.

Context `{Collab : Collaborators}.
Variable agents_config : Dict.t AgentConfig.t.
Variable TOOL_REGISTRY : Dict.t ToolInfo.t.

Lemma walk_enters (fuel : nat) (crew_config : CrewConfig.t) (node_name : string)
    (iteration_count : Z) (c : Ctx) :
  node_name <> "" -> node_name <> "END" ->
  graph_walk agents_config TOOL_REGISTRY (S fuel) crew_config (Some node_name)
    iteration_count c
  = (if (max_iterations_of crew_config <=? iteration_count)%Z
     then (Ret tt,
           logged ("Maximum iterations (" ++ str_Z (max_iterations_of crew_config)
                   ++ ") reached. Forcing completion.")
             (entered node_name c))
     else
       match _execute_agent agents_config TOOL_REGISTRY node_name
               (entered node_name c) with
       | (Ret _, c1) =>
           match quality_check crew_config node_name (st c1) with
           | Ret true =>
               (Ret tt, logged "Quality threshold reached. Mission completed."
                          (saved c1))
           | Ret false =>
               match NodeConfig.conditional_transitions
                       (node_config_of crew_config node_name) with
               | Some transitions =>
                   match _handle_conditional_transitions node_name transitions
                           crew_config (saved c1) with
                   | (Ret next_node, c2) =>
                       if Py.mem next_node (AgentState.completed_nodes (st c2))
                       then graph_walk agents_config TOOL_REGISTRY fuel crew_config
                              (Some next_node) (iteration_count + 1)
                              (logged ("Feedback loop iteration "
                                       ++ str_Z (iteration_count + 1)
                                       ++ ": returning to " ++ next_node) c2)
                       else graph_walk agents_config TOOL_REGISTRY fuel crew_config
                              (Some next_node) iteration_count c2
                   | (Raise e, c2) => (Raise e, c2)
                   | (Diverge, c2) => (Diverge, c2)
                   end
               | None =>
                   graph_walk agents_config TOOL_REGISTRY fuel crew_config
                     (NodeConfig.transitions_to
                        (node_config_of crew_config node_name))
                     iteration_count (saved c1)
               end
           | Raise e => (Raise e, saved c1)
           | Diverge => (Diverge, saved c1)
           end
       | (Raise (HumanInterventionRequired r), c1) =>
           (Raise (HumanInterventionRequired r), saved c1)
       | (Raise e, c1) => (Raise e, c1)
       | (Diverge, c1) => (Diverge, c1)
       end).
Proof.
  intros Hne Hend. cbn [graph_walk].
  apply String.eqb_neq in Hne. apply String.eqb_neq in Hend.
  rewrite Hne, Hend. cbn [orb].
  unfold bind at 1. unfold set_current_node at 1. fold (entered node_name c).
  destruct (max_iterations_of crew_config <=? iteration_count)%Z; [reflexivity|].
  unfold bind at 1. unfold try_except_signal, bind at 1.
  destruct (_execute_agent agents_config TOOL_REGISTRY node_name (entered node_name c))
    as [[[] | e |] c1]; [| destruct e; reflexivity | reflexivity].
  unfold save at 1. fold (saved c1).
  unfold bind at 1. unfold get_state at 1.
  change (st (saved c1)) with (st c1).
  fold (node_config_of crew_config node_name).
  assert (Hq : forall c0,
             (if Py.contains "qa" (Py.lower node_name)
              then lift (_check_quality_threshold (st c1) crew_config)
              else ret false) c0
             = (quality_check crew_config node_name (st c1), c0)).
  { intros c0. unfold quality_check.
    destruct (Py.contains "qa" (Py.lower node_name)); reflexivity. }
  unfold bind at 1. rewrite Hq.
  destruct (quality_check crew_config node_name (st c1)) as [[|] | e |];
    try reflexivity.
  destruct (NodeConfig.conditional_transitions _); [|reflexivity].
  unfold bind at 1.
  destruct (_handle_conditional_transitions _ _ _ _) as [[next | e |] c2];
    try reflexivity.
  unfold bind at 1. unfold get_state at 1.
  destruct (Py.mem next _); reflexivity.
Qed.

End IterationCap.

(** ** Failures on their way to the boundary of [execute_mission] *)

Section WalkFailuresRaise.

Context `{Collab : Collaborators}.
Variable agents_config : Dict.t AgentConfig.t.
Variable TOOL_REGISTRY : Dict.t ToolInfo.t.
Variable crew_config : CrewConfig.t.



End WalkFailuresRaise.

(** ** Error messages are written at the boundary only *)

Section ErrorsLeft.

Context `{Collab : Collaborators}.


Lemma leaves_errors_ret {A} (a : A) : leaves_errors (ret a).
Proof. intros c. reflexivity. Qed.

Lemma leaves_errors_raise {A} (e : Exn) : leaves_errors (raise (A:=A) e).
Proof. intros c. reflexivity. Qed.

Lemma leaves_errors_lift {A} (r : Res A) : leaves_errors (lift r).
Proof. intros c. reflexivity. Qed.

Lemma leaves_errors_get_state : leaves_errors get_state.
Proof. intros c. reflexivity. Qed.

Lemma leaves_errors_add_history (message : string) :
  leaves_errors (add_history message).
Proof. intros c. reflexivity. Qed.

Lemma leaves_errors_store_result (a : string) (r : ResultValue) (k : string) :
  leaves_errors (store_result a r k).
Proof. intros c. reflexivity. Qed.

Lemma leaves_errors_save : leaves_errors save.
Proof. intros c. reflexivity. Qed.

Lemma leaves_errors_set_status (v : string) :
  leaves_errors (modify (AgentState.set_status v)).
Proof. intros c. reflexivity. Qed.

Lemma leaves_errors_set_active_human_request (v : option HumanRequest.t) :
  leaves_errors (modify (AgentState.set_active_human_request v)).
Proof. intros c. reflexivity. Qed.

Lemma leaves_errors_set_task_plan (v : option (list TaskPlan.t)) :
  leaves_errors (modify (AgentState.set_task_plan v)).
Proof. intros c. reflexivity. Qed.

Lemma leaves_errors_set_current_node (node_name : string) :
  leaves_errors (set_current_node node_name).
Proof.
  intros c. unfold set_current_node. cbn [snd st].
  unfold AgentState.set_current_node.
  destruct (AgentState.current_node (st c)) as [x|];
    [destruct (negb (x =? "")%string
               && negb (Py.mem x (AgentState.completed_nodes (st c))))|];
    state_simpl; destruct (AgentState.task_plan (st c)) as [[|? ?]|]; reflexivity.
Qed.

Lemma leaves_errors_start_execution : leaves_errors start_execution.
Proof. intros c. reflexivity. Qed.

Lemma leaves_errors_complete_execution : leaves_errors complete_execution.
Proof.
  intros c. unfold complete_execution. cbn [snd st].
  unfold AgentState.complete_execution. state_simpl.
  destruct (AgentState.started_at (st c)); reflexivity.
Qed.

Lemma leaves_errors_bridge (conversation_id target message : string) :
  leaves_errors (bridge conversation_id target message).
Proof.
  intros c. unfold bridge.
  destruct (bridge_message conversation_id target message (world c)) as [[t | err] w];
    reflexivity.
Qed.




End ErrorsLeft.

Create HintDb errors.
#[export] Hint Resolve leaves_errors_ret leaves_errors_raise leaves_errors_lift
  leaves_errors_get_state leaves_errors_add_history leaves_errors_store_result
  leaves_errors_save leaves_errors_set_status
  leaves_errors_set_active_human_request leaves_errors_set_task_plan
  leaves_errors_set_current_node leaves_errors_start_execution
  leaves_errors_complete_execution leaves_errors_bridge : errors.


Section ErrorsOfAMission.

Context `{Collab : Collaborators}.
Variable agents_config : Dict.t AgentConfig.t.
Variable TOOL_REGISTRY : Dict.t ToolInfo.t.














End ErrorsOfAMission.

Section Boundary.

Context `{Collab : Collaborators}.
Variable agents_config : Dict.t AgentConfig.t.
Variable crews_config : Dict.t CrewConfig.t.
Variable TOOL_REGISTRY : Dict.t ToolInfo.t.







(** What makes a turn fail. *)










End Boundary.



(** ** The plain cycle at every length of walk *)

Lemma plain_cycle_agent_returns (n : string) (c : @Ctx DemoPlainCycle.collaborators) :
  n = "a" \/ n = "b" ->
  exists c1,
    @_execute_agent DemoPlainCycle.collaborators DemoPlainCycle.agents [] n c
    = (Ret tt, c1).
Proof.
  intros [-> | ->]; unfold _execute_agent.
  - change (Dict.get "a" DemoPlainCycle.agents)
      with (Some (Demo.agent "m1" "First" [])).
    mstep. destruct (_find_task_for_agent (st c) "a"); mstep;
      unfold run_and_store, _execute_agent_with_tools;
      cbn [AgentConfig.tools Demo.agent]; mstep; unfold bridge;
      cbn [bridge_message DemoPlainCycle.collaborators Demo.collaborators];
      mstep; eexists; reflexivity.
  - change (Dict.get "b" DemoPlainCycle.agents)
      with (Some (Demo.agent "m2" "Second" [])).
    mstep. destruct (_find_task_for_agent (st c) "b"); mstep;
      unfold run_and_store, _execute_agent_with_tools;
      cbn [AgentConfig.tools Demo.agent]; mstep; unfold bridge;
      cbn [bridge_message DemoPlainCycle.collaborators Demo.collaborators];
      mstep; eexists; reflexivity.
Qed.

(** From any context, the walk over a -> b -> a is still under way after any
    number of turns. *)
Lemma plain_cycle_walk_never_ends (fuel : nat) :
  forall c : @Ctx DemoPlainCycle.collaborators,
    fst (@graph_walk DemoPlainCycle.collaborators DemoPlainCycle.agents [] fuel
           DemoPlainCycle.crew (Some "a") 0 c) = Diverge
    /\ fst (@graph_walk DemoPlainCycle.collaborators DemoPlainCycle.agents [] fuel
              DemoPlainCycle.crew (Some "b") 0 c) = Diverge.
Proof.
  induction fuel as [|fuel IH]; intros c; [split; reflexivity|].
  split.
  - rewrite walk_enters by discriminate.
    change (max_iterations_of DemoPlainCycle.crew <=? 0)%Z with false.
    destruct (plain_cycle_agent_returns "a" (entered "a" c) (or_introl eq_refl))
      as [c1 ->].
    change (quality_check DemoPlainCycle.crew "a" (st c1)) with (@Ret bool false).
    change (node_config_of DemoPlainCycle.crew "a") with (Demo.plain_node "b").
    cbn [NodeConfig.conditional_transitions NodeConfig.transitions_to Demo.plain_node].
    apply IH.
  - rewrite walk_enters by discriminate.
    change (max_iterations_of DemoPlainCycle.crew <=? 0)%Z with false.
    destruct (plain_cycle_agent_returns "b" (entered "b" c) (or_intror eq_refl))
      as [c1 ->].
    change (quality_check DemoPlainCycle.crew "b" (st c1)) with (@Ret bool false).
    change (node_config_of DemoPlainCycle.crew "b") with (Demo.plain_node "a").
    cbn [NodeConfig.conditional_transitions NodeConfig.transitions_to Demo.plain_node].
    apply IH.
Qed.


(** C5. A loop-back through plain [transitions_to] is neither counted nor
    capped.  With a -> b -> a and [max_iterations] 3 the walk is still under
    way after any number of turns; after forty of them -- every one after the
    second returning to a completed node -- it has neither stopped nor logged
    a loop iteration.  The same return is counted when a conditional
    transition makes it: the writer that is routed back to itself is executed
    four times, and the fifth turn is cut short by the cap. *)
Theorem plain_cycle_is_not_capped :
  (forall fuel,
      fst (@graph_walk DemoPlainCycle.collaborators DemoPlainCycle.agents [] fuel
             DemoPlainCycle.crew (Some "a") 0
             (@new_mission DemoPlainCycle.collaborators "mission_5" "cycle" "G"
                Repository.empty []))
      = Diverge)
  /\ result (DemoPlainCycle.run 40) = Diverge
  /\ List.length (final_world (DemoPlainCycle.run 40)) = 41%nat
  /\ option_map AgentState.completed_nodes
       (stored_state "mission_5" (DemoPlainCycle.run 40))
     = Some ["a"; "b"]
  /\ option_map
       (fun s => existsb (fun line => Py.contains "Feedback loop iteration" line
                                      || Py.contains "Maximum iterations" line)
                   (AgentState.history s))
       (stored_state "mission_5" (DemoPlainCycle.run 40))
     = Some false
  /\ final_world DemoFeedbackLoop.run
     = ["mission_5_planning";
        "mission_5_writer"; "mission_5_routing";
        "mission_5_writer"; "mission_5_routing";
        "mission_5_writer"; "mission_5_routing";
        "mission_5_writer"; "mission_5_routing";
        "mission_5_synthesis"]
  /\ option_map AgentState.status (returned_state DemoFeedbackLoop.run)
     = Some "COMPLETED"
  /\ option_map
       (fun s => existsb (Py.contains "Maximum iterations (3) reached. Forcing completion.")
                   (AgentState.history s))
       (returned_state DemoFeedbackLoop.run)
     = Some true.
Proof.
  split; [intros fuel; apply plain_cycle_walk_never_ends|].
  repeat split; vm_compute; reflexivity.
Qed.

(** ** Steps that come back and leave the walk's bookkeeping alone *)

Section Steps.

Context `{Collab : Collaborators}.
Variable agents_config : Dict.t AgentConfig.t.
Variable TOOL_REGISTRY : Dict.t ToolInfo.t.

Lemma same_nodes_refl (c : Ctx) : same_nodes c c.
Proof. split; reflexivity. Qed.

Lemma same_nodes_trans (c1 c2 c3 : Ctx) :
  same_nodes c1 c2 -> same_nodes c2 c3 -> same_nodes c1 c3.
Proof. intros [H1 H2] [H3 H4]. split; congruence. Qed.

Lemma steady_bind {A B} (m : M A) (k : A -> M B) :
  steady m -> (forall a, steady (k a)) -> steady (bind m k).
Proof.
  intros Hm Hk c. unfold bind. specialize (Hm c).
  destruct (m c) as [[a | e |] c1]; cbn [fst snd] in *.
  - destruct (Hk a c1) as [Hd Hn]. split; [exact Hd|].
    eapply same_nodes_trans; [apply Hm|exact Hn].
  - split; [discriminate|apply Hm].
  - destruct Hm as [Hd _]. now contradiction Hd.
Qed.

Lemma steady_ret {A} (a : A) : steady (ret a).
Proof. intros c. split; [discriminate|apply same_nodes_refl]. Qed.

Lemma steady_raise {A} (e : Exn) : steady (raise (A:=A) e).
Proof. intros c. split; [discriminate|apply same_nodes_refl]. Qed.

Lemma steady_lift {A} (r : Res A) : r <> Diverge -> steady (lift r).
Proof. intros Hr c. split; [exact Hr|apply same_nodes_refl]. Qed.

Lemma steady_get_state : steady get_state.
Proof. intros c. split; [discriminate|apply same_nodes_refl]. Qed.

Lemma steady_add_history (message : string) : steady (add_history message).
Proof. intros c. split; [discriminate|split; reflexivity]. Qed.

Lemma steady_store_result (a : string) (r : ResultValue) (k : string) :
  steady (store_result a r k).
Proof. intros c. split; [discriminate|split; reflexivity]. Qed.

Lemma steady_save : steady save.
Proof. intros c. split; [discriminate|split; reflexivity]. Qed.

Lemma steady_set_status (v : string) : steady (modify (AgentState.set_status v)).
Proof. intros c. split; [discriminate|split; reflexivity]. Qed.

Lemma steady_set_active_human_request (v : option HumanRequest.t) :
  steady (modify (AgentState.set_active_human_request v)).
Proof. intros c. split; [discriminate|split; reflexivity]. Qed.

Lemma steady_set_task_plan (v : option (list TaskPlan.t)) :
  steady (modify (AgentState.set_task_plan v)).
Proof. intros c. split; [discriminate|split; reflexivity]. Qed.

Lemma steady_bridge (conversation_id target message : string) :
  steady (bridge conversation_id target message).
Proof.
  intros c. unfold bridge.
  destruct (bridge_message conversation_id target message (world c)) as [[t | err] w];
    (split; [discriminate|split; reflexivity]).
Qed.

Lemma steady_try_except {A} (body : M A) (on_signal : HumanRequest.t -> M A)
    (on_exception : Exn -> M A) :
  steady body -> (forall r, steady (on_signal r)) ->
  (forall e, steady (on_exception e)) ->
  steady (try_except body on_signal on_exception).
Proof.
  intros Hb Hs He c. unfold try_except. specialize (Hb c).
  destruct (body c) as [[a | e |] c1]; cbn [fst snd] in *.
  - exact Hb.
  - destruct e as [r | msg | cls msg].
    + destruct (Hs r c1) as [Hd Hn]. split; [exact Hd|].
      eapply same_nodes_trans; [apply Hb|exact Hn].
    + destruct (He (JSONDecodeError msg) c1) as [Hd Hn]. split; [exact Hd|].
      eapply same_nodes_trans; [apply Hb|exact Hn].
    + destruct (He (PyException cls msg) c1) as [Hd Hn]. split; [exact Hd|].
      eapply same_nodes_trans; [apply Hb|exact Hn].
  - exact Hb.
Qed.

Lemma steady_try_except_Exception {A} (body : M A) (on_exception : Exn -> M A) :
  steady body -> (forall e, steady (on_exception e)) ->
  steady (try_except_Exception body on_exception).
Proof.
  intros Hb He c. unfold try_except_Exception. specialize (Hb c).
  destruct (body c) as [[a | e |] c1]; cbn [fst snd] in *.
  - exact Hb.
  - destruct (He e c1) as [Hd Hn]. split; [exact Hd|].
    eapply same_nodes_trans; [apply Hb|exact Hn].
  - exact Hb.
Qed.

End Steps.

Create HintDb steady.
#[export] Hint Resolve steady_ret steady_raise steady_get_state
  steady_add_history steady_store_result steady_save steady_set_status
  steady_set_active_human_request steady_set_task_plan steady_bridge : steady.

(** Closes [steady m] for an [m] built from the steps above. *)
Ltac steadily :=
  solve [ repeat (apply steady_bind; [|intros ?]); auto with steady ].

Section SteadyAgents.

Context `{Collab : Collaborators}.
Variable agents_config : Dict.t AgentConfig.t.
Variable TOOL_REGISTRY : Dict.t ToolInfo.t.
Hypothesis Htools : tools_terminate TOOL_REGISTRY.

Lemma prepare_tool_args_returns (tool_name agent_name : string) (tool_args : JSON) :
  prepare_tool_args tool_name agent_name tool_args <> Diverge.
Proof.
  unfold prepare_tool_args, inject_agent_name.
  destruct (String.eqb tool_name "ask_human"); [|discriminate].
  destruct tool_args as [ | b | q | s | l | d]; try discriminate.
  - destruct (Py.contains "agent_name" s); discriminate.
  - destruct (existsb _ l); discriminate.
Qed.

Lemma steady_call_tool (name : string) (tool_info : ToolInfo.t) (tool_args : JSON) :
  Dict.get name TOOL_REGISTRY = Some tool_info ->
  steady (call_tool tool_info tool_args).
Proof.
  intros Hget c. unfold call_tool.
  destruct tool_args as [ | b | q | s | l | kwargs];
    try (split; [discriminate|apply same_nodes_refl]).
  pose proof (Htools name tool_info kwargs (world c) Hget) as Hd.
  destruct (ToolInfo.function tool_info kwargs (world c)) as [r w].
  split; [exact Hd|split; reflexivity].
Qed.

Lemma steady_execute_tool_call_try (tool_call_response agent_name : string) :
  steady (_execute_tool_call_try TOOL_REGISTRY tool_call_response agent_name).
Proof.
  unfold _execute_tool_call_try.
  destruct (json_loads (Py.strip tool_call_response)) as [tool_call | msg];
    [|auto with steady].
  destruct tool_call as [ | b | q | s | l | tool_call]; auto with steady.
  destruct (Dict.get "tool_name" tool_call) as [tool_name|]; [|auto with steady].
  destruct tool_name as [ | b | q | name | l | d]; auto with steady.
  destruct (Dict.get name TOOL_REGISTRY) as [tool_info|] eqn:Hget;
    [|auto with steady].
  apply steady_bind; [auto with steady|]. intros _.
  apply steady_bind; [apply steady_lift, prepare_tool_args_returns|].
  intros tool_args. apply steady_bind; [now apply (steady_call_tool name)|].
  intros result. steadily.
Qed.

Lemma steady_execute_tool_call (tool_call_response agent_name : string) :
  steady (_execute_tool_call TOOL_REGISTRY tool_call_response agent_name).
Proof.
  intros c. unfold _execute_tool_call.
  pose proof (steady_execute_tool_call_try tool_call_response agent_name c) as Ht.
  destruct (_execute_tool_call_try TOOL_REGISTRY tool_call_response agent_name c)
    as [[j | e |] c1]; cbn [fst snd] in Ht.
  - exact Ht.
  - destruct e as [request | msg | cls msg]; mstep;
      (split; [discriminate|]);
      (eapply same_nodes_trans; [apply Ht|split; reflexivity]).
  - exact Ht.
Qed.

Lemma steady_tool_use_loop (remaining tool_call_count : nat) (agent_name : string)
    (agent_config : AgentConfig.t) (initial_prompt current_prompt : string) :
  steady (tool_use_loop TOOL_REGISTRY remaining tool_call_count agent_name
            agent_config initial_prompt current_prompt).
Proof.
  revert tool_call_count current_prompt.
  induction remaining as [|remaining IH]; intros tool_call_count current_prompt;
    cbn [tool_use_loop].
  - steadily.
  - apply steady_bind; [auto with steady|]. intros state.
    apply steady_bind; [auto with steady|]. intros llm_response.
    destruct (_is_tool_call llm_response); [|steadily].
    apply steady_bind; [apply steady_execute_tool_call|]. intros tool_result.
    apply steady_bind; [auto with steady|]. intros _. apply IH.
Qed.

Lemma steady_run_and_store (agent_name : string) (agent_config : AgentConfig.t)
    (prompt : string) :
  steady (run_and_store TOOL_REGISTRY agent_name agent_config prompt).
Proof.
  unfold run_and_store. apply steady_bind; [|intros; steadily].
  unfold _execute_agent_with_tools.
  destruct (AgentConfig.tools agent_config); [steadily|apply steady_tool_use_loop].
Qed.

Lemma steady_execute_agent (agent_name : string) :
  steady (_execute_agent agents_config TOOL_REGISTRY agent_name).
Proof.
  unfold _execute_agent.
  destruct (Dict.get agent_name agents_config) as [agent_config|];
    [|auto with steady].
  apply steady_bind; [auto with steady|]. intros state.
  apply steady_bind.
  { destruct (_find_task_for_agent state agent_name); steadily. }
  intros task_description. apply steady_bind; [auto with steady|]. intros state'.
  apply steady_try_except.
  - apply steady_bind; [auto with steady|]. intros _.
    apply steady_bind; [apply steady_run_and_store|]. intros _. auto with steady.
  - intros r. auto with steady.
  - intros e. steadily.
Qed.

Lemma steady_route_recommendation (recommendation : string)
    (qa : QualityAssessment.t) :
  steady (route_recommendation recommendation qa).
Proof.
  unfold route_recommendation.
  destruct (Dict.get recommendation recommendation_to_target) as [target|];
    [|steadily].
  destruct (negb (String.eqb target "")); [|steadily].
  apply steady_bind; [auto with steady|]. intros _.
  apply steady_bind; [|intros; auto with steady].
  destruct (QualityAssessment.issues_found qa); auto with steady.
Qed.

Lemma steady_handle_conditional_transitions (current_agent : string)
    (transitions : option (list Transition.t)) (crew_config : CrewConfig.t) :
  steady (_handle_conditional_transitions current_agent transitions crew_config).
Proof.
  unfold _handle_conditional_transitions.
  apply steady_bind; [auto with steady|]. intros state.
  destruct (as_quality _) as [qa|]; [apply steady_route_recommendation|].
  unfold _handle_legacy_conditional_transitions.
  apply steady_bind; [auto with steady|]. intros state'.
  destruct transitions as [transitions|]; [|auto with steady].
  apply steady_try_except_Exception; [steadily|].
  intros e. destruct transitions; steadily.
Qed.

Lemma check_quality_threshold_returns (s : AgentState.t) (crew_config : CrewConfig.t) :
  _check_quality_threshold s crew_config <> Diverge.
Proof.
  unfold _check_quality_threshold.
  destruct (rev _) as [|latest_qa rest]; [discriminate|].
  destruct (Dict.get "overall_score" latest_qa) as [x|]; [|discriminate].
  destruct x as [t | qa | schema dump | []]; discriminate.
Qed.

End SteadyAgents.

(** ** Termination of walks through conditional transitions *)

Lemma mem_closing (x : string) (C : list string) (cur : option string) :
  Py.mem x C = true -> Py.mem x (closing C cur) = true.
Proof.
  intros Hx. unfold closing. destruct cur as [y|]; [|exact Hx].
  destruct (negb (String.eqb y "") && negb (Py.mem y C)); [|exact Hx].
  rewrite mem_app, Hx. reflexivity.
Qed.

Lemma mem_closing_self (n : string) (C : list string) :
  n <> "" -> Py.mem n (closing C (Some n)) = true.
Proof.
  intros Hn. unfold closing. apply String.eqb_neq in Hn. rewrite Hn. cbn [negb andb].
  destruct (Py.mem n C) eqn:Hm; cbn [negb]; [exact Hm|].
  rewrite mem_app. unfold Py.mem at 2. cbn [existsb].
  rewrite String.eqb_refl. apply orb_true_r.
Qed.

Lemma uncovered_le (N C C' : list string) :
  (forall x, Py.mem x C = true -> Py.mem x C' = true) ->
  (uncovered N C' <= uncovered N C)%nat.
Proof.
  intros Hincl. unfold uncovered. induction N as [|y N IH]; [reflexivity|].
  cbn [filter]. destruct (Py.mem y C) eqn:HC.
  - rewrite (Hincl y HC). exact IH.
  - destruct (Py.mem y C'); cbn [negb List.length]; lia.
Qed.

Lemma uncovered_lt (N C C' : list string) (x : string) :
  (forall y, Py.mem y C = true -> Py.mem y C' = true) ->
  In x N -> Py.mem x C = false -> Py.mem x C' = true ->
  (uncovered N C' < uncovered N C)%nat.
Proof.
  intros Hincl Hin HC HC'. unfold uncovered.
  induction N as [|y N IH]; [contradiction|].
  pose proof (uncovered_le N C C' Hincl) as Hle. unfold uncovered in Hle.
  cbn [filter]. destruct Hin as [->|Hin].
  - rewrite HC, HC'. cbn [negb List.length]. lia.
  - specialize (IH Hin). destruct (Py.mem y C) eqn:HyC.
    + rewrite (Hincl y HyC). exact IH.
    + destruct (Py.mem y C'); cbn [negb List.length]; lia.
Qed.

(** Closes a goal [fst (r, c) <> Diverge] whose [r] is a value or a raise. *)
Ltac settled := cbn [fst]; discriminate.

Section WalkTermination.

Context `{Collab : Collaborators}.
Variable agents_config : Dict.t AgentConfig.t.
Variable TOOL_REGISTRY : Dict.t ToolInfo.t.
Variable crew_config : CrewConfig.t.
Hypothesis Htools : tools_terminate TOOL_REGISTRY.

Let N : list string := Dict.keys (Graph.nodes (CrewConfig.graph crew_config)).

Lemma entered_nodes (n : string) (c : Ctx) :
  AgentState.completed_nodes (st (entered n c))
  = closing (AgentState.completed_nodes (st c)) (AgentState.current_node (st c))
  /\ AgentState.current_node (st (entered n c)) = Some n.
Proof.
  unfold entered, AgentState.set_current_node, closing. cbn [st].
  destruct (AgentState.current_node (st c)) as [x|].
  - destruct (negb (String.eqb x "") && negb (Py.mem x (AgentState.completed_nodes (st c))));
      state_simpl;
      destruct (AgentState.task_plan (st c)) as [[|t plan]|]; split; reflexivity.
  - state_simpl.
    destruct (AgentState.task_plan (st c)) as [[|t plan]|]; split; reflexivity.
Qed.

Lemma walk_at_end (fuel : nat) (n : string) (k : Z) (c : Ctx) :
  n = "" \/ n = "END" ->
  graph_walk agents_config TOOL_REGISTRY fuel crew_config (Some n) k c = (Ret tt, c).
Proof. intros [-> | ->]; destruct fuel; reflexivity. Qed.

Lemma walk_nowhere (fuel : nat) (k : Z) (c : Ctx) :
  graph_walk agents_config TOOL_REGISTRY fuel crew_config None k c = (Ret tt, c).
Proof. destruct fuel; reflexivity. Qed.

Lemma quality_check_returns (n : string) (s : AgentState.t) :
  quality_check crew_config n s <> Diverge.
Proof.
  unfold quality_check. destruct (Py.contains "qa" (Py.lower n));
    [apply check_quality_threshold_returns|discriminate].
Qed.

(** A node the graph does not know ends the walk after its own turn. *)
Lemma walk_outside_graph (fuel : nat) (n : string) (k : Z) (c : Ctx) :
  Dict.get n (Graph.nodes (CrewConfig.graph crew_config)) = None ->
  fst (graph_walk agents_config TOOL_REGISTRY (S fuel) crew_config (Some n) k c)
  <> Diverge.
Proof.
  intros Hget.
  destruct (String.eqb_spec n "") as [->|Hne];
    [rewrite walk_at_end by (now left); settled|].
  destruct (String.eqb_spec n "END") as [->|Hend];
    [rewrite walk_at_end by (now right); settled|].
  rewrite walk_enters by assumption.
  destruct (max_iterations_of crew_config <=? k)%Z; [settled|].
  pose proof (steady_execute_agent agents_config TOOL_REGISTRY Htools n (entered n c))
    as [Hd _].
  destruct (_execute_agent agents_config TOOL_REGISTRY n (entered n c))
    as [[[] | e |] c1]; cbn [fst] in Hd.
  - pose proof (quality_check_returns n (st c1)) as Hq.
    destruct (quality_check crew_config n (st c1)) as [[|] | e |];
      try settled; [|contradiction].
    unfold node_config_of. rewrite Hget. cbn [NodeConfig.empty
      NodeConfig.conditional_transitions NodeConfig.transitions_to].
    rewrite walk_nowhere. settled.
  - destruct e; settled.
  - contradiction.
Qed.

Hypothesis Hconditional : all_conditional crew_config.

Lemma conditional_walk_returns (fuel : nat) :
  forall (n : string) (k : Z) (c : Ctx),
    (walk_measure N n (st c) + budget crew_config k + 2 <= fuel)%nat ->
    fst (graph_walk agents_config TOOL_REGISTRY fuel crew_config (Some n) k c)
    <> Diverge.
Proof.
  induction fuel as [|fuel IH]; intros n k c Hfuel; [lia|].
  destruct (String.eqb_spec n "") as [->|Hne];
    [rewrite walk_at_end by (now left); settled|].
  destruct (String.eqb_spec n "END") as [->|Hend];
    [rewrite walk_at_end by (now right); settled|].
  rewrite walk_enters by assumption.
  destruct (max_iterations_of crew_config <=? k)%Z eqn:Hmax; [settled|].
  apply Z.leb_gt in Hmax.
  destruct (entered_nodes n c) as [HC1 Hcur1].
  pose proof (steady_execute_agent agents_config TOOL_REGISTRY Htools n (entered n c))
    as [Hd [HCa Hcura]].
  destruct (_execute_agent agents_config TOOL_REGISTRY n (entered n c))
    as [[[] | e |] c1]; cbn [fst snd] in Hd, HCa, Hcura;
    [| destruct e; settled | contradiction].
  pose proof (quality_check_returns n (st c1)) as Hq.
  destruct (quality_check crew_config n (st c1)) as [[|] | e |];
    try settled; [|contradiction].
  destruct (Dict.get n (Graph.nodes (CrewConfig.graph crew_config)))
    as [node_config|] eqn:Hget.
  2:{ unfold node_config_of. rewrite Hget. cbn [NodeConfig.empty
        NodeConfig.conditional_transitions NodeConfig.transitions_to].
      rewrite walk_nowhere. settled. }
  assert (HnN : In n N) by (apply (dict_get_in_keys _ _ _ Hget)).
  unfold node_config_of. rewrite Hget.
  pose proof (Hconditional n node_config Hget) as Hcond.
  destruct (NodeConfig.conditional_transitions node_config) as [transitions|];
    [|contradiction].
  pose proof (steady_handle_conditional_transitions n transitions crew_config
                (saved c1)) as [Hd2 [HCb Hcurb]].
  destruct (_handle_conditional_transitions n transitions crew_config (saved c1))
    as [[next | e |] c2]; cbn [fst snd] in Hd2, HCb, Hcurb;
    [| settled | contradiction].
  cbn [saved st] in HCb, Hcurb.
  assert (HC2 : AgentState.completed_nodes (st c2)
                = closing (AgentState.completed_nodes (st c))
                    (AgentState.current_node (st c))) by congruence.
  assert (Hcur2 : AgentState.current_node (st c2) = Some n) by congruence.
  set (C := AgentState.completed_nodes (st c)) in *.
  set (C1 := closing C (AgentState.current_node (st c))) in *.
  assert (Hincl : forall x, Py.mem x C = true ->
                            Py.mem x (closing (closing C1 (Some n)) (Some next)) = true).
  { intros x Hx. now apply mem_closing, mem_closing, mem_closing. }
  unfold walk_measure in Hfuel. fold C C1 in Hfuel.
  destruct (Py.mem next (AgentState.completed_nodes (st c2))) eqn:Hmem.
  - (* a counted loop-back *)
    apply IH. unfold walk_measure, logged. state_simpl. rewrite HC2, Hcur2.
    fold C C1.
    pose proof (uncovered_le N C _ Hincl). unfold budget in *. lia.
  - (* a node not completed yet *)
    destruct (String.eqb_spec next "") as [->|Hnext];
      [rewrite walk_at_end by (now left); settled|].
    destruct (Dict.get next (Graph.nodes (CrewConfig.graph crew_config)))
      as [next_config|] eqn:Hnext_get.
    + apply IH. unfold walk_measure. rewrite HC2, Hcur2. fold C C1.
      assert (Hlt : (uncovered N (closing (closing C1 (Some n)) (Some next))
                     < uncovered N C)%nat).
      { apply (uncovered_lt N C _ next Hincl).
        - apply (dict_get_in_keys _ _ _ Hnext_get).
        - rewrite HC2 in Hmem. fold C C1 in Hmem.
          destruct (Py.mem next C) eqn:HnC; [|reflexivity].
          pose proof (mem_closing next C (AgentState.current_node (st c)) HnC)
            as Hc.
          fold C1 in Hc. congruence.
        - now apply mem_closing_self. }
      lia.
    + destruct fuel as [|fuel]; [lia|]. now apply walk_outside_graph.
Qed.

End WalkTermination.

(** At a turn of the walk on a node [n]:
    once the counter has reached [max_iterations] (3 when the crew declares
    none) the turn only makes [n] current, logs the forced completion and ends
    the walk; below the cap, a conditional transition that picks a node
    already in [completed_nodes] adds one to the counter and logs it, and one
    that picks any other node leaves the counter alone; a plain
    [transitions_to] never counts, whatever node it leads to.  Hence, when
    every node of the graph declares conditional transitions and the tools
    terminate, the walk comes to an end within a number of turns bounded by
    the nodes still to discover plus the loop-backs still allowed, even though
    no node is "END". *)
Lemma conditional_loop_backs_are_capped `{Collaborators}
    (agents_config : Dict.t AgentConfig.t) (TOOL_REGISTRY : Dict.t ToolInfo.t)
    (crew_config : CrewConfig.t) (fuel : nat) (n : string) (k : Z) (c : Ctx) :
  n <> "" -> n <> "END" ->
  ((max_iterations_of crew_config <= k)%Z ->
   graph_walk agents_config TOOL_REGISTRY (S fuel) crew_config (Some n) k c
   = (Ret tt,
      logged ("Maximum iterations (" ++ str_Z (max_iterations_of crew_config)
              ++ ") reached. Forcing completion.")
        (entered n c)))
  /\ (forall c1 transitions next c2,
        (k < max_iterations_of crew_config)%Z ->
        _execute_agent agents_config TOOL_REGISTRY n (entered n c) = (Ret tt, c1) ->
        quality_check crew_config n (st c1) = Ret false ->
        NodeConfig.conditional_transitions (node_config_of crew_config n)
        = Some transitions ->
        _handle_conditional_transitions n transitions crew_config (saved c1)
        = (Ret next, c2) ->
        graph_walk agents_config TOOL_REGISTRY (S fuel) crew_config (Some n) k c
        = if Py.mem next (AgentState.completed_nodes (st c2))
          then graph_walk agents_config TOOL_REGISTRY fuel crew_config (Some next)
                 (k + 1)
                 (logged ("Feedback loop iteration " ++ str_Z (k + 1)
                          ++ ": returning to " ++ next) c2)
          else graph_walk agents_config TOOL_REGISTRY fuel crew_config (Some next)
                 k c2)
  /\ (forall c1,
        (k < max_iterations_of crew_config)%Z ->
        _execute_agent agents_config TOOL_REGISTRY n (entered n c) = (Ret tt, c1) ->
        quality_check crew_config n (st c1) = Ret false ->
        NodeConfig.conditional_transitions (node_config_of crew_config n) = None ->
        graph_walk agents_config TOOL_REGISTRY (S fuel) crew_config (Some n) k c
        = graph_walk agents_config TOOL_REGISTRY fuel crew_config
            (NodeConfig.transitions_to (node_config_of crew_config n)) k (saved c1))
  /\ (tools_terminate TOOL_REGISTRY -> all_conditional crew_config ->
      forall turns,
        (walk_measure (Dict.keys (Graph.nodes (CrewConfig.graph crew_config)))
           n (st c)
         + budget crew_config k + 2 <= turns)%nat ->
        fst (graph_walk agents_config TOOL_REGISTRY turns crew_config (Some n) k c)
        <> Diverge).
Proof.
  intros Hne Hend. repeat split.
  - intros Hmax. rewrite walk_enters by assumption.
    apply Z.leb_le in Hmax. now rewrite Hmax.
  - intros c1 transitions next c2 Hk Hrun Hq Hcond Hroute.
    rewrite walk_enters by assumption.
    apply Z.leb_gt in Hk. now rewrite Hk, Hrun, Hq, Hcond, Hroute.
  - intros c1 Hk Hrun Hq Hcond.
    rewrite walk_enters by assumption.
    apply Z.leb_gt in Hk. now rewrite Hk, Hrun, Hq, Hcond.
  - intros Htools Hall turns Hturns.
    now apply conditional_walk_returns.
Qed.

Lemma writer_loop_is_capped :
  "writer" <> "" /\ "writer" <> "END"
  /\ (@graph_walk DemoFeedbackLoop.collaborators DemoFeedbackLoop.agents []
        (S 0) DemoFeedbackLoop.crew (Some "writer") 3 DemoFeedbackLoop.start
      = (Ret tt,
         logged "Maximum iterations (3) reached. Forcing completion."
           (entered "writer" DemoFeedbackLoop.start)))
  /\ fst (@graph_walk DemoFeedbackLoop.collaborators DemoFeedbackLoop.agents []
            8 DemoFeedbackLoop.crew (Some "writer") 0 DemoFeedbackLoop.start)
     <> Diverge.
Proof.
  assert (Hne : "writer" <> "") by discriminate.
  assert (Hend : "writer" <> "END") by discriminate.
  split; [exact Hne|]. split; [exact Hend|].
  destruct (@conditional_loop_backs_are_capped DemoFeedbackLoop.collaborators
              DemoFeedbackLoop.agents [] DemoFeedbackLoop.crew 0 "writer" 3
              DemoFeedbackLoop.start Hne Hend) as (Hstop & _ & _ & _).
  destruct (@conditional_loop_backs_are_capped DemoFeedbackLoop.collaborators
              DemoFeedbackLoop.agents [] DemoFeedbackLoop.crew 0 "writer" 0
              DemoFeedbackLoop.start Hne Hend) as (_ & _ & _ & Hterm).
  split.
  - apply Hstop. vm_compute. discriminate.
  - apply Hterm.
    + intros name tool_info kwargs w Hget. discriminate Hget.
    + intros node node_config Hget. cbn in Hget.
      destruct (String.eqb node "writer"); [|discriminate Hget].
      inversion Hget. discriminate.
    + vm_compute. lia.
Defined.

(** * Further properties of the code *)

From Stdlib Require Import Qpower.

(** ** The state record (agent_state.py) *)

Lemma dict_get_not_in_keys {V} (k : string) (d : Dict.t V) :
  ~ In k (Dict.keys d) -> Dict.get k d = None.
Proof.
  induction d as [|[k0 v0] d IH]; simpl; [reflexivity|].
  intros Hnot. destruct (String.eqb_spec k k0) as [->|_]; [tauto|].
  apply IH. tauto.
Qed.

(** X1. A result stored under an agent and a kind is what [get_result] reads
    back for them, and storing it changes what is read for no other agent or
    kind. *)
Theorem stored_result_is_read_back (hms agent_name result_type : string)
    (result : ResultValue) (s : AgentState.t) :
  AgentState.get_result agent_name result_type
    (AgentState.store_result hms agent_name result result_type s)
  = Some result
  /\ forall other_agent other_type,
       (other_agent, other_type) <> (agent_name, result_type) ->
       AgentState.get_result other_agent other_type
         (AgentState.store_result hms agent_name result result_type s)
       = AgentState.get_result other_agent other_type s.
Proof.
  unfold AgentState.get_result, AgentState.store_result. state_simpl. split.
  - now rewrite !dict_get_set_same.
  - intros a k Hne. destruct (String.eqb_spec a agent_name) as [->|Ha].
    + rewrite dict_get_set_same.
      assert (Hk : k <> result_type) by (intros ->; now apply Hne).
      rewrite (dict_get_set_other _ _ _ _ Hk).
      destruct (Dict.get agent_name (AgentState.results s)); reflexivity.
    + now rewrite (dict_get_set_other _ _ _ _ Ha).
Qed.

Lemma mem_true_iff (x : string) (l : list string) : Py.mem x l = true <-> In x l.
Proof.
  unfold Py.mem. rewrite existsb_exists. split.
  - intros (y & Hin & Heq). apply String.eqb_eq in Heq. now subst.
  - intros Hin. exists x. split; [assumption|apply String.eqb_refl].
Qed.

Lemma completed_nodes_set_current_node (hms node_name : string) (s : AgentState.t) :
  AgentState.completed_nodes (AgentState.set_current_node hms node_name s)
  = closing (AgentState.completed_nodes s) (AgentState.current_node s).
Proof.
  unfold AgentState.set_current_node, closing.
  destruct (AgentState.current_node s) as [c|];
    [destruct (negb (c =? "")%string && negb (Py.mem c (AgentState.completed_nodes s)))|];
    state_simpl;
    destruct (AgentState.task_plan s) as [[|? ?]|]; reflexivity.
Qed.

(** X2. Switching to a node keeps [completed_nodes] free of repetitions: no
    node is removed from the list, and the only node that can be added is the
    one being left. *)
Theorem completed_nodes_stay_distinct (hms node_name : string) (s : AgentState.t) :
  NoDup (AgentState.completed_nodes s) ->
  let s' := AgentState.set_current_node hms node_name s in
  NoDup (AgentState.completed_nodes s')
  /\ (forall x, In x (AgentState.completed_nodes s) ->
                In x (AgentState.completed_nodes s'))
  /\ (forall x, In x (AgentState.completed_nodes s') ->
                In x (AgentState.completed_nodes s)
                \/ AgentState.current_node s = Some x).
Proof.
  intros Hnodup s'. subst s'. rewrite completed_nodes_set_current_node.
  unfold closing. destruct (AgentState.current_node s) as [c|]; [|now auto].
  destruct (negb (c =? "")%string) eqn:Hc; cbn [andb]; [|now auto].
  destruct (Py.mem c (AgentState.completed_nodes s)) eqn:Hmem; cbn [negb];
    [now auto|].
  assert (Hnot : ~ In c (AgentState.completed_nodes s)).
  { intros Hin. apply mem_true_iff in Hin. congruence. }
  repeat split.
  - apply NoDup_app; [assumption|repeat constructor; intros []|].
    intros x Hx [<-|[]]. contradiction.
  - intros x Hx. apply in_or_app. now left.
  - intros x Hx. apply in_app_or in Hx as [Hx|[<-|[]]]; [now left|now right].
Qed.

Lemma completed_nodes_stay_distinct_witness :
  NoDup (AgentState.completed_nodes DemoResumeWalk.suspended)
  /\ NoDup (AgentState.completed_nodes
              (AgentState.set_current_node "2" "editor" DemoResumeWalk.suspended)).
Proof.
  assert (Hnodup : NoDup (AgentState.completed_nodes DemoResumeWalk.suspended)).
  { vm_compute. repeat constructor. intros []. }
  split; [exact Hnodup|].
  exact (proj1 (completed_nodes_stay_distinct "2" "editor"
                  DemoResumeWalk.suspended Hnodup)).
Defined.

Lemma last_app_one {A} (l : list A) (x : A) : PyList.last (l ++ [x]) = Some x.
Proof. unfold PyList.last. now rewrite rev_unit. Qed.

(** X3. When the node being left is not yet among the completed ones,
    [get_latest_result] after the switch is the output stored for that node;
    on a fresh state it is [None]. *)
Theorem latest_result_is_of_the_node_just_left (hms node_name left : string)
    (s : AgentState.t) :
  AgentState.current_node s = Some left ->
  left <> "" ->
  ~ In left (AgentState.completed_nodes s) ->
  AgentState.get_latest_result (AgentState.set_current_node hms node_name s)
  = AgentState.get_result left "output" s
  /\ forall fresh_id now crew_name goal,
       AgentState.get_latest_result
         (create_mission_state fresh_id now crew_name goal) = None.
Proof.
  intros Hcur Hne Hnot. split; [|reflexivity].
  unfold AgentState.get_latest_result.
  rewrite completed_nodes_set_current_node, Hcur. unfold closing.
  apply String.eqb_neq in Hne. rewrite Hne.
  assert (Hmem : Py.mem left (AgentState.completed_nodes s) = false).
  { destruct (Py.mem left _) eqn:Hm; [|reflexivity].
    apply mem_true_iff in Hm. contradiction. }
  rewrite Hmem. cbn [negb andb]. rewrite last_app_one.
  unfold AgentState.get_result, AgentState.set_current_node. rewrite Hcur, Hne, Hmem.
  cbn [negb andb]. state_simpl.
  destruct (AgentState.task_plan s) as [[|? ?]|]; reflexivity.
Qed.

Lemma latest_result_is_of_the_node_just_left_witness :
  AgentState.current_node DemoResumeWalk.suspended = Some "writer"
  /\ "writer" <> ""
  /\ ~ In "writer" (AgentState.completed_nodes DemoResumeWalk.suspended)
  /\ AgentState.get_latest_result
       (AgentState.set_current_node "2" "editor" DemoResumeWalk.suspended)
     = AgentState.get_result "writer" "output" DemoResumeWalk.suspended.
Proof.
  assert (Hcur : AgentState.current_node DemoResumeWalk.suspended = Some "writer")
    by reflexivity.
  assert (Hne : "writer" <> "") by discriminate.
  assert (Hnot : ~ In "writer" (AgentState.completed_nodes DemoResumeWalk.suspended)).
  { vm_compute. intros [H|[]]. discriminate H. }
  split; [exact Hcur|]. split; [exact Hne|]. split; [exact Hnot|].
  exact (proj1 (latest_result_is_of_the_node_just_left "2" "editor" "writer"
                  DemoResumeWalk.suspended Hcur Hne Hnot)).
Defined.

Lemma dict_get_update {V} (k : string) (other d : Dict.t V) :
  NoDup (Dict.keys other) ->
  Dict.get k (Dict.update d other)
  = match Dict.get k other with
    | Some v => Some v
    | None => Dict.get k d
    end.
Proof.
  unfold Dict.update. revert d.
  induction other as [|[k0 v0] other IH]; intros d Hnodup; [reflexivity|].
  inversion Hnodup as [|? ? Hnot Hrest]; subst.
  cbn [fold_left fst snd]. rewrite (IH _ Hrest). cbn [Dict.get].
  destruct (String.eqb_spec k k0) as [->|Hk].
  - rewrite (dict_get_not_in_keys _ _ Hnot). apply dict_get_set_same.
  - now rewrite (dict_get_set_other _ _ _ _ Hk).
Qed.

(** X4. [merge_states] gives the primary state the intermediate data of the
    secondary one, whose value wins on a shared key, and appends the
    secondary history to its own; percentage, status, results, completed
    nodes and error messages of the secondary state are not merged. *)
Theorem merge_states_lets_secondary_data_win (primary secondary : AgentState.t) :
  NoDup (Dict.keys (AgentState.intermediate_data secondary)) ->
  let merged := StateManager.merge_states primary secondary in
  (forall k,
      Dict.get k (AgentState.intermediate_data merged)
      = match Dict.get k (AgentState.intermediate_data secondary) with
        | Some v => Some v
        | None => Dict.get k (AgentState.intermediate_data primary)
        end)
  /\ AgentState.history merged
     = (AgentState.history primary ++ AgentState.history secondary)%list
  /\ AgentState.results merged = AgentState.results primary
  /\ AgentState.status merged = AgentState.status primary
  /\ AgentState.completed_nodes merged = AgentState.completed_nodes primary
  /\ AgentState.error_messages merged = AgentState.error_messages primary
  /\ AgentState.progress_percentage merged
     = AgentState.progress_percentage primary.
Proof.
  intros Hnodup merged. subst merged. unfold StateManager.merge_states.
  cbn [AgentState.intermediate_data AgentState.history AgentState.results
       AgentState.status AgentState.completed_nodes AgentState.error_messages
       AgentState.progress_percentage AgentState.set_history
       AgentState.set_intermediate_data].
  split; [|repeat split].
  intros k. now apply dict_get_update.
Qed.

Lemma merge_states_lets_secondary_data_win_witness :
  NoDup (Dict.keys (AgentState.intermediate_data DemoMerge.secondary))
  /\ Dict.get "draft"
       (AgentState.intermediate_data
          (StateManager.merge_states DemoMerge.primary DemoMerge.secondary))
     = Some (JStr "second")
  /\ Dict.get "notes"
       (AgentState.intermediate_data
          (StateManager.merge_states DemoMerge.primary DemoMerge.secondary))
     = Some (JStr "kept").
Proof.
  assert (Hnodup : NoDup (Dict.keys (AgentState.intermediate_data
                                       DemoMerge.secondary))).
  { change (NoDup ["draft"]). constructor; [intros []|constructor]. }
  split; [exact Hnodup|].
  destruct (merge_states_lets_secondary_data_win DemoMerge.primary
              DemoMerge.secondary Hnodup) as (Hget & _).
  split; [exact (Hget "draft")|exact (Hget "notes")].
Defined.

(** ** Routing (data_models.py, agent_orchestrator.py) *)

(** X5. The legacy property [next_agent] of a quality verdict names the node
    to which the deterministic router sends the mission for that verdict,
    whatever transitions are declared. *)
Theorem legacy_next_agent_agrees_with_router `{Collaborators}
    (qa : QualityAssessment.t) (transitions : option (list Transition.t))
    (c : Ctx) :
  fst (_handle_quality_assessment_routing qa transitions c)
  = Ret (QualityAssessment.next_agent qa).
Proof.
  unfold _handle_quality_assessment_routing.
  destruct (route_recommendation_known qa c) as (c' & entries & Hrun & _).
  rewrite Hrun. cbn [fst]. unfold QualityAssessment.next_agent, table_target.
  reflexivity.
Qed.

Lemma first_target_declared (transitions : list Transition.t) :
  transitions <> [] ->
  In (first_target transitions) (map Transition.target transitions).
Proof. destruct transitions as [|t rest]; [congruence|]. intros _. now left. Qed.

Lemma parse_routing_response_declared (response : string)
    (transitions : list Transition.t) :
  transitions <> [] ->
  In (_parse_routing_response response transitions)
     (map Transition.target transitions).
Proof.
  intros Hne. unfold _parse_routing_response.
  destruct (find _ (map _ transitions)) as [target|];
    [|now apply first_target_declared].
  destruct (find _ transitions) as [t|] eqn:Hfind;
    [|now apply first_target_declared].
  apply find_some in Hfind as [Hin _]. now apply in_map.
Qed.

Lemma find_first {A} (p : A -> bool) (before : list A) (x : A) (after : list A) :
  (forall y, In y before -> p y = false) -> p x = true ->
  find p (before ++ x :: after) = Some x.
Proof.
  intros Hbefore Hx. induction before as [|y before IH]; cbn [app find].
  - now rewrite Hx.
  - rewrite (Hbefore y (or_introl eq_refl)). apply IH.
    intros z Hz. apply Hbefore. now right.
Qed.

Lemma parse_routing_response_first_named (response : string)
    (before : list Transition.t) (t : Transition.t) (after : list Transition.t) :
  (forall t', In t' before ->
              Py.contains (Py.lower (Transition.target t'))
                (Py.lower (Py.strip response)) = false) ->
  Py.contains (Py.lower (Transition.target t)) (Py.lower (Py.strip response)) = true ->
  _parse_routing_response response (before ++ t :: after) = Transition.target t.
Proof.
  intros Hbefore Hnamed. unfold _parse_routing_response.
  rewrite map_app. cbn [map].
  rewrite (find_first (fun target => Py.contains target (Py.lower (Py.strip response)))
             (map (fun t0 => Py.lower (Transition.target t0)) before)
             (Py.lower (Transition.target t))).
  - rewrite (find_first
               (fun t0 => String.eqb (Py.lower (Transition.target t0))
                            (Py.lower (Transition.target t)))
               before t after); [reflexivity| |apply String.eqb_refl].
    intros t' Hin. apply String.eqb_neq. intros Heq.
    pose proof (Hbefore t' Hin) as Hnot. rewrite Heq, Hnamed in Hnot.
    discriminate Hnot.
  - intros target Hin. apply in_map_iff in Hin as (t' & <- & Hin).
    now apply Hbefore.
  - exact Hnamed.
Qed.

(** X6. The legacy router's reading of the supervisor's reply always yields a
    declared target, and "END" when none is declared.  The declared targets
    are tried in the order of their declaration, each as a substring of the
    lower-cased reply, and the first that occurs is chosen: a target named
    in the reply is chosen exactly when no target declared before it occurs
    in the reply, whatever the reply names after it.  When no declared
    target occurs the first one is chosen. *)
Theorem routing_reply_selects_a_declared_target (response : string) :
  _parse_routing_response response [] = "END"
  /\ (forall t rest,
        In (_parse_routing_response response (t :: rest))
           (map Transition.target (t :: rest)))
  /\ (forall before t after,
        (forall t', In t' before ->
                    Py.contains (Py.lower (Transition.target t'))
                      (Py.lower (Py.strip response)) = false) ->
        Py.contains (Py.lower (Transition.target t))
          (Py.lower (Py.strip response)) = true ->
        _parse_routing_response response (before ++ t :: after)
        = Transition.target t)
  /\ (forall t rest,
        (forall t', In t' (t :: rest) ->
                    Py.contains (Py.lower (Transition.target t'))
                      (Py.lower (Py.strip response)) = false) ->
        _parse_routing_response response (t :: rest) = Transition.target t).
Proof.
  split; [reflexivity|]. split; [|split].
  - intros t rest. now apply parse_routing_response_declared.
  - intros before t after. apply parse_routing_response_first_named.
  - intros t rest Hnone. unfold _parse_routing_response.
    destruct (find _ (map _ (t :: rest))) as [target|] eqn:Hfind; [|reflexivity].
    apply find_some in Hfind as [Hin Hocc].
    apply in_map_iff in Hin as (t' & <- & Hin').
    rewrite (Hnone t' Hin') in Hocc. discriminate.
Qed.

(** X7. For a node that declares a list of conditional transitions and whose
    output is not a quality verdict, the legacy router always answers.  When
    the supervisor replies, the answer is what [_parse_routing_response]
    reads from the reply; when the supervisor cannot be reached, the answer
    is the first declared target, logged as a routing fallback, or "END"
    when the list is empty, and the mission does not fail.  The answer is a
    declared target unless the list is empty; status, error messages, the
    pending human request and the repository are left as they are. *)
Theorem legacy_router_always_answers `{Collaborators} (current_agent : string)
    (transitions : list Transition.t) (crew_config : CrewConfig.t) (c : Ctx) :
  let asked :=
    bridge_message (AgentState.mission_id (st c) ++ "_routing")
      (supervisor_of crew_config)
      (_create_routing_prompt (st c) current_agent
         (AgentState.get_result current_agent "output" (st c)) transitions)
      (world c) in
  exists next c',
    _handle_legacy_conditional_transitions current_agent (Some transitions)
      crew_config c = (Ret next, c')
    /\ (In next (map Transition.target transitions)
        \/ (transitions = [] /\ next = "END"))
    /\ mission_untouched c c'
    /\ world c' = snd asked
    /\ match fst asked with
       | inl routing_response =>
           next = _parse_routing_response routing_response transitions
           /\ AgentState.history (st c')
              = (AgentState.history (st c)
                 ++ [AgentState.entry (strftime_hms (now (snd asked)))
                       ("Legacy Supervisor routing: " ++ current_agent
                        ++ " -> " ++ next)])%list
       | inr _ =>
           match transitions with
           | first :: _ =>
               next = Transition.target first
               /\ AgentState.history (st c')
                  = (AgentState.history (st c)
                     ++ [AgentState.entry (strftime_hms (now (snd asked)))
                           ("Routing fallback: " ++ current_agent ++ " -> "
                            ++ Transition.target first)])%list
           | [] =>
               next = "END"
               /\ AgentState.history (st c') = AgentState.history (st c)
           end
       end.
Proof.
  intros asked. subst asked.
  unfold _handle_legacy_conditional_transitions. mstep. unfold bridge.
  cbn [st repo world].
  destruct (bridge_message _ _ _ (world c)) as [[text | err] w]; mstep.
  - do 2 eexists. split; [reflexivity|]. split; [|split; [|split]].
    + destruct transitions as [|t rest]; [right; now split|left].
      now apply parse_routing_response_declared.
    + unfold mission_untouched. state_simpl. repeat split.
    + reflexivity.
    + cbn [fst snd]. state_simpl. split; reflexivity.
  - destruct transitions as [|t rest]; mstep;
      do 2 eexists; (split; [reflexivity|]); (split; [|split; [|split]]).
    + right. now split.
    + unfold mission_untouched. state_simpl. repeat split.
    + reflexivity.
    + cbn [fst snd]. state_simpl. split; reflexivity.
    + left. now left.
    + unfold mission_untouched. state_simpl. repeat split.
    + reflexivity.
    + cbn [fst snd]. state_simpl. split; reflexivity.
Qed.

(** ** Planning *)



(** ** Crews as the API hands them over (config/schema.py, api/main.py) *)

Lemma plain_node_is_valid (values : Schema.NodeConfig) (target : string) :
  Schema.transitions_to values = Some target -> target <> "" ->
  Schema.conditional_transitions values = None ->
  Schema.check_transitions values = Ret values.
Proof.
  intros Hto Hne Hcond. unfold Schema.check_transitions,
    Schema.has_transitions_to, Schema.has_conditional_transitions.
  rewrite Hto, Hcond. apply String.eqb_neq in Hne. rewrite Hne. reflexivity.
Qed.

(** X9. A node written with [transitions_to] alone passes the validation of
    [NodeConfig], and its dump holds the key [conditional_transitions] with
    the value [None].  On a crew dumped that way the walk takes the
    conditional branch after the node's agent: unless the agent's output is
    a quality verdict, the routing fails with the [TypeError] of iterating
    over [None], whatever [transitions_to] names. *)
Theorem dumped_plain_node_fails_the_walk `{Collaborators}
    (agents_config : Dict.t AgentConfig.t) (TOOL_REGISTRY : Dict.t ToolInfo.t)
    (fuel : nat) (crew_config : CrewConfig.t) (node_name target : string)
    (iteration_count : Z) (values : Schema.NodeConfig) (c c1 : Ctx) :
  node_name <> "" -> node_name <> "END" ->
  Schema.transitions_to values = Some target -> target <> "" ->
  Schema.conditional_transitions values = None ->
  Dict.get node_name (Graph.nodes (CrewConfig.graph crew_config))
  = Some (Schema.NodeConfig_model_dump values) ->
  (iteration_count < max_iterations_of crew_config)%Z ->
  _execute_agent agents_config TOOL_REGISTRY node_name (entered node_name c)
  = (Ret tt, c1) ->
  as_quality (AgentState.get_result node_name "output" (st c1)) = None ->
  quality_check crew_config node_name (st c1) = Ret false ->
  Schema.check_transitions values = Ret values
  /\ graph_walk agents_config TOOL_REGISTRY (S fuel) crew_config (Some node_name)
       iteration_count c
     = (Raise (PyException "TypeError" "'NoneType' object is not iterable"),
        saved c1).
Proof.
  intros Hne Hend Hto Htarget Hcond Hnode Hiter Hrun Hout Hquality.
  split; [exact (plain_node_is_valid values target Hto Htarget Hcond)|].
  rewrite (walk_enters agents_config TOOL_REGISTRY fuel crew_config node_name
             iteration_count c Hne Hend).
  apply Z.leb_gt in Hiter. rewrite Hiter, Hrun, Hquality.
  unfold node_config_of. rewrite Hnode.
  unfold Schema.NodeConfig_model_dump. cbn [NodeConfig.conditional_transitions].
  rewrite Hcond. unfold _handle_conditional_transitions. mstep.
  change (st (saved c1)) with (st c1). rewrite Hout.
  unfold _handle_legacy_conditional_transitions. mstep. reflexivity.
Qed.

Lemma dumped_plain_node_fails_the_walk_witness :
  Dict.get "researcher" (Graph.nodes (CrewConfig.graph DemoSolo.dumped_crew))
  = Some (Schema.NodeConfig_model_dump DemoDumpedNode.values)
  /\ fst (@graph_walk DemoSolo.collaborators DemoSolo.agents [] 1
            DemoSolo.dumped_crew (Some "researcher") 0 DemoDumpedNode.start)
     = Raise (PyException "TypeError" "'NoneType' object is not iterable").
Proof.
  assert (Hnode : Dict.get "researcher"
                    (Graph.nodes (CrewConfig.graph DemoSolo.dumped_crew))
                  = Some (Schema.NodeConfig_model_dump DemoDumpedNode.values))
    by reflexivity.
  split; [exact Hnode|].
  assert (Hrun : @_execute_agent DemoSolo.collaborators DemoSolo.agents []
                   "researcher" (entered "researcher" DemoDumpedNode.start)
                 = (Ret tt, DemoDumpedNode.answered)).
  { unfold DemoDumpedNode.answered. apply pair_of_fst. vm_compute. reflexivity. }
  assert (Hne : "researcher" <> "") by discriminate.
  assert (Hend : "researcher" <> "END") by discriminate.
  assert (Htarget : "END" <> "") by discriminate.
  assert (Hiter : (0 < max_iterations_of DemoSolo.dumped_crew)%Z) by reflexivity.
  assert (Hout : as_quality (AgentState.get_result "researcher" "output"
                               (st DemoDumpedNode.answered)) = None)
    by (vm_compute; reflexivity).
  assert (Hquality : quality_check DemoSolo.dumped_crew "researcher"
                       (st DemoDumpedNode.answered) = Ret false)
    by reflexivity.
  rewrite (proj2 (@dumped_plain_node_fails_the_walk DemoSolo.collaborators
                    DemoSolo.agents [] 0 DemoSolo.dumped_crew "researcher" "END"
                    0 DemoDumpedNode.values DemoDumpedNode.start
                    DemoDumpedNode.answered Hne Hend eq_refl Htarget eq_refl
                    Hnode Hiter Hrun Hout Hquality)).
  reflexivity.
Defined.

(** ** The record of a mission from its creation to its outcome *)

Lemma extends_refl {A} (l : list A) : extends l l.
Proof. exists []. now rewrite app_nil_r. Qed.

Lemma extends_trans {A} (l1 l2 l3 : list A) :
  extends l1 l2 -> extends l2 l3 -> extends l1 l3.
Proof. intros [t1 ->] [t2 ->]. exists (t1 ++ t2)%list. now rewrite app_assoc. Qed.

Lemma extends_app {A} (l tail : list A) : extends l (l ++ tail).
Proof. now exists tail. Qed.

Lemma record_grows_refl (s : AgentState.t) : record_grows s s.
Proof. unfold record_grows. repeat split; apply extends_refl. Qed.

Lemma record_grows_trans (s1 s2 s3 : AgentState.t) :
  record_grows s1 s2 -> record_grows s2 s3 -> record_grows s1 s3.
Proof.
  intros (H1 & H2 & H3 & H4 & H5 & H6 & H7) (G1 & G2 & G3 & G4 & G5 & G6 & G7).
  unfold record_grows. repeat split; try congruence;
    eapply extends_trans; eassumption.
Qed.

Ltac extended :=
  first [ apply extends_refl
        | eapply extends_trans; [|apply extends_app]; extended ].

(** Closes [record_grows s s'] where [s'] is [s] with fields set. *)
Ltac grown :=
  unfold record_grows; state_simpl;
  repeat match goal with
         | |- _ /\ _ => split
         | |- _ = _ => reflexivity
         | |- extends _ _ => extended
         end.

Lemma record_grows_set_current_node (hms node_name : string) (s : AgentState.t) :
  record_grows s (AgentState.set_current_node hms node_name s).
Proof.
  unfold AgentState.set_current_node.
  destruct (AgentState.current_node s) as [c|];
    [destruct (negb (c =? "")%string && negb (Py.mem c (AgentState.completed_nodes s)))|];
    state_simpl; destruct (AgentState.task_plan s) as [[|? ?]|]; grown.
Qed.

Lemma record_grows_complete_execution (now : Z) (hms : string) (s : AgentState.t) :
  record_grows s (AgentState.complete_execution now hms s).
Proof.
  unfold AgentState.complete_execution. state_simpl.
  destruct (AgentState.started_at s); grown.
Qed.

Section RecordKept.

Context `{Collab : Collaborators}.
Variable agents_config : Dict.t AgentConfig.t.
Variable crews_config : Dict.t CrewConfig.t.
Variable TOOL_REGISTRY : Dict.t ToolInfo.t.

Lemma keeps_bind {A B} (m : M A) (k : A -> M B) :
  keeps_record m -> (forall a, keeps_record (k a)) -> keeps_record (bind m k).
Proof.
  intros Hm Hk c. unfold bind. specialize (Hm c).
  destruct (m c) as [[a | e |] c1]; cbn [fst snd] in *; try exact Hm.
  eapply record_grows_trans; [exact Hm|apply Hk].
Qed.

Lemma keeps_ret {A} (a : A) : keeps_record (ret a).
Proof. intros c. apply record_grows_refl. Qed.

Lemma keeps_raise {A} (e : Exn) : keeps_record (raise (A:=A) e).
Proof. intros c. apply record_grows_refl. Qed.

Lemma keeps_lift {A} (r : Res A) : keeps_record (lift r).
Proof. intros c. apply record_grows_refl. Qed.

Lemma keeps_get_state : keeps_record get_state.
Proof. intros c. apply record_grows_refl. Qed.

Lemma keeps_add_history (message : string) : keeps_record (add_history message).
Proof. intros c. unfold add_history. cbn [snd st]. grown. Qed.

Lemma keeps_store_result (a : string) (r : ResultValue) (k : string) :
  keeps_record (store_result a r k).
Proof.
  intros c. unfold store_result, AgentState.store_result. cbn [snd st]. grown.
Qed.

Lemma keeps_save : keeps_record save.
Proof. intros c. apply record_grows_refl. Qed.

Lemma keeps_set_status (v : string) : keeps_record (modify (AgentState.set_status v)).
Proof. intros c. unfold modify. cbn [snd st]. grown. Qed.

Lemma keeps_set_active_human_request (v : option HumanRequest.t) :
  keeps_record (modify (AgentState.set_active_human_request v)).
Proof. intros c. unfold modify. cbn [snd st]. grown. Qed.

Lemma keeps_set_task_plan (v : option (list TaskPlan.t)) :
  keeps_record (modify (AgentState.set_task_plan v)).
Proof. intros c. unfold modify. cbn [snd st]. grown. Qed.

Lemma keeps_set_current_node (node_name : string) :
  keeps_record (set_current_node node_name).
Proof.
  intros c. unfold set_current_node. cbn [snd st].
  apply record_grows_set_current_node.
Qed.

Lemma keeps_start_execution : keeps_record start_execution.
Proof.
  intros c. unfold start_execution, AgentState.start_execution. cbn [snd st]. grown.
Qed.

Lemma keeps_complete_execution : keeps_record complete_execution.
Proof.
  intros c. unfold complete_execution. cbn [snd st].
  apply record_grows_complete_execution.
Qed.

Lemma keeps_mark_error (error_message : string) :
  keeps_record (mark_error error_message).
Proof.
  intros c. unfold mark_error, AgentState.mark_error. cbn [snd st]. grown.
Qed.

Lemma keeps_bridge (conversation_id target message : string) :
  keeps_record (bridge conversation_id target message).
Proof.
  intros c. unfold bridge.
  destruct (bridge_message conversation_id target message (world c)) as [[t | err] w];
    apply record_grows_refl.
Qed.

Lemma keeps_try_except {A} (body : M A) (on_signal : HumanRequest.t -> M A)
    (on_exception : Exn -> M A) :
  keeps_record body -> (forall r, keeps_record (on_signal r)) ->
  (forall e, keeps_record (on_exception e)) ->
  keeps_record (try_except body on_signal on_exception).
Proof.
  intros Hb Hs He c. unfold try_except. specialize (Hb c).
  destruct (body c) as [[a | e |] c1]; cbn [fst snd] in *; try exact Hb.
  destruct e as [r | msg | cls msg];
    (eapply record_grows_trans; [exact Hb|]); [apply Hs|apply He|apply He].
Qed.

Lemma keeps_try_except_signal {A} (body : M A) (on_signal : HumanRequest.t -> M A) :
  keeps_record body -> (forall r, keeps_record (on_signal r)) ->
  keeps_record (try_except_signal body on_signal).
Proof.
  intros Hb Hs c. unfold try_except_signal. specialize (Hb c).
  destruct (body c) as [[a | e |] c1]; cbn [fst snd] in *; try exact Hb.
  destruct e as [r | msg | cls msg]; try exact Hb.
  eapply record_grows_trans; [exact Hb|apply Hs].
Qed.

Lemma keeps_try_except_Exception {A} (body : M A) (on_exception : Exn -> M A) :
  keeps_record body -> (forall e, keeps_record (on_exception e)) ->
  keeps_record (try_except_Exception body on_exception).
Proof.
  intros Hb He c. unfold try_except_Exception. specialize (Hb c).
  destruct (body c) as [[a | e |] c1]; cbn [fst snd] in *; try exact Hb.
  eapply record_grows_trans; [exact Hb|apply He].
Qed.

End RecordKept.

Create HintDb record.
#[export] Hint Resolve keeps_ret keeps_raise keeps_lift keeps_get_state
  keeps_add_history keeps_store_result keeps_save keeps_set_status
  keeps_set_active_human_request keeps_set_task_plan keeps_set_current_node
  keeps_start_execution keeps_complete_execution keeps_mark_error
  keeps_bridge : record.

(** Closes [keeps_record m] for an [m] built from the steps above. *)
Ltac recorded :=
  solve [ repeat (apply keeps_bind; [|intros ?]); auto with record ].

Section RecordOfAMission.

Context `{Collab : Collaborators}.
Variable agents_config : Dict.t AgentConfig.t.
Variable crews_config : Dict.t CrewConfig.t.
Variable TOOL_REGISTRY : Dict.t ToolInfo.t.

Lemma keeps_call_tool (tool_info : ToolInfo.t) (tool_args : JSON) :
  keeps_record (call_tool tool_info tool_args).
Proof.
  intros c. unfold call_tool.
  destruct tool_args as [ | b | q | s | l | kwargs]; try apply record_grows_refl.
  destruct (ToolInfo.function tool_info kwargs (world c)) as [r w].
  apply record_grows_refl.
Qed.

Lemma keeps_execute_tool_call_try (tool_call_response agent_name : string) :
  keeps_record (_execute_tool_call_try TOOL_REGISTRY tool_call_response agent_name).
Proof.
  unfold _execute_tool_call_try.
  destruct (json_loads (Py.strip tool_call_response)) as [tool_call | msg];
    [|auto with record].
  destruct tool_call as [ | b | q | s | l | tool_call]; auto with record.
  destruct (Dict.get "tool_name" tool_call) as [tool_name|]; [|auto with record].
  destruct tool_name as [ | b | q | name | l | d]; auto with record.
  destruct (Dict.get name TOOL_REGISTRY) as [tool_info|]; [|auto with record].
  apply keeps_bind; [auto with record|]. intros _.
  apply keeps_bind; [auto with record|]. intros tool_args.
  apply keeps_bind; [apply keeps_call_tool|]. intros result. recorded.
Qed.

Lemma keeps_execute_tool_call (tool_call_response agent_name : string) :
  keeps_record (_execute_tool_call TOOL_REGISTRY tool_call_response agent_name).
Proof.
  intros c. unfold _execute_tool_call.
  pose proof (keeps_execute_tool_call_try tool_call_response agent_name c) as Ht.
  destruct (_execute_tool_call_try TOOL_REGISTRY tool_call_response agent_name c)
    as [[j | e |] c1]; cbn [fst snd] in Ht; try exact Ht.
  destruct e as [request | msg | cls msg]; mstep; cbn [snd st];
    (eapply record_grows_trans; [exact Ht|grown]).
Qed.

Lemma keeps_tool_use_loop (remaining tool_call_count : nat) (agent_name : string)
    (agent_config : AgentConfig.t) (initial_prompt current_prompt : string) :
  keeps_record (tool_use_loop TOOL_REGISTRY remaining tool_call_count agent_name
                  agent_config initial_prompt current_prompt).
Proof.
  revert tool_call_count current_prompt.
  induction remaining as [|remaining IH]; intros tool_call_count current_prompt;
    cbn [tool_use_loop].
  - recorded.
  - apply keeps_bind; [auto with record|]. intros state.
    apply keeps_bind; [auto with record|]. intros llm_response.
    destruct (_is_tool_call llm_response); [|recorded].
    apply keeps_bind; [apply keeps_execute_tool_call|]. intros tool_result.
    apply keeps_bind; [auto with record|]. intros _. apply IH.
Qed.

Lemma keeps_run_and_store (agent_name : string) (agent_config : AgentConfig.t)
    (prompt : string) :
  keeps_record (run_and_store TOOL_REGISTRY agent_name agent_config prompt).
Proof.
  unfold run_and_store. apply keeps_bind; [|intros; recorded].
  unfold _execute_agent_with_tools.
  destruct (AgentConfig.tools agent_config); [recorded|apply keeps_tool_use_loop].
Qed.

Lemma keeps_execute_agent (agent_name : string) :
  keeps_record (_execute_agent agents_config TOOL_REGISTRY agent_name).
Proof.
  unfold _execute_agent.
  destruct (Dict.get agent_name agents_config) as [agent_config|];
    [|auto with record].
  apply keeps_bind; [auto with record|]. intros state.
  apply keeps_bind.
  { destruct (_find_task_for_agent state agent_name); recorded. }
  intros task_description. apply keeps_bind; [auto with record|]. intros state'.
  apply keeps_try_except.
  - apply keeps_bind; [auto with record|]. intros _.
    apply keeps_bind; [apply keeps_run_and_store|]. intros _. auto with record.
  - intros r. auto with record.
  - intros e. recorded.
Qed.

Lemma keeps_continue_agent (agent_name human_response : string) :
  keeps_record (_continue_agent_with_human_response agents_config TOOL_REGISTRY
                  agent_name human_response).
Proof.
  unfold _continue_agent_with_human_response.
  destruct (Dict.get agent_name agents_config) as [agent_config|];
    [|auto with record].
  apply keeps_bind; [auto with record|]. intros state.
  apply keeps_try_except.
  - apply keeps_bind; [auto with record|]. intros _.
    apply keeps_bind; [apply keeps_run_and_store|]. intros _. auto with record.
  - intros r. auto with record.
  - intros e. recorded.
Qed.

Lemma keeps_route_recommendation (recommendation : string)
    (qa : QualityAssessment.t) :
  keeps_record (route_recommendation recommendation qa).
Proof.
  unfold route_recommendation.
  destruct (Dict.get recommendation recommendation_to_target) as [target|];
    [|recorded].
  destruct (negb (String.eqb target "")); [|recorded].
  apply keeps_bind; [auto with record|]. intros _.
  apply keeps_bind; [|intros; auto with record].
  destruct (QualityAssessment.issues_found qa); auto with record.
Qed.

Lemma keeps_handle_conditional_transitions (current_agent : string)
    (transitions : option (list Transition.t)) (crew_config : CrewConfig.t) :
  keeps_record (_handle_conditional_transitions current_agent transitions
                  crew_config).
Proof.
  unfold _handle_conditional_transitions.
  apply keeps_bind; [auto with record|]. intros state.
  destruct (as_quality _) as [qa|]; [apply keeps_route_recommendation|].
  unfold _handle_legacy_conditional_transitions.
  apply keeps_bind; [auto with record|]. intros state'.
  destruct transitions as [transitions|]; [|auto with record].
  apply keeps_try_except_Exception; [recorded|].
  intros e. destruct transitions; recorded.
Qed.

Lemma keeps_graph_walk (fuel : nat) (crew_config : CrewConfig.t)
    (current_node : option string) (iteration_count : Z) :
  keeps_record (graph_walk agents_config TOOL_REGISTRY fuel crew_config
                  current_node iteration_count).
Proof.
  revert current_node iteration_count.
  induction fuel as [|fuel IH]; intros current_node iteration_count;
    destruct current_node as [current_node|]; cbn [graph_walk];
    auto with record;
    destruct (String.eqb current_node "" || String.eqb current_node "END");
    auto with record.
  apply keeps_bind; [auto with record|]. intros _.
  destruct (max_iterations_of crew_config <=? iteration_count)%Z;
    [auto with record|].
  apply keeps_bind.
  { apply keeps_try_except_signal.
    - apply keeps_bind; [apply keeps_execute_agent|]. intros _. auto with record.
    - intros r. recorded. }
  intros _. apply keeps_bind; [auto with record|]. intros state.
  apply keeps_bind.
  { destruct (Py.contains "qa" (Py.lower current_node)); auto with record. }
  intros quality_reached. destruct quality_reached; [auto with record|].
  destruct (NodeConfig.conditional_transitions _) as [transitions|]; [|apply IH].
  apply keeps_bind; [apply keeps_handle_conditional_transitions|].
  intros next_node. apply keeps_bind; [auto with record|]. intros state'.
  destruct (Py.mem next_node (AgentState.completed_nodes state')); [|apply IH].
  apply keeps_bind; [auto with record|]. intros _. apply IH.
Qed.

Lemma keeps_execution_phase (fuel : nat) (crew_config : CrewConfig.t) :
  keeps_record (_execution_phase agents_config TOOL_REGISTRY fuel crew_config).
Proof.
  unfold _execution_phase. apply keeps_bind; [auto with record|]. intros _.
  apply keeps_bind; [apply keeps_graph_walk|]. intros _. auto with record.
Qed.

Lemma keeps_planning_phase (crew_config : CrewConfig.t) (parameters : option JSON) :
  keeps_record (_planning_phase agents_config crew_config parameters).
Proof.
  unfold _planning_phase. apply keeps_bind; [auto with record|]. intros _.
  apply keeps_bind; [auto with record|]. intros _.
  apply keeps_bind; [auto with record|]. intros state.
  apply keeps_try_except_Exception; [recorded|]. intros e. auto with record.
Qed.

Lemma keeps_synthesis_phase (crew_config : CrewConfig.t) :
  keeps_record (_synthesis_phase crew_config).
Proof.
  unfold _synthesis_phase. apply keeps_bind; [auto with record|]. intros _.
  apply keeps_bind; [auto with record|]. intros state.
  apply keeps_try_except_Exception; [recorded|]. intros e. auto with record.
Qed.

Lemma keeps_execute_mission_try (fuel : nat) (crew_config : CrewConfig.t)
    (parameters : option JSON) :
  keeps_record (execute_mission_try agents_config TOOL_REGISTRY fuel crew_config
                  parameters).
Proof.
  unfold execute_mission_try.
  apply keeps_bind; [apply keeps_planning_phase|]. intros _.
  apply keeps_bind; [auto with record|]. intros _.
  apply keeps_bind; [apply keeps_execution_phase|]. intros _.
  apply keeps_bind; [apply keeps_synthesis_phase|]. intros _. recorded.
Qed.

End RecordOfAMission.

(** X10. Whenever [execute_mission] ends for a registered crew, the repository
    holds under the mission's identifier the very state the mission ended in.
    When a state is returned it is that state, either COMPLETED or suspended
    on a pending human request; when an exception is raised the stored state
    is in ERROR with a recorded message.  Identifier, crew, goal and creation
    instant are those the mission was created with, and its history begins
    with the entry of its creation: nothing the planner, the agents, the
    tools, the router or the synthesis do rewrites them. *)
Theorem mission_outcome_is_saved_and_keeps_its_record `{Collaborators}
    (agents_config : Dict.t AgentConfig.t) (crews_config : Dict.t CrewConfig.t)
    (TOOL_REGISTRY : Dict.t ToolInfo.t) (fuel : nat)
    (fresh_id crew_name goal : string) (parameters : option JSON)
    (repository : Repository.t) (w : World) (crew_config : CrewConfig.t) :
  Dict.get crew_name crews_config = Some crew_config ->
  let outcome :=
    execute_mission agents_config crews_config TOOL_REGISTRY fuel fresh_id
      crew_name goal parameters (Some repository) w in
  result outcome <> Diverge ->
  exists s,
    stored_state fresh_id outcome = Some s
    /\ settled_as outcome s
    /\ record_grows (create_mission_state fresh_id (now w) crew_name goal) s
    /\ exists later,
         AgentState.history s
         = AgentState.entry (strftime_hms (now w))
             ("Mission '" ++ fresh_id ++ "' created.") :: later.
Proof.
  intros Hcrew outcome Hends. subst outcome. revert Hends.
  unfold execute_mission. rewrite Hcrew.
  set (c1 := new_mission fresh_id crew_name goal repository w).
  assert (Hc1 : record_grows (create_mission_state fresh_id (now w) crew_name goal)
                  (st c1)
                /\ AgentState.history (st c1)
                   = [AgentState.entry (strftime_hms (now w))
                        ("Mission '" ++ fresh_id ++ "' created.")]).
  { subst c1. unfold new_mission. mstep. cbn [snd st]. split; [grown|reflexivity]. }
  destruct Hc1 as [Hcreated Hfirst].
  pose proof (keeps_execute_mission_try agents_config TOOL_REGISTRY fuel
                crew_config parameters c1) as Hkept.
  pose proof (execute_mission_try_carries agents_config TOOL_REGISTRY fuel
                crew_config parameters c1) as Hcarries.
  pose proof (execute_mission_try_returns_completed agents_config TOOL_REGISTRY
                fuel crew_config parameters c1) as Hreturns.
  destruct (execute_mission_try agents_config TOOL_REGISTRY fuel crew_config
              parameters c1) as [[[] | e |] c2]; cbn [snd] in Hkept.
  - (* the [try] block returns *)
    intros _. destruct (Hreturns c2 eq_refl) as [Hsaved Hstatus].
    assert (Hgrown : record_grows
                       (create_mission_state fresh_id (now w) crew_name goal)
                       (st c2))
      by (eapply record_grows_trans; eassumption).
    exists (st c2). unfold stored_state, settled_as, outcome_of.
    cbn [final_repository result].
    split; [|split; [|split]].
    + destruct Hgrown as [Hid _]. cbn [AgentState.mission_id create_mission_state] in Hid.
      rewrite <- Hid. exact Hsaved.
    + split; [reflexivity|now left].
    + exact Hgrown.
    + destruct Hkept as (_ & _ & _ & _ & [later Hhist] & _).
      rewrite Hhist, Hfirst. now exists later.
  - destruct e as [request | msg | cls msg].
    + (* the signal: the state is saved and returned *)
      intros _. destruct (Hcarries _ _ eq_refl request eq_refl)
        as [(Hstatus & Hrequest & _) _].
      assert (Hgrown : record_grows
                         (create_mission_state fresh_id (now w) crew_name goal)
                         (st c2))
        by (eapply record_grows_trans; eassumption).
      exists (st c2). unfold stored_state, settled_as, outcome_of. mstep.
      cbn [final_repository result st repo].
      split; [|split; [|split]].
      * destruct Hgrown as [Hid _].
        cbn [AgentState.mission_id create_mission_state] in Hid.
        rewrite <- Hid. apply get_by_id_save.
      * split; [reflexivity|right]. split; [exact Hstatus|].
        rewrite Hrequest. discriminate.
      * exact Hgrown.
      * destruct Hkept as (_ & _ & _ & _ & [later Hhist] & _).
        rewrite Hhist, Hfirst. now exists later.
    + intros _.
      set (failed := AgentState.mark_error (isoformat (now (world c2))) (hms_of c2)
                       ("Mission execution failed: " ++ msg) (st c2)).
      assert (Hfailed : record_grows (st c2) failed)
        by (subst failed; unfold AgentState.mark_error; grown).
      assert (Hgrown : record_grows
                         (create_mission_state fresh_id (now w) crew_name goal)
                         failed).
      { eapply record_grows_trans; [exact Hcreated|].
        eapply record_grows_trans; eassumption. }
      exists failed. unfold stored_state, settled_as, outcome_of. mstep.
      cbn [final_repository result st repo str_exn]. fold failed.
      split; [|split; [|split]].
      * destruct Hgrown as [Hid _].
        cbn [AgentState.mission_id create_mission_state] in Hid.
        rewrite <- Hid. apply get_by_id_save.
      * split; [reflexivity|]. subst failed. unfold AgentState.mark_error.
        state_simpl. intros Hnil. now apply app_eq_nil in Hnil as [_ Hnil].
      * exact Hgrown.
      * destruct (record_grows_trans _ _ _ Hkept Hfailed)
          as (_ & _ & _ & _ & [later Hhist] & _).
        rewrite Hhist, Hfirst. now exists later.
    + intros _.
      set (failed := AgentState.mark_error (isoformat (now (world c2))) (hms_of c2)
                       ("Mission execution failed: " ++ msg) (st c2)).
      assert (Hfailed : record_grows (st c2) failed)
        by (subst failed; unfold AgentState.mark_error; grown).
      assert (Hgrown : record_grows
                         (create_mission_state fresh_id (now w) crew_name goal)
                         failed).
      { eapply record_grows_trans; [exact Hcreated|].
        eapply record_grows_trans; eassumption. }
      exists failed. unfold stored_state, settled_as, outcome_of. mstep.
      cbn [final_repository result st repo str_exn]. fold failed.
      split; [|split; [|split]].
      * destruct Hgrown as [Hid _].
        cbn [AgentState.mission_id create_mission_state] in Hid.
        rewrite <- Hid. apply get_by_id_save.
      * split; [reflexivity|]. subst failed. unfold AgentState.mark_error.
        state_simpl. intros Hnil. now apply app_eq_nil in Hnil as [_ Hnil].
      * exact Hgrown.
      * destruct (record_grows_trans _ _ _ Hkept Hfailed)
          as (_ & _ & _ & _ & [later Hhist] & _).
        rewrite Hhist, Hfirst. now exists later.
  - intros Hends. now contradiction Hends.
Qed.

Lemma mission_outcome_is_saved_and_keeps_its_record_witness :
  Dict.get "solo" [("solo", DemoSolo.crew)] = Some DemoSolo.crew
  /\ result DemoSolo.run <> Diverge
  /\ exists s,
       stored_state "mission_1" DemoSolo.run = Some s
       /\ settled_as DemoSolo.run s
       /\ AgentState.mission_id s = "mission_1".
Proof.
  unfold DemoSolo.run.
  assert (Hcrew : Dict.get "solo" [("solo", DemoSolo.crew)] = Some DemoSolo.crew)
    by reflexivity.
  assert (Hends : result (@execute_mission DemoSolo.collaborators DemoSolo.agents
                            [("solo", DemoSolo.crew)] [] 10 "mission_1" "solo" "G"
                            None (Some Repository.empty) [])
                  <> Diverge).
  { intros Hdiverge. vm_compute in Hdiverge. discriminate Hdiverge. }
  split; [exact Hcrew|]. split; [exact Hends|].
  destruct (@mission_outcome_is_saved_and_keeps_its_record DemoSolo.collaborators
              DemoSolo.agents [("solo", DemoSolo.crew)] [] 10 "mission_1" "solo"
              "G" None Repository.empty [] DemoSolo.crew Hcrew Hends)
    as (s & Hstored & Hsettled & (Hid & _) & _).
  exists s. split; [exact Hstored|]. split; [exact Hsettled|exact Hid].
Defined.

(** ** The conversation state machine (orchestration/conversation_state.py) *)

Lemma startswith_longer (p s suffix : string) :
  Py.startswith p s = true -> Py.startswith p (s ++ suffix) = true.
Proof.
  revert s. induction p as [|a p IH]; intros s; [reflexivity|].
  destruct s as [|b s]; simpl; [discriminate|].
  intros Hs. apply andb_true_iff in Hs as [Hab Hs].
  rewrite Hab. simpl. now apply IH.
Qed.

(** X11. A conversation whose identifier begins with "mission_", or a call
    made with [allow_repeats], is exempt from loop detection: unless the
    conversation is ended or in error, [transition_to] returns [True], moves
    to AWAITING_RESPONSE and appends the target, even when the target is the
    participant just called.  Every conversation identifier the orchestrator
    builds for a mission whose identifier begins with "mission_" -- the
    identifier followed by a suffix -- is of that kind. *)
Theorem mission_conversations_may_repeat (target_llm_name : string)
    (event_store : option EventStore.t) (allow_repeats : bool)
    (m : ConversationStateMachine.t) :
  ~ closed m ->
  allow_repeats = true \/ Py.startswith "mission_" (ConversationStateMachine.id m) = true ->
  (exists event_store',
      ConversationStateMachine.transition_to target_llm_name event_store
        allow_repeats m
      = (Ret true,
         (ConversationStateMachine.mk (ConversationStateMachine.id m)
            ConversationStateMachine.AWAITING_RESPONSE
            (ConversationStateMachine.participants_chain m ++ [target_llm_name])%list,
          event_store')))
  /\ forall mission_id suffix,
       Py.startswith "mission_" mission_id = true ->
       Py.startswith "mission_" (mission_id ++ suffix) = true.
Proof.
  intros Hopen Hexempt. split; [|intros; now apply startswith_longer].
  unfold ConversationStateMachine.transition_to.
  assert (Hoff : negb allow_repeats
                 && negb (Py.startswith "mission_" (ConversationStateMachine.id m))
                 = false).
  { destruct Hexempt as [-> | ->]; [reflexivity|apply andb_false_r]. }
  rewrite Hoff. cbn [andb].
  destruct (ConversationStateMachine.current_state m) eqn:Hstate;
    try (eexists; reflexivity);
    exfalso; apply Hopen; unfold closed; rewrite Hstate; tauto.
Qed.

Lemma mission_conversations_may_repeat_witness :
  ~ closed (ConversationStateMachine.mk "mission_1_writer"
              ConversationStateMachine.RESPONSE_RECEIVED ["m1"])
  /\ fst (ConversationStateMachine.transition_to "m1" None false
            (ConversationStateMachine.mk "mission_1_writer"
               ConversationStateMachine.RESPONSE_RECEIVED ["m1"]))
     = Ret true.
Proof.
  assert (Hopen : ~ closed (ConversationStateMachine.mk "mission_1_writer"
                              ConversationStateMachine.RESPONSE_RECEIVED ["m1"])).
  { intros [Hclosed | Hclosed]; discriminate Hclosed. }
  split; [exact Hopen|].
  destruct (proj1 (mission_conversations_may_repeat "m1" None false
                     (ConversationStateMachine.mk "mission_1_writer"
                        ConversationStateMachine.RESPONSE_RECEIVED ["m1"])
                     Hopen (or_intror eq_refl)))
    as [event_store' Hrun].
  now rewrite Hrun.
Defined.

Lemma closed_after_operation (op : Operation) (m : ConversationStateMachine.t) :
  closed m ->
  closed (after_operation op m)
  /\ ConversationStateMachine.participants_chain (after_operation op m)
     = ConversationStateMachine.participants_chain m.
Proof.
  intros Hclosed. destruct op as [target allow | from |]; cbn [after_operation].
  - unfold ConversationStateMachine.transition_to.
    destruct Hclosed as [Hstate | Hstate]; rewrite Hstate; cbn [fst snd];
      (split; [unfold closed; rewrite Hstate; tauto|reflexivity]).
  - unfold ConversationStateMachine.record_response.
    destruct Hclosed as [Hstate | Hstate]; rewrite Hstate; cbn [fst snd];
      (split; [unfold closed; rewrite Hstate; tauto|reflexivity]).
  - split; [now left|reflexivity].
Qed.

(** X12. An ended or failed conversation stays so: whatever calls follow,
    the machine is still ended or in error and its chain of participants is
    unchanged, and every further [transition_to] raises "Invalid state
    transition".  Loop detection is what puts a conversation in error: with
    [allow_repeats] off and an identifier that does not begin with
    "mission_", calling the participant just called, or the one before it,
    raises and leaves the machine in ERROR. *)
Theorem closed_conversation_stays_closed (m : ConversationStateMachine.t) :
  (closed m ->
   forall ops,
     closed (after_operations ops m)
     /\ ConversationStateMachine.participants_chain (after_operations ops m)
        = ConversationStateMachine.participants_chain m
     /\ forall target_llm_name event_store allow_repeats,
          exists message,
            fst (ConversationStateMachine.transition_to target_llm_name
                   event_store allow_repeats (after_operations ops m))
            = Raise (PyException "Exception"
                       ("Invalid state transition: " ++ message)))
  /\ (~ closed m ->
      Py.startswith "mission_" (ConversationStateMachine.id m) = false ->
      forall target_llm_name event_store,
        ConversationStateMachine.is_last target_llm_name
          (ConversationStateMachine.participants_chain m) = true
        \/ ConversationStateMachine.is_last_but_one target_llm_name
             (ConversationStateMachine.participants_chain m) = true ->
        exists message,
          fst (ConversationStateMachine.transition_to target_llm_name
                 event_store false m)
          = Raise (PyException "Exception"
                     ("Invalid state transition: " ++ message))
          /\ ConversationStateMachine.current_state
               (fst (snd (ConversationStateMachine.transition_to target_llm_name
                            event_store false m)))
             = ConversationStateMachine.ERROR).
Proof.
  split.
  - intros Hclosed ops.
    assert (Hafter : closed (after_operations ops m)
                     /\ ConversationStateMachine.participants_chain
                          (after_operations ops m)
                        = ConversationStateMachine.participants_chain m).
    { revert m Hclosed. unfold after_operations.
      induction ops as [|op ops IH]; intros m Hclosed; [now split|].
      cbn [fold_left]. destruct (closed_after_operation op m Hclosed) as [Hc Hchain].
      destruct (IH _ Hc) as [Hc' Hchain']. split; [exact Hc'|congruence]. }
    destruct Hafter as [Hc Hchain]. split; [exact Hc|]. split; [exact Hchain|].
    intros target event_store allow.
    unfold ConversationStateMachine.transition_to.
    destruct Hc as [Hstate | Hstate]; rewrite Hstate; eexists; reflexivity.
  - intros Hopen Hid target event_store Hloop.
    unfold ConversationStateMachine.transition_to. rewrite Hid. cbn [negb andb].
    destruct (ConversationStateMachine.current_state m) eqn:Hstate;
      try (exfalso; apply Hopen; unfold closed; rewrite Hstate; tauto);
      destruct (ConversationStateMachine.is_last target _) eqn:Hlast;
      try (eexists; split; reflexivity);
      destruct Hloop as [Hl | Hl]; try discriminate Hl;
      rewrite Hl; eexists; split; reflexivity.
Qed.

Lemma id_after_operation (op : Operation) (m : ConversationStateMachine.t) :
  ConversationStateMachine.id (after_operation op m) = ConversationStateMachine.id m.
Proof.
  destruct op as [target allow | from |]; cbn [after_operation]; [| |reflexivity].
  - unfold ConversationStateMachine.transition_to.
    destruct (ConversationStateMachine.current_state m);
      repeat match goal with
             | |- context [if ?b then _ else _] => destruct b
             end; reflexivity.
  - unfold ConversationStateMachine.record_response.
    destruct (ConversationStateMachine.current_state m); try reflexivity.
    destruct (ConversationStateMachine.is_last _ _); reflexivity.
Qed.

Lemma no_short_loop_after_operation (op : Operation)
    (m : ConversationStateMachine.t) :
  Py.startswith "mission_" (ConversationStateMachine.id m) = false ->
  (forall target allow, op = TransitionTo target allow -> allow = false) ->
  no_short_loop (ConversationStateMachine.participants_chain m) ->
  no_short_loop (ConversationStateMachine.participants_chain (after_operation op m)).
Proof.
  intros Hid Hoff Hchain.
  destruct op as [target allow | from |]; cbn [after_operation]; [| |exact Hchain].
  - rewrite (Hoff target allow eq_refl).
    unfold ConversationStateMachine.transition_to. rewrite Hid. cbn [negb andb].
    destruct (ConversationStateMachine.current_state m); try exact Hchain;
      destruct (ConversationStateMachine.is_last target _) eqn:Hlast;
      try exact Hchain;
      destruct (ConversationStateMachine.is_last_but_one target _) eqn:Hbut;
      try exact Hchain;
      cbn [fst snd ConversationStateMachine.participants_chain];
      unfold no_short_loop in *; rewrite rev_unit;
      unfold ConversationStateMachine.is_last, ConversationStateMachine.is_last_but_one,
        PyList.last, PyList.last_but_one in Hlast, Hbut;
      cbn [no_short_loop_backwards];
      destruct (rev (ConversationStateMachine.participants_chain m))
        as [|b [|c rest]];
      try reflexivity; rewrite ?Hlast, ?Hbut; cbn [negb andb]; exact Hchain.
  - unfold ConversationStateMachine.record_response.
    destruct (ConversationStateMachine.current_state m); try exact Hchain.
    destruct (ConversationStateMachine.is_last _ _); exact Hchain.
Qed.

(** X13. With loop detection on -- an identifier that does not begin with
    "mission_" and no call made with [allow_repeats] -- the chain of
    participants never holds a participant next to itself nor a pattern
    A, B, A, whatever sequence of calls is made.  A cycle through three
    participants is not detected. *)
Theorem detected_conversations_have_no_short_loop (ops : list Operation)
    (m : ConversationStateMachine.t) :
  Py.startswith "mission_" (ConversationStateMachine.id m) = false ->
  without_repeats ops ->
  no_short_loop (ConversationStateMachine.participants_chain m) ->
  no_short_loop
    (ConversationStateMachine.participants_chain (after_operations ops m))
  /\ fst (ConversationStateMachine.transition_to "a" None false
            (ConversationStateMachine.mk "chat"
               ConversationStateMachine.RESPONSE_RECEIVED ["a"; "b"; "c"]))
     = Ret true.
Proof.
  intros Hid Hoff Hchain. split; [|reflexivity].
  revert m Hid Hchain. unfold after_operations.
  induction ops as [|op ops IH]; intros m Hid Hchain; [exact Hchain|].
  cbn [fold_left]. apply IH.
  - intros target allow Hin. apply (Hoff target allow). now right.
  - now rewrite id_after_operation.
  - apply no_short_loop_after_operation; [exact Hid| |exact Hchain].
    intros target allow ->. apply (Hoff target allow). now left.
Qed.

Lemma detected_conversations_have_no_short_loop_witness :
  Py.startswith "mission_" (ConversationStateMachine.id (ConversationStateMachine.init "chat"))
  = false
  /\ without_repeats [TransitionTo "a" false; RecordResponse "a";
                      TransitionTo "b" false; TransitionTo "a" false;
                      TransitionTo "c" false]
  /\ ConversationStateMachine.participants_chain
       (after_operations [TransitionTo "a" false; RecordResponse "a";
                          TransitionTo "b" false; TransitionTo "a" false;
                          TransitionTo "c" false]
          (ConversationStateMachine.init "chat"))
     = ["a"; "b"]
  /\ no_short_loop
       (ConversationStateMachine.participants_chain
          (after_operations [TransitionTo "a" false; RecordResponse "a";
                             TransitionTo "b" false; TransitionTo "a" false;
                             TransitionTo "c" false]
             (ConversationStateMachine.init "chat"))).
Proof.
  assert (Hid : Py.startswith "mission_"
                  (ConversationStateMachine.id (ConversationStateMachine.init "chat"))
                = false) by reflexivity.
  assert (Hoff : without_repeats [TransitionTo "a" false; RecordResponse "a";
                                  TransitionTo "b" false; TransitionTo "a" false;
                                  TransitionTo "c" false]).
  { intros target allow Hin. simpl in Hin.
    repeat (destruct Hin as [Hin|Hin]; [now inversion Hin|]). destruct Hin. }
  split; [exact Hid|]. split; [exact Hoff|]. split; [reflexivity|].
  exact (proj1 (detected_conversations_have_no_short_loop _
                  (ConversationStateMachine.init "chat") Hid Hoff eq_refl)).
Defined.

(** ** The circuit breaker (orchestration/circuit_breaker.py) *)

Lemma capped_backoff_bounds (b : CircuitBreaker.t) :
  (0 <= CircuitBreaker._reset_timeout_base_seconds b)%Z ->
  (0 <= CircuitBreaker._max_reset_timeout_seconds b)%Z ->
  0 <= CircuitBreaker.capped_backoff b
  /\ CircuitBreaker.capped_backoff b
     <= inject_Z (CircuitBreaker._max_reset_timeout_seconds b).
Proof.
  intros Hbase Hmax. unfold CircuitBreaker.capped_backoff.
  destruct (Qle_bool _ _) eqn:Hle.
  - split; [|now apply Qle_bool_iff].
    apply Qmult_le_0_compat.
    + change 0 with (inject_Z 0). now rewrite <- Zle_Qle.
    + apply Qpower_0_le. discriminate.
  - split; [|apply Qle_refl].
    change 0 with (inject_Z 0). now rewrite <- Zle_Qle.
Qed.

(** X14. Opening the circuit sets the next attempt after a wait that is the
    capped backoff times the jitter factor: whatever the number of
    consecutive failures, the wait is never longer than 1.2 times
    [max_reset_timeout_seconds] and never shorter than 0.8 times the capped
    backoff, which itself never exceeds [max_reset_timeout_seconds].  The
    failure counters are left as they are. *)
Theorem reopening_waits_within_the_cap (now jitter_factor : Q)
    (b : CircuitBreaker.t) :
  (0 <= CircuitBreaker._reset_timeout_base_seconds b)%Z ->
  (0 <= CircuitBreaker._max_reset_timeout_seconds b)%Z ->
  jitter_drawn jitter_factor ->
  exists wait,
    CircuitBreaker._open_circuit now jitter_factor b
    = CircuitBreaker.update (CircuitBreaker._failure_count b)
        (CircuitBreaker._consecutive_failure_count b) CircuitBreaker.OPEN
        (CircuitBreaker._last_failure_time b) (Some (now + wait)) b
    /\ wait <= (12 # 10) * inject_Z (CircuitBreaker._max_reset_timeout_seconds b)
    /\ (8 # 10) * CircuitBreaker.capped_backoff b <= wait
    /\ CircuitBreaker.capped_backoff b
       <= inject_Z (CircuitBreaker._max_reset_timeout_seconds b).
Proof.
  intros Hbase Hmax [Hlow Hhigh].
  destruct (capped_backoff_bounds b Hbase Hmax) as [H0 Hcap].
  exists (CircuitBreaker.capped_backoff b * jitter_factor).
  split; [reflexivity|]. split; [|split; [|exact Hcap]].
  - rewrite (Qmult_comm (12 # 10)).
    apply Qmult_le_compat_nonneg; split; try assumption.
    apply Qle_trans with (2 := Hlow). discriminate.
  - rewrite (Qmult_comm (8 # 10)).
    apply Qmult_le_compat_nonneg; split; try assumption;
      [apply Qle_refl|discriminate].
Qed.

Lemma reopening_waits_within_the_cap_witness :
  (0 <= CircuitBreaker._reset_timeout_base_seconds (CircuitBreaker.default "gateway"))%Z
  /\ (0 <= CircuitBreaker._max_reset_timeout_seconds (CircuitBreaker.default "gateway"))%Z
  /\ jitter_drawn 1
  /\ exists wait,
       CircuitBreaker._next_attempt_at
         (CircuitBreaker._open_circuit 100 1 (CircuitBreaker.default "gateway"))
       = Some (100 + wait)
       /\ wait <= (12 # 10) * inject_Z 300.
Proof.
  assert (Hbase : (0 <= CircuitBreaker._reset_timeout_base_seconds
                          (CircuitBreaker.default "gateway"))%Z)
    by (vm_compute; discriminate).
  assert (Hmax : (0 <= CircuitBreaker._max_reset_timeout_seconds
                         (CircuitBreaker.default "gateway"))%Z)
    by (vm_compute; discriminate).
  assert (Hjitter : jitter_drawn 1) by (split; discriminate).
  split; [exact Hbase|]. split; [exact Hmax|]. split; [exact Hjitter|].
  destruct (reopening_waits_within_the_cap 100 1 (CircuitBreaker.default "gateway")
              Hbase Hmax Hjitter) as (wait & Hopen & Hwait & _).
  exists wait. split; [now rewrite Hopen|exact Hwait].
Defined.

Lemma failure_below_the_threshold (now opened jitter_factor : Q)
    (b : CircuitBreaker.t) :
  CircuitBreaker._state b = CircuitBreaker.CLOSED ->
  (CircuitBreaker._failure_count b + 1 < CircuitBreaker._max_failures b)%Z ->
  fst (snd (CircuitBreaker.record_failure now opened jitter_factor None b))
  = CircuitBreaker.update (CircuitBreaker._failure_count b + 1)
      (CircuitBreaker._consecutive_failure_count b) CircuitBreaker.CLOSED
      (Some now) (CircuitBreaker._next_attempt_at b) b.
Proof.
  intros Hstate Hbelow. unfold CircuitBreaker.record_failure.
  cbn [CircuitBreaker._state CircuitBreaker.update
       CircuitBreaker._failure_count CircuitBreaker._max_failures].
  rewrite Hstate.
  assert (Hleb : (CircuitBreaker._max_failures b
                  <=? CircuitBreaker._failure_count b + 1)%Z = false)
    by (apply Z.leb_gt; lia).
  now rewrite Hleb.
Qed.

Lemma failures_below_the_threshold (failures : list Failure) (b : CircuitBreaker.t) :
  CircuitBreaker._state b = CircuitBreaker.CLOSED ->
  (CircuitBreaker._failure_count b + Z.of_nat (List.length failures)
   < CircuitBreaker._max_failures b)%Z ->
  CircuitBreaker._state (after_failures failures b) = CircuitBreaker.CLOSED
  /\ CircuitBreaker._failure_count (after_failures failures b)
     = (CircuitBreaker._failure_count b + Z.of_nat (List.length failures))%Z
  /\ CircuitBreaker._max_failures (after_failures failures b)
     = CircuitBreaker._max_failures b
  /\ CircuitBreaker._next_attempt_at (after_failures failures b)
     = CircuitBreaker._next_attempt_at b.
Proof.
  unfold after_failures. revert b.
  induction failures as [|failure failures IH]; intros b Hstate Hbelow.
  - cbn [fold_left List.length Z.of_nat]. rewrite Z.add_0_r. now repeat split.
  - cbn [fold_left]. cbn [List.length] in Hbelow.
    rewrite Nat2Z.inj_succ in Hbelow.
    rewrite failure_below_the_threshold by (assumption || lia).
    match goal with
    | |- context [fold_left _ failures ?b1] =>
        destruct (IH b1) as (Hs & Hf & Hm & Hn);
          [reflexivity
          |cbn [CircuitBreaker._failure_count CircuitBreaker._max_failures
                CircuitBreaker.update]; lia|]
    end.
    rewrite Hs, Hf, Hm, Hn.
    cbn [CircuitBreaker._failure_count CircuitBreaker._max_failures
         CircuitBreaker._next_attempt_at CircuitBreaker.update List.length].
    rewrite Nat2Z.inj_succ. repeat split; lia.
Qed.

(** X15. A closed breaker counts failures and stays closed while their
    number is below [max_failures]; the failure that reaches the threshold
    opens it, sets the count of consecutive openings to 1 and the next
    attempt to the instant of opening plus the jittered backoff.  A success
    before that resets the counters, so only failures that follow one
    another open the circuit. *)
Theorem breaker_opens_at_the_threshold (failures : list Failure)
    (last : Failure) (b : CircuitBreaker.t) :
  CircuitBreaker._state b = CircuitBreaker.CLOSED ->
  CircuitBreaker._failure_count b = 0%Z ->
  (Z.of_nat (List.length failures) + 1 = CircuitBreaker._max_failures b)%Z ->
  let before := after_failures failures b in
  let opened := after_failures (failures ++ [last]) b in
  CircuitBreaker._state before = CircuitBreaker.CLOSED
  /\ CircuitBreaker._failure_count before = Z.of_nat (List.length failures)
  /\ CircuitBreaker._state opened = CircuitBreaker.OPEN
  /\ CircuitBreaker._consecutive_failure_count opened = 1%Z
  /\ CircuitBreaker._next_attempt_at opened
     = Some (opened_at last + CircuitBreaker.capped_backoff opened * jitter last)
  /\ (let reset := fst (snd (CircuitBreaker.record_success None before)) in
      CircuitBreaker._state reset = CircuitBreaker.CLOSED
      /\ CircuitBreaker._failure_count reset = 0%Z
      /\ CircuitBreaker._consecutive_failure_count reset = 0%Z).
Proof.
  intros Hstate Hcount Hmax before opened.
  destruct (failures_below_the_threshold failures b Hstate) as (Hs & Hf & Hm & Hn);
    [lia|].
  fold before in Hs, Hf, Hm, Hn. rewrite Hcount in Hf. cbn [Z.add] in Hf.
  split; [exact Hs|]. split; [exact Hf|].
  assert (Hopened : opened
                    = fst (snd (CircuitBreaker.record_failure (counted_at last)
                                  (opened_at last) (jitter last) None before))).
  { subst opened before. unfold after_failures. now rewrite fold_left_app. }
  assert (Hleb : (CircuitBreaker._max_failures before
                  <=? CircuitBreaker._failure_count before + 1)%Z = true)
    by (apply Z.leb_le; lia).
  unfold CircuitBreaker.record_failure in Hopened.
  cbn [CircuitBreaker._state CircuitBreaker.update CircuitBreaker._failure_count
       CircuitBreaker._max_failures] in Hopened.
  rewrite Hs, Hleb in Hopened. cbn [CircuitBreaker.log fst snd] in Hopened.
  rewrite Hopened. split; [reflexivity|]. split; [reflexivity|].
  split; [reflexivity|].
  unfold CircuitBreaker.record_success. rewrite Hs.
  split; [reflexivity|]. split; reflexivity.
Qed.

Lemma breaker_opens_at_the_threshold_witness :
  CircuitBreaker._state (CircuitBreaker.default "gateway") = CircuitBreaker.CLOSED
  /\ CircuitBreaker._failure_count (CircuitBreaker.default "gateway") = 0%Z
  /\ (Z.of_nat (List.length [mkFailure 10 10 1; mkFailure 20 20 1]) + 1
      = CircuitBreaker._max_failures (CircuitBreaker.default "gateway"))%Z
  /\ CircuitBreaker._state
       (after_failures [mkFailure 10 10 1; mkFailure 20 20 1]
          (CircuitBreaker.default "gateway"))
     = CircuitBreaker.CLOSED
  /\ CircuitBreaker._state
       (after_failures ([mkFailure 10 10 1; mkFailure 20 20 1]
                        ++ [mkFailure 30 31 1])
          (CircuitBreaker.default "gateway"))
     = CircuitBreaker.OPEN.
Proof.
  destruct (breaker_opens_at_the_threshold
              [mkFailure 10 10 1; mkFailure 20 20 1] (mkFailure 30 31 1)
              (CircuitBreaker.default "gateway") eq_refl eq_refl eq_refl)
    as (Hbefore & _ & Hopened & _).
  split; [reflexivity|]. split; [reflexivity|]. split; [reflexivity|].
  split; [exact Hbefore|exact Hopened].
Defined.

(** X16. With no event store attached, an open breaker rejects a call with
    [CircuitBreakerError] before the wait is over, without running it and
    without changing; once the wait is over the call runs as a probe: its
    success closes the breaker and resets the counters, its failure with an
    expected exception reopens the breaker after one more consecutive
    opening and raises that exception again. *)
Theorem open_breaker_blocks_then_probes {W A : Type} (clock : W -> Q)
    (isoformat : Q -> string) (coro : W -> Res A * W)
    (opened jitter_factor next_attempt : Q) (w : W) (b : CircuitBreaker.t) :
  CircuitBreaker._state b = CircuitBreaker.OPEN ->
  CircuitBreaker._next_attempt_at b = Some next_attempt ->
  let outcome :=
    CircuitBreaker.execute W clock isoformat coro opened jitter_factor w None b in
  let after := fst (snd (fst outcome)) in
  (clock w < next_attempt ->
   (exists message, fst (fst outcome) = Raise (PyException "CircuitBreakerError" message))
   /\ after = b /\ snd outcome = w)
  /\ (next_attempt <= clock w ->
      snd outcome = snd (coro w)
      /\ (forall result, fst (coro w) = Ret result ->
          fst (fst outcome) = Ret result
          /\ CircuitBreaker._state after = CircuitBreaker.CLOSED
          /\ CircuitBreaker._failure_count after = 0%Z
          /\ CircuitBreaker._consecutive_failure_count after = 0%Z
          /\ CircuitBreaker._next_attempt_at after = None)
      /\ (forall e, fst (coro w) = Raise e ->
          CircuitBreaker._expected_exception b e = true ->
          fst (fst outcome) = Raise e
          /\ CircuitBreaker._state after = CircuitBreaker.OPEN
          /\ CircuitBreaker._consecutive_failure_count after
             = (CircuitBreaker._consecutive_failure_count b + 1)%Z
          /\ CircuitBreaker._next_attempt_at after
             = Some (opened + CircuitBreaker.capped_backoff after * jitter_factor))).
Proof.
  intros Hstate Hnext outcome after. subst after outcome.
  unfold CircuitBreaker.execute, CircuitBreaker.before_call.
  rewrite Hstate, Hnext. split.
  - intros Hearly.
    assert (Hle : Qle_bool next_attempt (clock w) = false).
    { destruct (Qle_bool next_attempt (clock w)) eqn:E; [|reflexivity].
      apply Qle_bool_iff in E. exfalso. exact (Qlt_not_le _ _ Hearly E). }
    rewrite Hle. cbn [CircuitBreaker.log fst snd].
    split; [eexists; reflexivity|]. split; reflexivity.
  - intros Hdue.
    assert (Hle : Qle_bool next_attempt (clock w) = true)
      by now apply Qle_bool_iff.
    rewrite Hle. cbn [CircuitBreaker.log].
    destruct (coro w) as [[result| e |] w'] eqn:Hcoro; cbn [fst snd].
    + unfold CircuitBreaker.record_success.
      cbn [CircuitBreaker.set_state CircuitBreaker.update CircuitBreaker._state
           CircuitBreaker.log fst snd].
      split; [reflexivity|]. split.
      * intros result' Hret. injection Hret as <-.
        split; [reflexivity|]. split; [reflexivity|]. split; [reflexivity|].
        split; reflexivity.
      * intros e He. discriminate He.
    + cbn [CircuitBreaker.set_state CircuitBreaker.update
           CircuitBreaker._expected_exception].
      split.
      * destruct (CircuitBreaker._expected_exception b e); [|reflexivity].
        unfold CircuitBreaker.record_failure.
        now cbn [CircuitBreaker.update CircuitBreaker._state CircuitBreaker.log
                 fst snd].
      * split; [intros result Hret; discriminate Hret|].
        intros e' He' Hexpected. injection He' as <-. rewrite Hexpected.
        unfold CircuitBreaker.record_failure.
        cbn [CircuitBreaker.update CircuitBreaker._state CircuitBreaker.log
             fst snd].
        split; [reflexivity|]. split; [reflexivity|]. split; reflexivity.
    + split; [reflexivity|].
      split; [intros result Hret|intros e He _]; discriminate.
Qed.

Lemma open_breaker_blocks_then_probes_witness :
  CircuitBreaker._state DemoOpenBreaker.breaker = CircuitBreaker.OPEN
  /\ CircuitBreaker._next_attempt_at DemoOpenBreaker.breaker = Some 60
  /\ snd (CircuitBreaker.execute Q DemoOpenBreaker.clock DemoOpenBreaker.isoformat
            DemoOpenBreaker.answer 10 1 10 None DemoOpenBreaker.breaker)
     = 10
  /\ snd (CircuitBreaker.execute Q DemoOpenBreaker.clock DemoOpenBreaker.isoformat
            DemoOpenBreaker.answer 70 1 70 None DemoOpenBreaker.breaker)
     = snd (DemoOpenBreaker.answer 70).
Proof.
  split; [reflexivity|]. split; [reflexivity|]. split.
  - destruct (open_breaker_blocks_then_probes DemoOpenBreaker.clock
                DemoOpenBreaker.isoformat DemoOpenBreaker.answer 10 1 60 10
                DemoOpenBreaker.breaker eq_refl eq_refl) as [Hearly _].
    destruct Hearly as (_ & _ & Hworld); [reflexivity|exact Hworld].
  - destruct (open_breaker_blocks_then_probes DemoOpenBreaker.clock
                DemoOpenBreaker.isoformat DemoOpenBreaker.answer 70 1 60 70
                DemoOpenBreaker.breaker eq_refl eq_refl) as [_ Hdue].
    destruct Hdue as (Hworld & _); [discriminate|exact Hworld].
Defined.

(** X17. With an event store attached, as the bridge attaches one, a breaker
    does not recover from opening: the call that finds the wait over is
    rejected with a [TypeError] without being run and leaves the breaker
    half-open, and a half-open breaker stays half-open after every call and
    hands back no value, whatever the protected call does. *)
Theorem half_open_is_kept_with_an_event_store {W A : Type} (clock : W -> Q)
    (isoformat : Q -> string) (coro : W -> Res A * W)
    (opened jitter_factor : Q) (w : W) (store : EventStore.t)
    (b : CircuitBreaker.t) :
  let outcome :=
    CircuitBreaker.execute W clock isoformat coro opened jitter_factor w
      (Some store) b in
  let after := fst (snd (fst outcome)) in
  (forall next_attempt,
     CircuitBreaker._state b = CircuitBreaker.OPEN ->
     CircuitBreaker._next_attempt_at b = Some next_attempt ->
     next_attempt <= clock w ->
     (exists message, fst (fst outcome) = Raise (PyException "TypeError" message))
     /\ CircuitBreaker._state after = CircuitBreaker.HALF_OPEN
     /\ snd outcome = w)
  /\ (CircuitBreaker._state b = CircuitBreaker.HALF_OPEN ->
      fails (fst (fst outcome))
      /\ CircuitBreaker._state after = CircuitBreaker.HALF_OPEN
      /\ snd (snd (fst outcome)) = Some store).
Proof.
  intros outcome after. subst after outcome.
  unfold CircuitBreaker.execute, CircuitBreaker.before_call. split.
  - intros next_attempt Hstate Hnext Hdue. rewrite Hstate, Hnext.
    assert (Hle : Qle_bool next_attempt (clock w) = true)
      by now apply Qle_bool_iff.
    rewrite Hle.
    cbn [CircuitBreaker.log EventStore.log_circuit_breaker_event
         EventStore.details fst snd].
    split; [eexists; reflexivity|]. split; reflexivity.
  - intros Hstate. rewrite Hstate.
    destruct (coro w) as [[result| e |] w'].
    + unfold CircuitBreaker.record_success. rewrite Hstate.
      cbn [CircuitBreaker.log EventStore.log_circuit_breaker_event
           EventStore.details fst snd fails].
      split; [exact I|]. split; [exact Hstate|reflexivity].
    + destruct (CircuitBreaker._expected_exception b e).
      * unfold CircuitBreaker.record_failure.
        cbn [CircuitBreaker.update CircuitBreaker._state]. rewrite Hstate.
        cbn [CircuitBreaker.log EventStore.log_circuit_breaker_event
             EventStore.details CircuitBreaker.update CircuitBreaker._state
             fst snd fails].
        split; [exact I|]. split; reflexivity.
      * cbn [fst snd fails]. split; [exact I|]. split; [exact Hstate|reflexivity].
    + cbn [fst snd fails]. split; [exact I|]. split; [exact Hstate|reflexivity].
Qed.

(** ** The Redis repository and the recovery at startup
    (repositories/redis_agent_state_repository.py, api/main.py) *)

Lemma dict_get_remove {V} (k k' : string) (d : Dict.t V) :
  Dict.get k (Dict.remove k' d)
  = if String.eqb k' k then None else Dict.get k d.
Proof.
  unfold Dict.remove. induction d as [|[k0 v0] d IH]; cbn [filter Dict.get fst].
  - now destruct (String.eqb k' k).
  - destruct (String.eqb_spec k' k0) as [->|Hneq]; cbn [negb Dict.get].
    + rewrite IH. rewrite (String.eqb_sym k k0). now destruct (String.eqb k0 k).
    + rewrite IH. destruct (String.eqb_spec k k0) as [->|_]; [|reflexivity].
      apply String.eqb_neq in Hneq. now rewrite Hneq.
Qed.

Lemma append_cancel (p a b : string) : p ++ a = p ++ b -> a = b.
Proof.
  induction p as [|c p IH]; simpl; [trivial|].
  intros Heq. injection Heq as Heq. now apply IH.
Qed.

Lemma get_key_injective (a b : string) :
  RedisAgentStateRepository._get_key a = RedisAgentStateRepository._get_key b ->
  a = b.
Proof. apply append_cancel. Qed.

Lemma in_sadd (x y : string) (l : list string) :
  In y (Repository.sadd x l) <-> y = x \/ In y l.
Proof.
  unfold Repository.sadd. destruct (Py.mem x l) eqn:Hmem.
  - apply mem_true_iff in Hmem. split; [now right|].
    intros [->|Hin]; assumption.
  - rewrite in_app_iff. simpl. split.
    + intros [Hin|[<-|[]]]; [now right|now left].
    + intros [->|Hin]; [right; now left|now left].
Qed.

Lemma in_srem (x y : string) (l : list string) :
  In y (Repository.srem x l) <-> y <> x /\ In y l.
Proof.
  unfold Repository.srem. rewrite filter_In. split.
  - intros [Hin Hneq]. split; [|assumption].
    intros ->. now rewrite String.eqb_refl in Hneq.
  - intros [Hneq Hin]. split; [assumption|].
    destruct (String.eqb_spec x y) as [->|_]; [now elim Hneq|reflexivity].
Qed.

Lemma smembers_set (key : string) (members : list string) (r : Redis.t) :
  Redis.smembers key (Redis.mk (Redis.strings r) (Dict.set key members (Redis.sets r)))
  = members.
Proof. unfold Redis.smembers. cbn [Redis.sets]. now rewrite dict_get_set_same. Qed.

Lemma redis_strings_save (now : Z) (state : AgentState.t) (client : Redis.t) :
  Redis.strings (RedisAgentStateRepository.save now state client)
  = Dict.set (RedisAgentStateRepository._get_key (AgentState.mission_id state))
      (StateJson.model_dump_json state,
       (now + RedisAgentStateRepository.MISSION_TTL_SECONDS)%Z)
      (Redis.strings client).
Proof.
  unfold RedisAgentStateRepository.save.
  now destruct (Py.mem (AgentState.status state) _).
Qed.

Lemma redis_active_save (now : Z) (state : AgentState.t) (client : Redis.t)
    (mission_id : string) :
  In mission_id
    (RedisAgentStateRepository.list_active_ids
       (RedisAgentStateRepository.save now state client))
  <-> (if listed_as_active (AgentState.status state)
       then mission_id = AgentState.mission_id state
            \/ In mission_id (RedisAgentStateRepository.list_active_ids client)
       else mission_id <> AgentState.mission_id state
            /\ In mission_id (RedisAgentStateRepository.list_active_ids client)).
Proof.
  unfold RedisAgentStateRepository.save, RedisAgentStateRepository.list_active_ids,
    listed_as_active.
  destruct (Py.mem (AgentState.status state) _).
  - unfold Redis.sadd. rewrite smembers_set. apply in_sadd.
  - unfold Redis.srem. rewrite smembers_set. apply in_srem.
Qed.

Lemma redis_get_save_other (now later : Z) (state : AgentState.t)
    (client : Redis.t) (mission_id : string) :
  mission_id <> AgentState.mission_id state ->
  RedisAgentStateRepository.get_by_id later mission_id
    (RedisAgentStateRepository.save now state client)
  = RedisAgentStateRepository.get_by_id later mission_id client.
Proof.
  intros Hother. unfold RedisAgentStateRepository.get_by_id, Redis.get.
  rewrite redis_strings_save, dict_get_set_other; [reflexivity|].
  intros Hkey. apply Hother. now apply get_key_injective.
Qed.

Lemma saved_state_is_loaded (now : Z) (state : AgentState.t) (client : Redis.t) :
  RedisAgentStateRepository.get_by_id now (AgentState.mission_id state)
    (RedisAgentStateRepository.save now state client)
  = Some (StateJson.model_validate_json (StateJson.model_dump_json state)).
Proof.
  unfold RedisAgentStateRepository.get_by_id, Redis.get.
  rewrite redis_strings_save, dict_get_set_same.
  unfold RedisAgentStateRepository.MISSION_TTL_SECONDS.
  destruct (Z.ltb_spec now (now + 24 * 3600)); [reflexivity|lia].
Qed.

Lemma redis_listed_after_save (now : Z) (state : AgentState.t) (client : Redis.t) :
  In (AgentState.mission_id state)
    (RedisAgentStateRepository.list_active_ids
       (RedisAgentStateRepository.save now state client))
  <-> listed_as_active (AgentState.status state) = true.
Proof.
  rewrite redis_active_save.
  destruct (listed_as_active (AgentState.status state)).
  - split; [reflexivity|]. intros _. now left.
  - split; [|discriminate]. intros [Hneq _]. now elim Hneq.
Qed.

Lemma get_result_read_back (agent_name result_type : string) (state : AgentState.t) :
  AgentState.get_result agent_name result_type
    (StateJson.model_validate_json (StateJson.model_dump_json state))
  = option_map StateJson.read_back
      (AgentState.get_result agent_name result_type state).
Proof.
  unfold AgentState.get_result, StateJson.model_validate_json,
    StateJson.model_dump_json.
  cbn [StateJson.parsed AgentState.results AgentState.set_results].
  rewrite (dict_get_map_values
             (fun slot : Dict.t ResultValue =>
                map (fun kind : string * ResultValue =>
                       (fst kind, StateJson.read_back (snd kind))) slot)).
  destruct (Dict.get agent_name (AgentState.results state)) as [slot|];
    [|reflexivity].
  cbn [option_map]. apply dict_get_map_values.
Qed.

(** X18. A state saved in Redis is read back under its mission identifier
    for 24 hours and is gone afterwards.  What is read back is the state as
    its JSON text gives it: status, plan, nodes, history, error messages and
    pending request as saved, every result a text or JSON value as saved, and
    every result that was a pydantic object as the dictionary of its fields,
    so that a quality verdict is no longer recognised as one.  The list of
    active missions does not expire with the state: a mission saved with an
    active status is still listed when its state can no longer be loaded. *)
Theorem saved_state_expires_but_stays_listed (now later : Z)
    (state : AgentState.t) (client : Redis.t) :
  let saved := RedisAgentStateRepository.save now state client in
  let mission_id := AgentState.mission_id state in
  let read := StateJson.model_validate_json (StateJson.model_dump_json state) in
  RedisAgentStateRepository.get_by_id later mission_id saved
  = (if (later <? now + 24 * 3600)%Z then Some read else None)
  /\ (In mission_id (RedisAgentStateRepository.list_active_ids saved)
      <-> listed_as_active (AgentState.status state) = true)
  /\ (AgentState.mission_id read = AgentState.mission_id state
      /\ AgentState.status read = AgentState.status state
      /\ AgentState.task_plan read = AgentState.task_plan state
      /\ AgentState.current_node read = AgentState.current_node state
      /\ AgentState.completed_nodes read = AgentState.completed_nodes state
      /\ AgentState.history read = AgentState.history state
      /\ AgentState.error_messages read = AgentState.error_messages state
      /\ AgentState.active_human_request read
         = AgentState.active_human_request state)
  /\ (forall agent_name result_type,
        AgentState.get_result agent_name result_type read
        = match AgentState.get_result agent_name result_type state with
          | Some (VText text) => Some (VText text)
          | Some (VData value) => Some (VData value)
          | Some (VModel _ dump) => Some (VData dump)
          | Some (VQuality qa) => Some (VData (StateJson.QualityAssessment_dump qa))
          | None => None
          end)
  /\ (forall agent_name result_type qa,
        AgentState.get_result agent_name result_type state = Some (VQuality qa) ->
        as_quality (AgentState.get_result agent_name result_type read) = None).
Proof.
  intros saved mission_id read. subst saved mission_id read.
  split; [|split; [|split; [|split]]].
  - unfold RedisAgentStateRepository.get_by_id, Redis.get.
    rewrite redis_strings_save, dict_get_set_same.
    now destruct (later <? _)%Z.
  - apply redis_listed_after_save.
  - repeat split.
  - intros agent_name result_type. rewrite get_result_read_back.
    now destruct (AgentState.get_result agent_name result_type state) as [[| | |]|].
  - intros agent_name result_type qa Hget.
    now rewrite get_result_read_back, Hget.
Qed.

Section Recovery.

Context `{Collab : Collaborators}.
Variable str_datetime : Z -> string.
Variable now : Z.

Lemma get_by_id_own_id (client : Redis.t) (mission_id : string)
    (state : AgentState.t) :
  stored_under_own_id client ->
  RedisAgentStateRepository.get_by_id now mission_id client = Some state ->
  AgentState.mission_id state = mission_id.
Proof.
  intros Hown. unfold RedisAgentStateRepository.get_by_id, Redis.get.
  destruct (Dict.get _ (Redis.strings client)) as [[data expires_at]|] eqn:Hget;
    [|discriminate].
  destruct (now <? expires_at)%Z; [|discriminate].
  intros Heq. injection Heq as <-. exact (Hown _ _ _ Hget).
Qed.

Lemma stored_under_own_id_save (state : AgentState.t) (client : Redis.t) :
  stored_under_own_id client ->
  stored_under_own_id (RedisAgentStateRepository.save now state client).
Proof.
  intros Hown mission_id data expires_at. rewrite redis_strings_save.
  destruct (String.eqb_spec mission_id (AgentState.mission_id state)) as [->|Hneq].
  - rewrite dict_get_set_same. intros Heq. now injection Heq as <- _.
  - rewrite dict_get_set_other; [apply Hown|].
    intros Hkey. apply Hneq. now apply get_key_injective.
Qed.

Lemma stored_under_own_id_step (client : Redis.t) (mission_id : string) :
  stored_under_own_id client -> stored_under_own_id (recover_mission str_datetime now client mission_id).
Proof.
  intros Hown. unfold recover_mission.
  destruct (RedisAgentStateRepository.get_by_id now mission_id client);
    [now apply stored_under_own_id_save|assumption].
Qed.

(** What one round of the loop does to the state and the listing of a
    mission, its own or another. *)
Lemma step_on_a_mission (client : Redis.t) (visited mission_id : string) :
  stored_under_own_id client ->
  match RedisAgentStateRepository.get_by_id now mission_id client with
  | Some state =>
      (exists state',
         RedisAgentStateRepository.get_by_id now mission_id (recover_mission str_datetime now client visited)
         = Some state'
         /\ (AgentState.status state = "ERROR" \/ visited = mission_id ->
             AgentState.status state' = "ERROR"))
      /\ (In mission_id
            (RedisAgentStateRepository.list_active_ids (recover_mission str_datetime now client visited))
          <-> visited <> mission_id
              /\ In mission_id (RedisAgentStateRepository.list_active_ids client))
  | None =>
      RedisAgentStateRepository.get_by_id now mission_id (recover_mission str_datetime now client visited)
      = None
      /\ (In mission_id
            (RedisAgentStateRepository.list_active_ids (recover_mission str_datetime now client visited))
          <-> In mission_id (RedisAgentStateRepository.list_active_ids client))
  end.
Proof.
  intros Hown. unfold recover_mission.
  destruct (RedisAgentStateRepository.get_by_id now visited client)
    as [loaded|] eqn:Hvisited.
  - pose proof (get_by_id_own_id _ _ _ Hown Hvisited) as Hid.
    assert (Hmarked : AgentState.mission_id (mark_interrupted str_datetime now loaded)
                      = visited) by exact Hid.
    destruct (String.eqb_spec visited mission_id) as [->|Hneq].
    + rewrite Hvisited. split.
      * exists (StateJson.model_validate_json
                  (StateJson.model_dump_json
                     (mark_interrupted str_datetime now loaded))).
        split; [|intros _; reflexivity].
        rewrite <- Hmarked at 1.
        apply saved_state_is_loaded.
      * rewrite redis_active_save. cbn [listed_as_active]. rewrite Hmarked.
        change (listed_as_active
                  (AgentState.status (mark_interrupted str_datetime now loaded)))
          with false. cbv iota. tauto.
    + assert (Hother : mission_id
                       <> AgentState.mission_id
                            (mark_interrupted str_datetime now loaded))
        by (rewrite Hmarked; congruence).
      rewrite (redis_get_save_other _ _ _ _ _ Hother).
      assert (Hlist : In mission_id
                        (RedisAgentStateRepository.list_active_ids
                           (RedisAgentStateRepository.save now
                              (mark_interrupted str_datetime now loaded) client))
                      <-> In mission_id
                            (RedisAgentStateRepository.list_active_ids client)).
      { rewrite redis_active_save.
        change (listed_as_active
                  (AgentState.status (mark_interrupted str_datetime now loaded)))
          with false. cbv iota. tauto. }
      destruct (RedisAgentStateRepository.get_by_id now mission_id client)
        as [state|].
      * split.
        -- exists state. split; [reflexivity|]. intros [Herror|Heq]; [assumption|].
           now elim Hneq.
        -- rewrite Hlist. tauto.
      * split; [reflexivity|exact Hlist].
  - destruct (RedisAgentStateRepository.get_by_id now mission_id client)
      as [state|] eqn:Hmission.
    + split.
      * exists state. split; [reflexivity|]. intros [Herror|Heq]; [assumption|].
        subst visited. congruence.
      * split; [|tauto]. intros Hin. split; [|assumption].
        intros ->. congruence.
    + split; [reflexivity|tauto].
Qed.

End Recovery.

Lemma recovery_of_a_list `{Collaborators} (str_datetime : Z -> string) (now : Z)
    (visited : list string) (client : Redis.t) (mission_id : string) :
  stored_under_own_id client ->
  let recovered :=
    fold_left (recover_mission str_datetime now) visited client in
  match RedisAgentStateRepository.get_by_id now mission_id client with
  | Some state =>
      (exists state',
         RedisAgentStateRepository.get_by_id now mission_id recovered = Some state'
         /\ (AgentState.status state = "ERROR" \/ In mission_id visited ->
             AgentState.status state' = "ERROR"))
      /\ (In mission_id (RedisAgentStateRepository.list_active_ids recovered)
          <-> ~ In mission_id visited
              /\ In mission_id (RedisAgentStateRepository.list_active_ids client))
  | None =>
      RedisAgentStateRepository.get_by_id now mission_id recovered = None
      /\ (In mission_id (RedisAgentStateRepository.list_active_ids recovered)
          <-> In mission_id (RedisAgentStateRepository.list_active_ids client))
  end.
Proof.
  revert client. induction visited as [|first visited IH]; intros client Hown.
  - cbn [fold_left In].
    destruct (RedisAgentStateRepository.get_by_id now mission_id client)
      as [state|].
    + split; [|tauto]. exists state. split; [reflexivity|]. now intros [?|[]].
    + split; [reflexivity|tauto].
  - cbn [fold_left In].
    pose proof (step_on_a_mission str_datetime now client first mission_id Hown)
      as Hstep.
    pose proof (IH (recover_mission str_datetime now client first)
                  (stored_under_own_id_step str_datetime now client first Hown))
      as Hrest.
    cbv zeta in Hrest.
    destruct (RedisAgentStateRepository.get_by_id now mission_id client)
      as [state|].
    + destruct Hstep as [(state1 & Hget1 & Herror1) Hlist1].
      rewrite Hget1 in Hrest.
      destruct Hrest as [(state' & Hget' & Herror') Hlist'].
      split.
      * exists state'. split; [exact Hget'|].
        intros [Herror|[Hfirst|Hin]].
        -- apply Herror'. left. apply Herror1. now left.
        -- apply Herror'. left. apply Herror1. now right.
        -- apply Herror'. now right.
      * rewrite Hlist', Hlist1. split.
        -- intros (Hnot & Hneq & Hin). split; [|assumption].
           intros [Hfirst|Hvisited]; [now apply Hneq|now apply Hnot].
        -- intros (Hnot & Hin). split; [tauto|]. split; [|assumption].
           intros Hfirst. apply Hnot. now left.
    + destruct Hstep as [Hget1 Hlist1]. rewrite Hget1 in Hrest.
      destruct Hrest as [Hget' Hlist']. split; [exact Hget'|].
      now rewrite Hlist', Hlist1.
Qed.

(** X19. After the recovery at startup a mission is listed as active
    exactly when it was listed before and its state could not be loaded,
    and such a state stays unloadable; every listed mission whose state
    could be loaded is found afterwards with status ERROR.  States are
    assumed to be stored under their own identifier, as [save] stores
    them. *)
Theorem recovery_clears_the_missions_it_can_load `{Collaborators}
    (str_datetime : Z -> string) (now : Z) (client : Redis.t)
    (mission_id : string) :
  stored_under_own_id client ->
  let recovered := recover_interrupted_missions str_datetime now client in
  (In mission_id (RedisAgentStateRepository.list_active_ids recovered)
   <-> In mission_id (RedisAgentStateRepository.list_active_ids client)
       /\ RedisAgentStateRepository.get_by_id now mission_id client = None)
  /\ (RedisAgentStateRepository.get_by_id now mission_id client = None ->
      RedisAgentStateRepository.get_by_id now mission_id recovered = None)
  /\ (In mission_id (RedisAgentStateRepository.list_active_ids client) ->
      RedisAgentStateRepository.get_by_id now mission_id client <> None ->
      exists state',
        RedisAgentStateRepository.get_by_id now mission_id recovered = Some state'
        /\ AgentState.status state' = "ERROR").
Proof.
  intros Hown recovered. subst recovered.
  unfold recover_interrupted_missions.
  pose proof (recovery_of_a_list str_datetime now
                (RedisAgentStateRepository.list_active_ids client) client
                mission_id Hown) as Hall.
  cbv zeta in Hall.
  destruct (RedisAgentStateRepository.get_by_id now mission_id client)
    as [state|].
  - destruct Hall as [(state' & Hget & Herror) Hlist].
    split; [|split].
    + rewrite Hlist. split; [tauto|]. intros [_ Hnone]. discriminate Hnone.
    + intros Hnone. discriminate Hnone.
    + intros Hlisted _. exists state'. split; [exact Hget|].
      apply Herror. now right.
  - destruct Hall as [Hget Hlist]. split; [|split].
    + rewrite Hlist. tauto.
    + intros _. exact Hget.
    + intros _ Hsome. now elim Hsome.
Qed.

Lemma stored_under_own_id_empty : stored_under_own_id Redis.empty.
Proof. intros mission_id state expires_at Hget. discriminate Hget. Qed.

Lemma recovery_clears_the_missions_it_can_load_witness :
  stored_under_own_id DemoRestart.client
  /\ ~ In "mission_1"
         (RedisAgentStateRepository.list_active_ids
            (@recover_interrupted_missions DemoRestart.collaborators
               DemoRestart.str_datetime 100000 DemoRestart.client))
  /\ In "mission_2"
       (RedisAgentStateRepository.list_active_ids
          (@recover_interrupted_missions DemoRestart.collaborators
             DemoRestart.str_datetime 100000 DemoRestart.client)).
Proof.
  assert (Hown : stored_under_own_id DemoRestart.client)
    by (apply stored_under_own_id_save, stored_under_own_id_save,
          stored_under_own_id_empty).
  split; [exact Hown|]. split.
  - destruct (@recovery_clears_the_missions_it_can_load DemoRestart.collaborators
                DemoRestart.str_datetime 100000 DemoRestart.client "mission_1" Hown)
      as (Hlisted & _).
    intros Hin. apply Hlisted in Hin. destruct Hin as [_ Hnone].
    discriminate Hnone.
  - destruct (@recovery_clears_the_missions_it_can_load DemoRestart.collaborators
                DemoRestart.str_datetime 100000 DemoRestart.client "mission_2" Hown)
      as (Hlisted & _).
    apply Hlisted. split; [left; reflexivity|reflexivity].
Defined.

(** ** The in-memory repository (repositories/memory_state_repository.py) *)

Lemma removals_filter {V} (to_delete : list string) (d : Dict.t V) :
  fold_left (fun states mission_id => Dict.remove mission_id states) to_delete d
  = filter (fun kv => negb (Py.mem (fst kv) to_delete)) d.
Proof.
  revert d. induction to_delete as [|k to_delete IH]; intros d; cbn [fold_left].
  - induction d as [|kv d IHd]; [reflexivity|]. simpl. f_equal. exact IHd.
  - rewrite IH. unfold Dict.remove. clear IH.
    induction d as [|kv d IHd]; [reflexivity|]. cbn [filter Py.mem existsb].
    rewrite (String.eqb_sym (fst kv) k).
    destruct (String.eqb k (fst kv)); cbn [negb orb filter].
    + exact IHd.
    + change (existsb (String.eqb (fst kv)) to_delete)
        with (Py.mem (fst kv) to_delete).
      destruct (Py.mem (fst kv) to_delete); cbn [negb]; now rewrite IHd.
Qed.

Lemma selected_keys {V} (f : string * V -> bool) (d : Dict.t V) (kv : string * V) :
  NoDup (Dict.keys d) -> In kv d ->
  Py.mem (fst kv) (map fst (filter f d)) = f kv.
Proof.
  intros Hnodup Hin. destruct (f kv) eqn:Hf.
  - apply mem_true_iff, in_map, filter_In. now split.
  - destruct (Py.mem (fst kv) (map fst (filter f d))) eqn:Hmem; [|reflexivity].
    apply mem_true_iff, in_map_iff in Hmem. destruct Hmem as (kv' & Hkey & Hin').
    apply filter_In in Hin'. destruct Hin' as [Hin' Hf'].
    assert (kv' = kv); [|congruence].
    clear Hf Hf'. induction d as [|kv0 d IH]; [contradiction|].
    cbn [Dict.keys map] in Hnodup. inversion Hnodup as [|? ? Hfresh Hrest]; subst.
    destruct Hin as [->|Hin], Hin' as [->|Hin'].
    + reflexivity.
    + elim Hfresh. rewrite <- Hkey. now apply in_map.
    + elim Hfresh. rewrite Hkey. now apply in_map.
    + now apply IH.
Qed.

Lemma dict_get_filter {V} (g : string * V -> bool) (k : string) (d : Dict.t V) :
  NoDup (Dict.keys d) ->
  Dict.get k (filter g d)
  = match Dict.get k d with
    | Some v => if g (k, v) then Some v else None
    | None => None
    end.
Proof.
  induction d as [|[k0 v0] d IH]; intros Hnodup; [reflexivity|].
  cbn [Dict.keys map fst] in Hnodup. inversion Hnodup as [|? ? Hfresh Hrest]; subst.
  cbn [filter Dict.get]. destruct (String.eqb_spec k k0) as [->|Hneq].
  - destruct (g (k0, v0)); cbn [Dict.get].
    + now rewrite String.eqb_refl.
    + rewrite (IH Hrest). now rewrite (dict_get_not_in_keys k0 d Hfresh).
  - destruct (g (k0, v0)); cbn [Dict.get].
    + apply String.eqb_neq in Hneq. rewrite Hneq. now apply IH.
    + now apply IH.
Qed.

Lemma filter_split_length {A} (f : A -> bool) (l : list A) :
  (List.length (filter f l) + List.length (filter (fun x => negb (f x)) l)
   = List.length l)%nat.
Proof.
  induction l as [|x l IH]; [reflexivity|].
  cbn [filter]. destruct (f x); cbn [negb List.length]; lia.
Qed.

(** X20. [cleanup_old_states] removes the states that are COMPLETED or ERROR
    with a completion instant before the cutoff, and only those; it returns
    their number and leaves the list of active missions as it is.  A state
    without completion instant, such as one that [mark_error] has marked as
    failed before it completed, is kept whatever its age. *)
Theorem cleanup_removes_only_finished_states (now older_than_hours : Z)
    (heap : InMemoryAgentStateRepository.Heap)
    (r : InMemoryAgentStateRepository.t) :
  NoDup (Dict.keys (InMemoryAgentStateRepository._states r)) ->
  let cutoff_time := (now - older_than_hours * 3600)%Z in
  let outcome :=
    InMemoryAgentStateRepository.cleanup_old_states now older_than_hours heap r in
  (forall mission_id,
     InMemoryAgentStateRepository.get_by_id mission_id (snd outcome)
     = match InMemoryAgentStateRepository.get_by_id mission_id r with
       | Some state =>
           if InMemoryAgentStateRepository.finished_before cutoff_time (heap state)
           then None else Some state
       | None => None
       end)
  /\ (fst outcome
      + List.length (InMemoryAgentStateRepository._states (snd outcome))
      = List.length (InMemoryAgentStateRepository._states r))%nat
  /\ InMemoryAgentStateRepository.list_active_ids (snd outcome)
     = InMemoryAgentStateRepository.list_active_ids r
  /\ (forall iso hms error_message state,
        AgentState.completed_at state = None ->
        InMemoryAgentStateRepository.finished_before cutoff_time
          (AgentState.mark_error iso hms error_message state)
        = false).
Proof.
  intros Hnodup cutoff_time outcome. subst outcome.
  unfold InMemoryAgentStateRepository.cleanup_old_states.
  fold cutoff_time. cbn [fst snd].
  set (finished := fun item : string * InMemoryAgentStateRepository.Ref =>
                     InMemoryAgentStateRepository.finished_before cutoff_time
                       (heap (snd item))).
  unfold Dict.items.
  assert (Hleft : fold_left
                    (fun states mission_id => Dict.remove mission_id states)
                    (map fst (filter finished (InMemoryAgentStateRepository._states r)))
                    (InMemoryAgentStateRepository._states r)
                  = filter (fun kv => negb (finished kv))
                      (InMemoryAgentStateRepository._states r)).
  { rewrite removals_filter. apply filter_ext_in. intros kv Hin.
    now rewrite (selected_keys finished _ kv Hnodup Hin). }
  rewrite Hleft. split; [|split; [|split]].
  - intros mission_id. unfold InMemoryAgentStateRepository.get_by_id.
    cbn [InMemoryAgentStateRepository._states].
    rewrite dict_get_filter by exact Hnodup.
    destruct (Dict.get mission_id (InMemoryAgentStateRepository._states r));
      [|reflexivity].
    unfold finished. cbn [snd].
    now destruct (InMemoryAgentStateRepository.finished_before _ _).
  - cbn [InMemoryAgentStateRepository._states]. rewrite length_map.
    apply filter_split_length.
  - reflexivity.
  - intros iso hms error_message state Hnone.
    unfold InMemoryAgentStateRepository.finished_before.
    change (AgentState.completed_at
              (AgentState.mark_error iso hms error_message state))
      with (AgentState.completed_at state).
    rewrite Hnone. apply andb_false_r.
Qed.

Lemma cleanup_removes_only_finished_states_witness :
  NoDup (Dict.keys (InMemoryAgentStateRepository._states DemoCleanup.repository))
  /\ InMemoryAgentStateRepository.get_by_id "mission_1"
       (snd (InMemoryAgentStateRepository.cleanup_old_states 1000000 24
               DemoCleanup.heap DemoCleanup.repository))
     = None
  /\ InMemoryAgentStateRepository.get_by_id "mission_2"
       (snd (InMemoryAgentStateRepository.cleanup_old_states 1000000 24
               DemoCleanup.heap DemoCleanup.repository))
     = Some 1%nat.
Proof.
  assert (Hnodup : NoDup (Dict.keys (InMemoryAgentStateRepository._states
                                       DemoCleanup.repository))).
  { change (NoDup ["mission_1"; "mission_2"]).
    constructor; [intros [Heq|[]]; discriminate Heq|].
    constructor; [intros []|constructor]. }
  split; [exact Hnodup|].
  destruct (cleanup_removes_only_finished_states 1000000 24 DemoCleanup.heap
              DemoCleanup.repository Hnodup) as (Hget & _).
  split; [exact (Hget "mission_1")|exact (Hget "mission_2")].
Defined.

Lemma memory_active_save (state : InMemoryAgentStateRepository.Ref)
    (heap : InMemoryAgentStateRepository.Heap)
    (r : InMemoryAgentStateRepository.t) :
  In (AgentState.mission_id (heap state))
    (InMemoryAgentStateRepository.list_active_ids
       (InMemoryAgentStateRepository.save state heap r))
  <-> In (AgentState.status (heap state))
        ["RUNNING"; "AWAITING_HUMAN_INPUT"; "PLANNING"].
Proof.
  unfold InMemoryAgentStateRepository.save,
    InMemoryAgentStateRepository.list_active_ids.
  cbv zeta. cbn [InMemoryAgentStateRepository._active_ids].
  rewrite <- (mem_true_iff (AgentState.status (heap state))).
  destruct (Py.mem (AgentState.status (heap state)) _); cbv iota.
  - rewrite in_sadd. split; [reflexivity|]. intros _. now left.
  - rewrite in_srem. split; [|discriminate]. intros [Hneq _]. now elim Hneq.
Qed.

(** X21. The two repositories do not list the same missions as active: after
    a state is saved, Redis lists its mission exactly when the in-memory
    repository does or the status is PENDING, and a PENDING mission is never
    listed by the in-memory repository. *)
Theorem pending_is_active_in_redis_only (now : Z)
    (state : InMemoryAgentStateRepository.Ref)
    (heap : InMemoryAgentStateRepository.Heap)
    (client : Redis.t) (r : InMemoryAgentStateRepository.t) :
  let mission_id := AgentState.mission_id (heap state) in
  let in_redis :=
    In mission_id
      (RedisAgentStateRepository.list_active_ids
         (RedisAgentStateRepository.save now (heap state) client)) in
  let in_memory :=
    In mission_id
      (InMemoryAgentStateRepository.list_active_ids
         (InMemoryAgentStateRepository.save state heap r)) in
  (in_redis <-> in_memory \/ AgentState.status (heap state) = "PENDING")
  /\ (AgentState.status (heap state) = "PENDING" -> in_redis /\ ~ in_memory).
Proof.
  intros mission_id in_redis in_memory. subst mission_id in_redis in_memory.
  rewrite memory_active_save.
  rewrite redis_listed_after_save. unfold listed_as_active.
  rewrite mem_true_iff. cbn [In]. split.
  - intuition congruence.
  - intros Hpending. rewrite Hpending. split; [now left|].
    intros [H|[H|[H|[]]]]; discriminate H.
Qed.

(** X22. Saving or deleting a mission in Redis leaves every other mission as
    it was, its stored state and its place on the list of active missions;
    after the deletion the mission itself can neither be loaded nor is it
    listed. *)
Theorem other_missions_are_left_alone (now later : Z) (state : AgentState.t)
    (mission_id : string) (client : Redis.t) :
  let saved := RedisAgentStateRepository.save now state client in
  let deleted := RedisAgentStateRepository.delete mission_id client in
  (forall other,
     other <> AgentState.mission_id state ->
     RedisAgentStateRepository.get_by_id later other saved
     = RedisAgentStateRepository.get_by_id later other client
     /\ (In other (RedisAgentStateRepository.list_active_ids saved)
         <-> In other (RedisAgentStateRepository.list_active_ids client)))
  /\ (forall other,
        other <> mission_id ->
        RedisAgentStateRepository.get_by_id later other deleted
        = RedisAgentStateRepository.get_by_id later other client
        /\ (In other (RedisAgentStateRepository.list_active_ids deleted)
            <-> In other (RedisAgentStateRepository.list_active_ids client)))
  /\ RedisAgentStateRepository.get_by_id later mission_id deleted = None
  /\ ~ In mission_id (RedisAgentStateRepository.list_active_ids deleted).
Proof.
  intros saved deleted. subst saved deleted. split; [|split; [|split]].
  - intros other Hother. split; [now apply redis_get_save_other|].
    rewrite redis_active_save.
    destruct (listed_as_active (AgentState.status state)); tauto.
  - intros other Hother. split.
    + unfold RedisAgentStateRepository.get_by_id, RedisAgentStateRepository.delete,
        Redis.get, Redis.srem, Redis.del.
      cbn [Redis.strings]. rewrite dict_get_remove.
      destruct (String.eqb_spec (RedisAgentStateRepository._get_key mission_id)
                  (RedisAgentStateRepository._get_key other)) as [Hkey|_];
        [|reflexivity].
      elim Hother. symmetry. now apply get_key_injective.
    + unfold RedisAgentStateRepository.list_active_ids,
        RedisAgentStateRepository.delete, Redis.srem.
      change (Redis.strings (Redis.del (RedisAgentStateRepository._get_key mission_id)
                               client))
        with (Dict.remove (RedisAgentStateRepository._get_key mission_id)
                (Redis.strings client)).
      rewrite (smembers_set RedisAgentStateRepository.ACTIVE_MISSIONS_SET_KEY _
                 (Redis.del (RedisAgentStateRepository._get_key mission_id) client)).
      rewrite in_srem. unfold Redis.smembers, Redis.del. cbn [Redis.sets]. tauto.
  - unfold RedisAgentStateRepository.get_by_id, RedisAgentStateRepository.delete,
      Redis.get, Redis.srem, Redis.del.
    cbn [Redis.strings]. rewrite dict_get_remove. now rewrite String.eqb_refl.
  - unfold RedisAgentStateRepository.list_active_ids,
      RedisAgentStateRepository.delete, Redis.srem.
    rewrite (smembers_set RedisAgentStateRepository.ACTIVE_MISSIONS_SET_KEY _
               (Redis.del (RedisAgentStateRepository._get_key mission_id) client)).
    rewrite in_srem. tauto.
Qed.

(** ** The tools as shipped (tools/registry.py) *)

Lemma document_analysis_entry `{Collaborators}
    (body : string -> list JSON -> World -> Res JSON * World) :
  exists description,
    Dict.get "document_analysis" (Registry.imported_registry body)
    = Some (@ToolInfo.mk _ (Registry.lambda body "document_analysis" "doc")
              description false).
Proof. eexists. reflexivity. Qed.

Lemma lambda_rejects_other_keywords `{Collaborators}
    (body : string -> list JSON -> World -> Res JSON * World)
    (name parameter keyword : string) (kwargs : Dict.t JSON) (w : World) :
  In keyword (Dict.keys kwargs) -> keyword <> parameter ->
  exists unexpected,
    In unexpected (Dict.keys kwargs)
    /\ Registry.lambda body name parameter kwargs w
       = (Raise (PyException "TypeError"
                   ("<lambda>() got an unexpected keyword argument '"
                    ++ unexpected ++ "'")), w).
Proof.
  intros Hin Hneq. unfold Registry.lambda, Registry.call, Registry.bind_kwargs.
  cbn [map fst].
  destruct (find (fun k => negb (Py.mem k [parameter])) (Dict.keys kwargs))
    as [unexpected|] eqn:Hfind.
  - exists unexpected. split; [|reflexivity].
    now apply find_some in Hfind.
  - exfalso. pose proof (find_none _ _ Hfind keyword Hin) as Hmem.
    cbn in Hmem. apply String.eqb_neq in Hneq. rewrite Hneq in Hmem.
    discriminate Hmem.
Qed.

(** X23. A call of the shipped tool "document_analysis" that names the
    parameter as its entry documents it, "document", never reaches the
    tool: the function takes [doc], so the call fails on a [TypeError] that
    [_execute_tool_call] hands to the agent as an error result, whatever the
    tool bodies compute and without touching the world. *)
Theorem documented_document_analysis_call_fails `{Collaborators}
    (body : string -> list JSON -> World -> Res JSON * World)
    (tool_call_response agent_name : string) (tool_call kwargs : Dict.t JSON)
    (c : Ctx) :
  json_loads (Py.strip tool_call_response) = inl (JObj tool_call) ->
  Dict.get "tool_name" tool_call = Some (JStr "document_analysis") ->
  Dict.get "args" tool_call = Some (JObj kwargs) ->
  In "document" (Dict.keys kwargs) ->
  let outcome :=
    _execute_tool_call (Registry.imported_registry body) tool_call_response
      agent_name c in
  (exists unexpected,
     In unexpected (Dict.keys kwargs)
     /\ fst outcome
        = Ret (error_dict
                 ("Tool execution failed: <lambda>() got an unexpected keyword argument '"
                  ++ unexpected ++ "'")))
  /\ world (snd outcome) = world c
  /\ repo (snd outcome) = repo c.
Proof.
  intros Hloads Hname Hargs Hdocument outcome. subst outcome.
  destruct (document_analysis_entry body) as [description Hentry].
  destruct (lambda_rejects_other_keywords body "document_analysis" "doc"
              "document" kwargs (world c) Hdocument)
    as (unexpected & Hin & Hcall); [discriminate|].
  unfold _execute_tool_call, _execute_tool_call_try.
  rewrite Hloads, Hname, Hargs, Hentry.
  unfold prepare_tool_args, call_tool.
  change (String.eqb "document_analysis" "ask_human") with false. cbv iota.
  mstep. cbn [ToolInfo.function]. rewrite Hcall. mstep.
  split; [|split; reflexivity].
  exists unexpected. split; [exact Hin|reflexivity].
Qed.

Lemma documented_document_analysis_call_fails_witness :
  @json_loads DemoDocumentedCall.collaborators (Py.strip DemoDocumentedCall.reply)
  = inl (JObj DemoDocumentedCall.tool_call)
  /\ Dict.get "tool_name" DemoDocumentedCall.tool_call
     = Some (JStr "document_analysis")
  /\ Dict.get "args" DemoDocumentedCall.tool_call
     = Some (JObj DemoDocumentedCall.kwargs)
  /\ In "document" (Dict.keys DemoDocumentedCall.kwargs)
  /\ @world DemoDocumentedCall.collaborators
       (snd (@_execute_tool_call DemoDocumentedCall.collaborators
               (@Registry.imported_registry DemoDocumentedCall.collaborators
                  DemoDocumentedCall.body)
               DemoDocumentedCall.reply "analyst" DemoDocumentedCall.context))
     = @world DemoDocumentedCall.collaborators DemoDocumentedCall.context.
Proof.
  assert (Hloads : @json_loads DemoDocumentedCall.collaborators
                     (Py.strip DemoDocumentedCall.reply)
                   = inl (JObj DemoDocumentedCall.tool_call))
    by (vm_compute; reflexivity).
  assert (Hdocument : In "document" (Dict.keys DemoDocumentedCall.kwargs))
    by (left; reflexivity).
  split; [exact Hloads|]. split; [reflexivity|]. split; [reflexivity|].
  split; [exact Hdocument|].
  destruct (@documented_document_analysis_call_fails
              DemoDocumentedCall.collaborators DemoDocumentedCall.body
              DemoDocumentedCall.reply "analyst" DemoDocumentedCall.tool_call
              DemoDocumentedCall.kwargs DemoDocumentedCall.context
              Hloads eq_refl eq_refl Hdocument) as (_ & Hworld & _).
  exact Hworld.
Defined.

(** ** Missions from templates (agent_orchestrator.py) *)

(** X24. [execute_template_mission] hands its [active_missions_dict] to
    [execute_mission] as the state repository, so a call that leaves the
    argument out, or passes a dictionary as the parameter is typed, never
    runs a mission: whatever the template and the crew, it raises, calls no
    model and stores nothing. *)
Theorem template_mission_fails_without_a_repository `{Collaborators}
    (agents_config : Dict.t AgentConfig.t) (crews_config : Dict.t CrewConfig.t)
    (TOOL_REGISTRY : Dict.t ToolInfo.t)
    (mission_templates : Dict.t MissionTemplate.t)
    (str_format : string -> Dict.t JSON -> Res string)
    (fuel : nat) (fresh_id template_name : string) (parameters : Dict.t JSON)
    (w : World) :
  let run :=
    execute_template_mission agents_config crews_config TOOL_REGISTRY
      mission_templates str_format fuel fresh_id template_name parameters in
  (fails (result (run NoStore w))
   /\ final_world (run NoStore w) = w
   /\ final_repository (run NoStore w) = None)
  /\ (forall d,
        fails (result (run (ADict d) w))
        /\ final_world (run (ADict d) w) = w
        /\ final_repository (run (ADict d) w) = None).
Proof.
  intros run. subst run.
  assert (Hnone : forall crew_name goal,
            let outcome :=
              execute_mission agents_config crews_config TOOL_REGISTRY fuel
                fresh_id crew_name goal (Some (JObj parameters)) None w in
            fails (result outcome) /\ final_world outcome = w
            /\ final_repository outcome = None).
  { intros crew_name goal. unfold execute_mission.
    destruct (Dict.get crew_name crews_config); cbn; now repeat split. }
  unfold execute_template_mission.
  destruct (Dict.get template_name mission_templates) as [template|];
    [|split; [|intros d]; cbn; now repeat split].
  destruct (MissionTemplate.prompt_template template) as [prompt_template|];
    [|split; [|intros d]; cbn; now repeat split].
  destruct (str_format prompt_template parameters) as [goal| e |];
    [|split; [|intros d]; cbn; now repeat split
     |split; [|intros d]; cbn; now repeat split].
  split; [apply Hnone|]. intros [|item d]; [apply Hnone|].
  destruct (Dict.get (MissionTemplate.crew template) crews_config);
    cbn; now repeat split.
Qed.

(** ** Serialisation for JSON (agent_orchestrator.py, agent_state.py) *)

Lemma PyVal_nested_ind (P : PyVal -> Prop) :
  P PNone -> (forall b, P (PBool b)) -> (forall q, P (PNum q)) ->
  (forall s, P (PStr s)) -> (forall t, P (PDatetime t)) ->
  (forall l, Forall P l -> P (PList l)) ->
  (forall d, Forall (fun kv => P (snd kv)) d -> P (PDict d)) ->
  (forall cls fields, Forall (fun kv => P (snd kv)) fields -> P (PModel cls fields)) ->
  forall v, P v.
Proof.
  intros HNone HBool HNum HStr HDatetime HList HDict HModel.
  fix IH 1. intros [| b | q | s | t | l | d | cls fields].
  - exact HNone.
  - apply HBool.
  - apply HNum.
  - apply HStr.
  - apply HDatetime.
  - apply HList. induction l as [|v l IHl]; constructor; [apply IH|exact IHl].
  - apply HDict. induction d as [|[k v] d IHd]; constructor; [apply IH|exact IHd].
  - apply HModel.
    induction fields as [|[k v] fields IHf]; constructor; [apply IH|exact IHf].
Qed.

Lemma map_fields_ext (f g : PyVal -> PyVal) (d : list (string * PyVal)) :
  Forall (fun kv => f (snd kv) = g (snd kv)) d ->
  map (fun '(k, v) => (k, f v)) d = map (fun '(k, v) => (k, g v)) d.
Proof.
  induction 1 as [|[k v] d Hv _ IH]; [reflexivity|].
  cbn [map snd] in *. now rewrite Hv, IH.
Qed.

Lemma serialize_after_model_dump `{Collaborators} (v : PyVal) :
  _serialize_for_json (model_dump v) = _serialize_for_json v.
Proof.
  induction v as [| b | q | s | t | l IH | d IH | cls fields IH]
    using PyVal_nested_ind; try reflexivity.
  - cbn [model_dump _serialize_for_json]. f_equal. rewrite map_map.
    apply map_ext_Forall. exact IH.
  - cbn [model_dump _serialize_for_json]. f_equal. rewrite map_map.
    apply map_ext_Forall. revert IH. apply Forall_impl.
    intros [k v] Hv. cbn [snd] in Hv. now rewrite Hv.
  - cbn [model_dump _serialize_for_json]. f_equal. rewrite map_map.
    apply map_ext_Forall. revert IH. apply Forall_impl.
    intros [k v] Hv. cbn [snd] in Hv. now rewrite Hv.
Qed.

(** X25. [_serialize_for_json], and [_serialize_results] with it, leave no
    [datetime] and no pydantic object in a value, at any depth; a value that
    has none is handed back as it is, so serialising twice changes nothing.
    For a pydantic object the result is that of serialising its
    [model_dump()], as the source writes it. *)
Theorem serialized_values_are_plain_json `{Collaborators} (v : PyVal) :
  plain_json (_serialize_for_json v) = true
  /\ _serialize_for_json (_serialize_for_json v) = _serialize_for_json v
  /\ _serialize_results v = _serialize_for_json v
  /\ (forall cls fields,
        v = PModel cls fields ->
        _serialize_for_json v = _serialize_for_json (model_dump v)).
Proof.
  assert (Hplain : forall u, plain_json (_serialize_for_json u) = true).
  { induction u as [| b | q | s | t | l IH | d IH | cls fields IH]
      using PyVal_nested_ind; try reflexivity.
    - cbn [_serialize_for_json plain_json]. apply forallb_forall.
      intros x Hin. apply in_map_iff in Hin. destruct Hin as (u & <- & Hin).
      rewrite Forall_forall in IH. now apply IH.
    - cbn [_serialize_for_json plain_json]. apply forallb_forall.
      intros x Hin. apply in_map_iff in Hin. destruct Hin as ([k u] & <- & Hin).
      rewrite Forall_forall in IH. exact (IH _ Hin).
    - cbn [_serialize_for_json plain_json]. apply forallb_forall.
      intros x Hin. apply in_map_iff in Hin. destruct Hin as ([k u] & <- & Hin).
      rewrite Forall_forall in IH. exact (IH _ Hin). }
  assert (Hfixed : forall u, plain_json u = true -> _serialize_for_json u = u).
  { induction u as [| b | q | s | t | l IH | d IH | cls fields IH]
      using PyVal_nested_ind; try reflexivity; try discriminate.
    - cbn [_serialize_for_json plain_json]. intros Hall. f_equal.
      rewrite forallb_forall in Hall. rewrite Forall_forall in IH.
      rewrite <- (map_id l) at 2. apply map_ext_in.
      intros u Hin. apply IH; [assumption|now apply Hall].
    - cbn [_serialize_for_json plain_json]. intros Hall. f_equal.
      rewrite forallb_forall in Hall. rewrite Forall_forall in IH.
      rewrite <- (map_id d) at 2. apply map_ext_in.
      intros [k u] Hin. f_equal. exact (IH _ Hin (Hall _ Hin)). }
  split; [apply Hplain|]. split; [apply Hfixed, Hplain|].
  split; [reflexivity|].
  intros cls fields _. symmetry. apply serialize_after_model_dump.
Qed.
